(** * openregistry.convoy: utilities of the change-feed consumer

    A shallow embedding of [openregistry/convoy/utils.py] and the
    properties its specification states about it.

    Python values are embedded as the JSON-like type [value]; a [dict] with
    string keys is a [gmap string value].  Code that can raise returns a
    [result]; code that talks to the outside world (the CouchDB server, the
    key/value backend of the auctions mapping, the API client constructors,
    the kill flag) takes the outside world's answers as an argument and
    records what it did in a trace. *)

From Stdlib Require Import ZArith String List Ascii Bool Lia.
From stdpp Require Import base gmap strings stringmap list fin_maps.

Set Warnings "-register-all".
Set Default Proof Using "Type".

Open Scope string_scope.
Open Scope list_scope.
Open Scope Z_scope.

(** * The program

    The definitions of this part follow [utils.py] function by function. *)

(** ** Python values *)

Inductive value :=
| VNone
| VBool (b : bool)
| VInt (z : Z)
| VStr (s : string)
| VList (l : list value)
| VDict (d : gmap string value)
| VObject (cls : string) (attrs : gmap string value)
| VClass (name : string).

(** A document, a configuration section, a row: a [dict] with string keys. *)
Abbreviation pydict := (gmap string value).

(** Python truthiness, as used by [if x], [x and y], [x or y]. *)
Definition truthy (v : value) : bool :=
  match v with
  | VNone => false
  | VBool b => b
  | VInt z => negb (z =? 0)
  | VStr s => negb (String.eqb s "")
  | VList l => match l with [] => false | _ => true end
  | VDict d => negb (bool_decide (dom d = ∅))
  | VObject _ _ => true
  | VClass _ => true
  end.

(** [x or y] *)
Definition py_or (x y : value) : value := if truthy x then x else y.

(** [v == s] for a string literal [s]: only a string with the same
    characters is equal to it. *)
Definition eq_str (v : value) (s : string) : bool :=
  match v with
  | VStr t => String.eqb t s
  | _ => false
  end.

(** [v is True] and [v is False]: identity with the boolean singletons. *)
Definition is_True (v : value) : bool :=
  match v with VBool true => true | _ => false end.

Definition is_False (v : value) : bool :=
  match v with VBool false => true | _ => false end.

(** [d.get(k)] and [d.get(k, default)] *)
Definition dict_get (d : pydict) (k : string) : value :=
  default VNone (d !! k).

Definition dict_get_default (d : pydict) (k : string) (dflt : value) : value :=
  default dflt (d !! k).

(** ** Exceptions *)

(** The exception classes the module names or can raise: the six classes it
    imports from [openprocurement_client.exceptions], [socket.error],
    its own [ConfigError], the builtins raised by subscripting, attribute
    access and [assert], and any other class, by name. *)
Inductive exc_class :=
| Forbidden
| RequestFailed
| ResourceNotFound
| UnprocessableEntity
| PreconditionFailed
| Conflict
| socket_error
| ConfigError
| KeyError
| TypeError
| AttributeError
| AssertionError
| OtherException (name : string).

#[global] Instance exc_class_eq_dec : EqDecision exc_class.
Proof. solve_decision. Defined.

(** An exception object: its class, its first argument ([e.message] in
    Python 2), and the two attributes the module reads: [status_code]
    (absent on classes that do not define it) and [strerror]. *)
Record exception := Exception {
  exc_type : exc_class;
  message : value;
  status_code : option Z;
  strerror : value
}.

Definition raise_new (c : exc_class) (arg : value) : exception :=
  {| exc_type := c; message := arg; status_code := None; strerror := VNone |}.

Inductive result (A : Type) :=
| Ok (a : A)
| Raise (e : exception).
Arguments Ok {A} a.
Arguments Raise {A} e.

#[global] Instance result_ret : MRet result := fun A a => Ok a.

#[global] Instance result_bind : MBind result := fun A B k r =>
  match r with
  | Ok a => k a
  | Raise e => Raise e
  end.

(** [d[k]]: [KeyError] when the key is absent. *)
Definition getitem (d : pydict) (k : string) : result value :=
  match d !! k with
  | Some v => Ok v
  | None => Raise (raise_new KeyError (VStr k))
  end.

(** [v[k]] on a value that may not be a [dict]. *)
Definition subscript (v : value) (k : string) : result value :=
  match v with
  | VDict d => getitem d k
  | _ => Raise (raise_new TypeError VNone)
  end.

(** ** ErrorClassifier: [retry_on_error] *)

Definition EXCEPTIONS : list exc_class :=
  [Forbidden; RequestFailed; ResourceNotFound; UnprocessableEntity;
   PreconditionFailed; Conflict].

(** [isinstance(e, classes)] for a tuple of classes. *)
Definition isinstance (e : exception) (classes : list exc_class) : bool :=
  bool_decide (exc_type e ∈ classes).

(** [exception.status_code]: [AttributeError] when the attribute is absent. *)
Definition get_status_code (e : exception) : result Z :=
  match status_code e with
  | Some s => Ok s
  | None => Raise (raise_new AttributeError (VStr "status_code"))
  end.

Definition retry_on_error (e : exception) : result bool :=
  if isinstance e EXCEPTIONS then
    s ← get_status_code e;
    if (s >=? 500) || bool_decide (s ∈ [409; 412; 429]) then Ok true
    else Ok false
  else Ok false.

(** ** ChangeFeedConsumer: [continuous_changes_feed] *)

(** The answer of [db.changes(include_docs=True, ...)]: the rows, each with
    the document it is about, and the sequence number to resume from. *)
Record row := Row {
  row_seq : Z;
  row_id : string;
  doc : pydict
}.

Record changes := Changes {
  results : list row;
  last_seq : Z
}.

(** [Munch(d)]: the same mapping, with attribute-style access. *)
Definition Munch (d : pydict) : pydict := d.

Definition CONTINUOUS_CHANGES_FEED_FLAG : bool := true.

(** What the generator does, in program order: it calls [db.changes], gets
    its answer, yields an item to its caller, reads [killer.kill_now],
    sleeps. *)
Inductive event :=
| CallChanges (include_docs : bool) (since limit : Z) (filter : string)
| Returned (data : changes)
| Yield (item : pydict)
| KillNow (b : bool)
| Sleep (timeout : Z).

(** What the outside world does in one iteration of the loop: the answer of
    the store to the poll (a batch, or an exception), and the value of
    [killer.kill_now] at the moment the loop reads it.  The flag is set
    asynchronously, so any value can be found there. *)
Record turn := Turn {
  poll : result changes;
  kill_now : bool
}.

(** How an iteration leaves the [while] loop. *)
Inductive control :=
| Next
| Break
| Propagate (e : exception).

(** How far a run got on a finite script: the generator returned
    ([StopIteration] for its caller), an exception left it, or it is still
    running, waiting for the answer to its last poll. *)
Inductive outcome :=
| StopIteration
| Raised (e : exception)
| Running.

Section Feed.

Variables (timeout limit : Z) (filter_doc : string).

(** The body of the [while] loop: the events of one iteration, the value of
    the local [last_seq_id] after it, and how the loop goes on. *)
Definition loop_body (last_seq_id : Z) (t : turn) : list event * Z * control :=
  let call := CallChanges true last_seq_id limit filter_doc in
  match poll t with
  | Raise e => ([call], last_seq_id, Propagate e)
  | Ok data =>
      let last_seq_id := last_seq data in
      if negb (length (results data) =? 0)%nat then
        (call :: Returned data
           :: map (fun row => Yield (Munch (doc row))) (results data)
           ++ [KillNow (kill_now t)],
         last_seq_id,
         if kill_now t then Break else Next)
      else
        if kill_now t then
          ([call; Returned data; KillNow true], last_seq_id, Break)
        else
          ([call; Returned data; KillNow false; Sleep timeout],
           last_seq_id, Next)
  end.

Fixpoint feed_loop (last_seq_id : Z) (script : list turn)
  : list event * outcome :=
  if CONTINUOUS_CHANGES_FEED_FLAG then
    match script with
    | [] => ([CallChanges true last_seq_id limit filter_doc], Running)
    | t :: script' =>
        let '(evs, last_seq_id', ctl) := loop_body last_seq_id t in
        match ctl with
        | Next =>
            let '(tr, o) := feed_loop last_seq_id' script' in
            (evs ++ tr, o)
        | Break => (evs, StopIteration)
        | Propagate e => (evs, Raised e)
        end
    end
  else ([], StopIteration).

Definition continuous_changes_feed (script : list turn)
  : list event * outcome :=
  feed_loop 0 script.

End Feed.

(** The defaults of the keyword arguments. *)
Definition default_timeout : Z := 10.
Definition default_limit : Z := 100.
Definition default_filter_doc : string := "auction_filters/convoy_feed".

Definition continuous_changes_feed_default : list turn -> list event * outcome :=
  continuous_changes_feed default_timeout default_limit default_filter_doc.

(** ** How Python 2 writes strings and lists of strings

    [push_filter_doc] substitutes two lists of procurement method types
    into the filter template with [%s]: each list is written by [str], which
    for a list writes the [repr] of each element. *)

Definition dquote : ascii := "034"%char.
Definition backslash : ascii := "092"%char.

Fixpoint mem_char (c : ascii) (s : string) : bool :=
  match s with
  | EmptyString => false
  | String d s' => Ascii.eqb c d || mem_char c s'
  end.

(** [repr] of a [str] uses single quotes, unless the string has a single
    quote and no double quote. *)
Definition repr_quote (s : string) : ascii :=
  if mem_char "'" s && negb (mem_char dquote s) then dquote else "'"%char.

Definition hex_digit (n : N) : ascii :=
  match String.get (N.to_nat n) "0123456789abcdef" with
  | Some c => c
  | None => "0"%char
  end.

(** One character inside the quotes [q]. *)
Definition repr_char (q c : ascii) : string :=
  if Ascii.eqb c q || Ascii.eqb c backslash then
    String backslash (String c "")
  else if Ascii.eqb c "009" then String backslash "t"
  else if Ascii.eqb c "010" then String backslash "n"
  else if Ascii.eqb c "013" then String backslash "r"
  else if (N_of_ascii c <? 32)%N || (127 <=? N_of_ascii c)%N then
    String backslash
      (String "x"
         (String (hex_digit (N_of_ascii c / 16))
            (String (hex_digit (N_of_ascii c mod 16)) "")))
  else String c "".

Fixpoint repr_body (q : ascii) (s : string) : string :=
  match s with
  | EmptyString => ""
  | String c s' => repr_char q c +:+ repr_body q s'
  end.

Definition repr_str (s : string) : string :=
  let q := repr_quote s in
  String q (repr_body q s +:+ String q "").

(** [sep.join(l)] *)
Fixpoint join (sep : string) (l : list string) : string :=
  match l with
  | [] => ""
  | [x] => x
  | x :: l' => x +:+ sep +:+ join sep l'
  end.

(** [str(l)] for a list of strings. *)
Definition str_list (l : list string) : string :=
  "[" +:+ join ", " (map repr_str l) +:+ "]".

(** The [%] operator on a format string and a tuple of arguments already
    converted by [str]: [%s] takes the next argument, [%%] is a percent
    sign, and the arguments must be used up exactly. *)
Fixpoint percent_format (fmt : string) (args : list string) : result string :=
  match fmt with
  | EmptyString =>
      match args with
      | [] => Ok ""
      | _ => Raise (raise_new TypeError
                      (VStr "not all arguments converted during string formatting"))
      end
  | String "%" (String "s" fmt') =>
      match args with
      | a :: args' => r ← percent_format fmt' args'; Ok (a +:+ r)
      | [] => Raise (raise_new TypeError
                       (VStr "not enough arguments for format string"))
      end
  | String "%" (String "%" fmt') =>
      r ← percent_format fmt' args; Ok (String "%" r)
  | String "%" _ =>
      Raise (raise_new (OtherException "ValueError")
               (VStr "unsupported format character"))
  | String c fmt' =>
      r ← percent_format fmt' args; Ok (String c r)
  end.

(** ** The world outside the process

    The content of the CouchDB database behind the [db] handle, every
    document handed to [db.save], the calls made to the other services with
    their answers, and the records written to [LOGGER]. *)

Inductive level := INFO | CHECK | WARNING | ERROR.

Record log_record := LogRecord {
  log_level : level;
  log_msg : string;
  log_args : list value;
  log_exc : option exception
}.

(** A call to a service outside the process, and its answer. *)
Record call := Call {
  target : string;
  method : string;
  args : list value;
  answer : result value
}.

Record world := World {
  documents : gmap string pydict;
  saved : list pydict;
  history : list call;
  logger : list log_record
}.

(** Code that reads and changes the world and may raise. *)
Definition M (A : Type) : Type := world -> world * result A.

#[global] Instance M_ret : MRet M := fun A a w => (w, Ok a).

#[global] Instance M_bind : MBind M := fun A B k m w =>
  match m w with
  | (w', Ok a) => k a w'
  | (w', Raise e) => (w', Raise e)
  end.

Definition lift {A} (r : result A) : M A := fun w => (w, r).

Definition raise {A} (e : exception) : M A := fun w => (w, Raise e).

(** [try: body except Exception as e: handler(e)] *)
Definition try_except {A} (body : M A) (handler : exception -> M A) : M A :=
  fun w =>
    match body w with
    | (w', Ok a) => (w', Ok a)
    | (w', Raise e) => handler e w'
    end.

Definition log (r : log_record) : M unit := fun w =>
  ({| documents := documents w; saved := saved w; history := history w;
      logger := logger w ++ [r] |}, Ok tt).

Definition LOGGER_info (msg : string) (args : list value) : M unit :=
  log (LogRecord INFO msg args None).

Definition LOGGER_warning (msg : string) (args : list value) : M unit :=
  log (LogRecord WARNING msg args None).

Definition LOGGER_error (msg : string) (args : list value)
    (exc_info : option exception) : M unit :=
  log (LogRecord ERROR msg args exc_info).

(** [Logger.check]: a record at level 25, and the exception, if there is
    one, at level ERROR. *)
Definition LOGGER_check (msg : string) (args : list value)
    (exc : option exception) : M unit :=
  log (LogRecord CHECK msg args None);;
  match exc with
  | Some e => LOGGER_error "{}" [message e] (Some e)
  | None => mret tt
  end.

(** *** The database handle

    [db.get(id, default)] answers the stored document, which CouchDB always
    returns with its [_id], or the default.  [db.save(doc)] stores the
    document under its [_id]; a document without one gets an identifier
    from the server.  The revision token that CouchDB keeps for each
    document is the server's own bookkeeping and is left out. *)
Definition db_get (id : string) (dflt : pydict) : M pydict := fun w =>
  (w, Ok match documents w !! id with
         | Some body => <["_id" := VStr id]> body
         | None => dflt
         end).

Definition store (id : string) (doc : pydict) (w : world) : world :=
  {| documents := <[id := doc]> (documents w);
     saved := saved w ++ [doc];
     history := history w;
     logger := logger w |}.

Definition db_save (doc : pydict) : M unit := fun w =>
  match doc !! "_id" with
  | Some (VStr id) => (store id doc w, Ok tt)
  | Some _ => (w, Raise (raise_new (OtherException "ServerError") VNone))
  | None =>
      let id := fresh_string "" (documents w) in
      (store id (<["_id" := VStr id]> doc) w, Ok tt)
  end.

(** ** FilterDocumentInstaller: [push_filter_doc] *)

Definition FILTER_DOC_ID : string := "_design/auction_filters".

Definition FILTER_CONVOY_FEED_DOC : string := "
function(doc, req) {
    if (doc.doc_type == 'Auction') {
    
        // basic lots auctions
        if (%s.indexOf(doc.procurementMethodType) >= 0) {
    
            if (doc.status == 'pending.verification') {
                return true;
            } else if (['complete', 'cancelled', 'unsuccessful'].indexOf(doc.status) >= 0 && doc.merchandisingObject) {
                return true;
            };
            
        // loki lots auctions
        } else if (%s.indexOf(doc.procurementMethodType) >= 0) {
        
            if (['complete', 'cancelled', 'unsuccessful'].indexOf(doc.status) >= 0  && doc.merchandisingObject) {
                return true;
            };
        
        };
        
    }
    return false;
}
".

(** [v.get(k)] and [v[k] = x] on a value that should be a [dict]. *)
Definition value_get (v : value) (k : string) : result value :=
  match v with
  | VDict d => Ok (dict_get d k)
  | _ => Raise (raise_new AttributeError (VStr "get"))
  end.

Definition setitem (v : value) (k : string) (x : value) : result value :=
  match v with
  | VDict d => Ok (VDict (<[k := x]> d))
  | _ => Raise (raise_new TypeError VNone)
  end.

(** The text of the predicate for the given track-type lists. *)
Definition filter_convoy_feed_doc (auctions_types : gmap string (list string))
  : result string :=
  percent_format FILTER_CONVOY_FEED_DOC
    [str_list (default [] (auctions_types !! "basic"));
     str_list (default [] (auctions_types !! "loki"))].

Definition push_filter_doc (auctions_types : gmap string (list string))
  : M unit :=
  text ← lift (filter_convoy_feed_doc auctions_types);
  filters_doc ← db_get FILTER_DOC_ID
    (<["_id" := VStr FILTER_DOC_ID]> (<["filters" := VDict ∅]> ∅));
  differs ← (if truthy (VDict filters_doc) then
               filters ← lift (getitem filters_doc "filters");
               entry ← lift (value_get filters "convoy_feed");
               mret (negb (eq_str entry text))
             else mret false);
  (if differs : bool then
     filters ← lift (getitem filters_doc "filters");
     filters' ← lift (setitem filters "convoy_feed" (VStr text));
     db_save (<["filters" := filters']> filters_doc);;
     LOGGER_info "Filter doc 'convoy_feed' saved." []
   else
     LOGGER_info "Filter doc 'convoy_feed' exist." []);;
  LOGGER_info "Added filters doc to db." [].

(** ** Services outside the process

    The Redis or LazyDB backend of the auctions mapping, the CouchDB server
    and the constructors of the API clients are outside the process.  What
    they answer to a call is given by [env], a function of everything that
    was called before; nothing else is assumed about it. *)

Definition environment : Type :=
  list call -> string -> string -> list value -> result value.

Definition record_call (c : call) (w : world) : world :=
  {| documents := documents w; saved := saved w;
     history := history w ++ [c]; logger := logger w |}.

Definition call_service (env : environment) (target method : string)
    (args : list value) : M value := fun w =>
  let a := env (history w) target method args in
  (record_call (Call target method args a) w, a).

(** [assert b] *)
Definition assert (b : bool) : M unit :=
  if b then mret tt else raise (raise_new AssertionError VNone).

(** A string between double quotes. *)
Definition quoted (s : string) : string :=
  String dquote (s +:+ String dquote "").

(** [k in d] *)
Definition contains_key (d : pydict) (k : string) : bool :=
  bool_decide (is_Some (d !! k)).

(** ** DedupStore: [AuctionsMapping] *)

(** The object: its configuration, the client it talks to ([StrictRedis] or
    [LazyDB]), the object the constructor of that client answered, and the
    two bound methods chosen at construction. *)
Record AuctionsMapping := {
  am_config : pydict;
  am_client : string;
  am_db : value;
  _set_value : string;
  _has_value : string
}.

Section Startup.

Variable env : environment.

Definition AuctionsMapping_init (config : pydict) : M AuctionsMapping :=
  if contains_key config "host" then
    let config' : pydict :=
      <["host" := dict_get config "host"]>
        (<["port" := py_or (dict_get config "port") (VInt 6379)]>
           (<["db" := py_or (dict_get config "name") (VInt 0)]>
              (<["password" := py_or (dict_get config "password") VNone]> ∅))) in
    db ← call_service env "StrictRedis" "__init__" [VDict config'];
    LOGGER_info
      ("Set redis store " +:+ quoted "{db}"
       +:+ " at {host}:{port} as auctions mapping")
      [VDict config'];;
    mret {| am_config := config; am_client := "StrictRedis"; am_db := db;
            _set_value := "set"; _has_value := "exists" |}
  else
    let db_name := dict_get_default config "name" (VStr "auctions_mapping") in
    db ← call_service env "LazyDB" "__init__" [db_name];
    LOGGER_info ("Set lazydb " +:+ quoted "{}" +:+ " as auctions mapping")
      [db_name];;
    mret {| am_config := config; am_client := "LazyDB"; am_db := db;
            _set_value := "put"; _has_value := "has" |}.

Definition am_get (self : AuctionsMapping) (key : string) : M value :=
  call_service env (am_client self) "get" [VStr key].

Definition am_put (self : AuctionsMapping) (key : string) (v : value)
    (kwargs : pydict) : M unit :=
  LOGGER_info "Save ID {} in cache" [VStr key];;
  call_service env (am_client self) (_set_value self)
    [VStr key; v; VDict kwargs];;
  mret tt.

Definition am_has (self : AuctionsMapping) (key : string) : M value :=
  call_service env (am_client self) (_has_value self) [VStr key].

Definition am_delete (self : AuctionsMapping) (key : string) : M value :=
  call_service env (am_client self) "delete" [VStr key].

Definition prepare_auctions_mapping (config : pydict) (check : bool)
  : M AuctionsMapping :=
  db ← AuctionsMapping_init config;
  (if check then
     am_put db "test" (VStr "1") ∅;;
     present ← am_has db "test";
     assert (is_True present);;
     v ← am_get db "test";
     assert (eq_str v "1");;
     am_delete db "test";;
     present' ← am_has db "test";
     assert (is_False present')
   else mret tt);;
  mret db.

(** ** ClientBootstrap: [prepare_couchdb] *)

(** [try: body except error as e: handler(e)]: only instances of the
    classes given are handled. *)
Definition try_except_only {A} (classes : list exc_class) (body : M A)
    (handler : exception -> M A) : M A :=
  fun w =>
    match body w with
    | (w', Ok a) => (w', Ok a)
    | (w', Raise e) =>
        if isinstance e classes then handler e w' else (w', Raise e)
    end.

(** [Server(couch_url, session=...)] only builds the handle; the requests
    are [db_name in server], [server.create(db_name)] and
    [server[db_name]]. *)
Definition prepare_couchdb (couch_url db_name : value) : M value :=
  try_except_only [socket_error]
    (present ← call_service env "Server" "__contains__" [couch_url; db_name];
     if negb (truthy present) then
       call_service env "Server" "create" [couch_url; db_name]
     else
       call_service env "Server" "__getitem__" [couch_url; db_name])
    (fun e =>
       LOGGER_error "Database error: {}" [message e] None;;
       raise (raise_new ConfigError (strerror e))).

End Startup.

(** ** ClientBootstrap: [init_clients] *)

(** [clients_from_config]: a dictionary that the function reads, updates
    and returns.  Its entries are kept in the order of the source; the
    order in which Python 2 walks a dictionary is an implementation detail
    on which nothing below depends. *)
Definition clients := list (string * value).

Fixpoint clients_get (cs : clients) (key : string) : result value :=
  match cs with
  | [] => Raise (raise_new KeyError (VStr key))
  | (k, v) :: cs' => if String.eqb k key then Ok v else clients_get cs' key
  end.

Fixpoint clients_set (cs : clients) (key : string) (v : value) : clients :=
  match cs with
  | [] => [(key, v)]
  | (k, v') :: cs' =>
      if String.eqb k key then (k, v) :: cs' else (k, v') :: clients_set cs' key v
  end.

Definition client_entry (section cls : string) : value :=
  VDict (<["section" := VStr section]> (<["client_instance" := VClass cls]> ∅)).

Definition clients_table : clients :=
  [("auctions_client", client_entry "auctions" "AuctionsClient");
   ("lots_client", client_entry "lots" "LotsClient");
   ("assets_client", client_entry "assets" "AssetsClient");
   ("contracts_client", client_entry "contracts" "ContractingClient")].

(** [hasattr(v, name)]: only objects carry attributes of their own. *)
Definition hasattr (v : value) (name : string) : bool :=
  match v with
  | VObject _ attrs => bool_decide (is_Some (attrs !! name))
  | _ => false
  end.

(** [v.get(k, default)] on a value that should be a [dict]. *)
Definition value_get_default (v : value) (k : string) (dflt : value)
  : result value :=
  match v with
  | VDict d => Ok (dict_get_default d k dflt)
  | _ => Raise (raise_new AttributeError (VStr "get"))
  end.

(** [template.format] with the mapping [v] as keyword arguments: every
    field named in the template must be a key of the mapping.  The text
    itself is not computed: the result keeps the template and the
    mapping. *)
Fixpoint first_missing (fields : list string) (d : pydict) : option string :=
  match fields with
  | [] => None
  | f :: fields' =>
      if contains_key d f then first_missing fields' d else Some f
  end.

Definition format_kw (template : string) (fields : list string) (v : value)
  : result value :=
  match v with
  | VDict d =>
      match first_missing fields d with
      | Some f => Raise (raise_new KeyError (VStr f))
      | None => Ok (VList [VStr template; VDict d])
      end
  | _ => Raise (raise_new TypeError VNone)
  end.

(** The name of a class object, to call its constructor. *)
Definition class_name (v : value) : result string :=
  match v with
  | VClass name => Ok name
  | _ => Raise (raise_new TypeError VNone)
  end.

Definition section_name (v : value) : result string :=
  match v with
  | VStr s => Ok s
  | _ => Raise (raise_new TypeError VNone)
  end.

(** The mapping object, as an entry of [clients_from_config]. *)
Definition mapping_object (m : AuctionsMapping) : value :=
  VObject "AuctionsMapping"
    (<["config" := VDict (am_config m)]> (<["db" := am_db m]> ∅)).

(** [client_config['section'] in sections] *)
Definition section_in (client_config : value) (sections : list string) : bool :=
  match subscript client_config "section" with
  | Ok (VStr s) => bool_decide (s ∈ sections)
  | _ => false
  end.

Section Bootstrap.

Variable env : environment.

(** The pattern that [init_clients] repeats for each resource:

    [try: ...; result = ('ok', None)]
    [except Exception as e: exceptions.append(e); result = ('failed', e)]
    [LOGGER.check('<name> - {}'.format(result[0]), result[1])]

    [construct] builds the resource and gives the updated
    [clients_from_config]. *)
Definition attempt (name : string) (construct : M clients)
    (st : clients * list exception) : M (clients * list exception) :=
  outcome ← try_except
    (cs ← construct; mret (cs, snd st, "ok", None))
    (fun e => mret (fst st, snd st ++ [e], "failed", Some e));
  let '(cs, exceptions, status, exc) := outcome in
  LOGGER_check (name +:+ " - " +:+ status) [] exc;;
  mret (cs, exceptions).

(** The body of the loop over [clients_from_config.items()]. *)
Definition init_client (config : pydict) (key : string) (item : value)
    (st : clients * list exception) : M (clients * list exception) :=
  section_v ← lift (subscript item "section");
  section ← lift (section_name section_v);
  attempt key
    (cls ← lift (c ← subscript item "client_instance"; class_name c);
     token ← lift (s ← getitem config section;
                   api ← subscript s "api"; subscript api "token");
     url ← lift (s ← getitem config section;
                 api ← subscript s "api"; subscript api "url");
     version ← lift (s ← getitem config section;
                     api ← subscript s "api"; subscript api "version");
     ds ← lift (s ← getitem config section; value_get_default s "ds" VNone);
     client ← call_service env cls "__init__" [token; url; version; ds];
     mret (clients_set (fst st) key client))
    st.

Fixpoint init_each (config : pydict) (items : clients)
    (st : clients * list exception) : M (clients * list exception) :=
  match items with
  | [] => mret st
  | (key, item) :: items' =>
      st' ← init_client config key item st;
      init_each config items' st'
  end.

Definition couchdb_url (config : pydict) : M value :=
  db ← lift (getitem config "db");
  login ← lift (value_get_default db "login" (VStr ""));
  authorized ← (if truthy login then
                  db ← lift (getitem config "db");
                  password ← lift (value_get_default db "password" (VStr ""));
                  mret (truthy password)
                else mret false);
  if authorized : bool then
    db ← lift (getitem config "db");
    db_url ← lift (format_kw "http://{login}:{password}@{host}:{port}"
                     ["login"; "password"; "host"; "port"] db);
    LOGGER_info "couchdb - authorized" [];;
    mret db_url
  else
    db ← lift (getitem config "db");
    db_url ← lift (format_kw "http://{host}:{port}" ["host"; "port"] db);
    LOGGER_info "couchdb without user" [];;
    mret db_url.

Definition init_clients (config : pydict) : M clients :=
  let sections :=
    List.filter (fun section => truthy (dict_get config section))
      ["auctions"; "lots"; "assets"; "contracts"] in
  let clients_from_config : clients :=
    List.filter (fun kv => section_in (snd kv) sections) clients_table in
  LOGGER_info "Clients for such resources will be initialized {}"
    [VList (map VStr sections)];;
  st ← init_each config clients_from_config (clients_from_config, []);
  auctions_client ← lift (clients_get (fst st) "auctions_client");
  (if negb (hasattr auctions_client "ds_client") then
     LOGGER_warning "Document Service configuration is not available." []
   else mret tt);;
  st ← attempt "couchdb"
    (db_url ← couchdb_url config;
     db_name ← lift (db ← getitem config "db"; subscript db "name");
     db ← prepare_couchdb env db_url db_name;
     mret (clients_set (fst st) "db" db))
    st;
  st ← attempt "auctions_mapping"
    (mapping ← match dict_get_default config "auctions_mapping" (VDict ∅) with
               | VDict d => prepare_auctions_mapping env d true
               | _ => raise (raise_new TypeError VNone)
               end;
     mret (clients_set (fst st) "auctions_mapping" (mapping_object mapping)))
    st;
  match snd st with
  | e :: _ => raise e
  | [] => mret (fst st)
  end.

End Bootstrap.

(** ** [get_client_from_resource_type] *)

(** [getattr(v, name)]: only objects carry attributes of their own. *)
Definition getattr (v : value) (name : string) : result value :=
  match v with
  | VObject _ attrs =>
      match attrs !! name with
      | Some x => Ok x
      | None => Raise (raise_new AttributeError (VStr name))
      end
  | _ => Raise (raise_new AttributeError (VStr name))
  end.

(** [resource_type] is a string, which [format] writes as it is. *)
Definition get_client_from_resource_type (processing : value)
    (resource_type : string) : result value :=
  let client_name := resource_type +:+ "s_client" in
  getattr processing client_name.

(** ** [make_contract] *)

(** [m.name] on a [Munch]: the entry under that key, [AttributeError] when
    there is none.  None of the names read below is a method of [dict]. *)
Definition munch_getattr (m : pydict) (name : string) : result value :=
  match m !! name with
  | Some v => Ok v
  | None => Raise (raise_new AttributeError (VStr name))
  end.

Fixpoint last_char (c : ascii) (s : string) : ascii :=
  match s with
  | EmptyString => c
  | String c' s' => last_char c' s'
  end.

(** [v[-1]]: the last element of a list, the last character of a string;
    a dictionary with string keys has no key [-1]; the other values cannot
    be subscripted. *)
Definition last_item (v : value) : result value :=
  match v with
  | VList l =>
      match last l with
      | Some x => Ok x
      | None =>
          Raise (raise_new (OtherException "IndexError")
                   (VStr "list index out of range"))
      end
  | VStr s =>
      match s with
      | EmptyString =>
          Raise (raise_new (OtherException "IndexError")
                   (VStr "string index out of range"))
      | String c s' => Ok (VStr (String (last_char c s') ""))
      end
  | VDict _ => Raise (raise_new KeyError (VInt (-1)))
  | _ => Raise (raise_new TypeError VNone)
  end.

Section Contract.

(** The two tuples of field names come from
    [openregistry.convoy.loki.constants]. *)
Variables (CONTRACT_REQUIRED_FIELDS CONTRACT_NOT_REQUIRED_FIELDS : list string).

(** [for key in fields: contract_object[key] = contract.get(key)] *)
Fixpoint copy_required (fields : list string) (contract : value)
    (contract_object : pydict) : result pydict :=
  match fields with
  | [] => Ok contract_object
  | key :: fields' =>
      v ← value_get_default contract key VNone;
      copy_required fields' contract (<[key := v]> contract_object)
  end.

(** [for key in fields: value = contract.get(key, None)]
    [if value: contract_object[key] = value] *)
Fixpoint copy_not_required (fields : list string) (contract : value)
    (contract_object : pydict) : result pydict :=
  match fields with
  | [] => Ok contract_object
  | key :: fields' =>
      v ← value_get_default contract key VNone;
      copy_not_required fields' contract
        (if truthy v then <[key := v]> contract_object else contract_object)
  end.

Definition make_contract (auction : pydict) : result pydict :=
  contracts ← munch_getattr auction "contracts";
  contract ← last_item contracts;
  contractTerms ← munch_getattr auction "contractTerms";
  contractType ← subscript contractTerms "type";
  relatedProcessID ← munch_getattr auction "id";
  let contract_object : pydict :=
    <["relatedProcessID" := relatedProcessID]>
      (<["contractType" := contractType]> ∅) in
  contract_object ←
    (if contains_key auction "merchandisingObject" then
       v ← munch_getattr auction "merchandisingObject";
       Ok (<["merchandisingObject" := v]> contract_object)
     else Ok contract_object);
  let contract_object : pydict :=
    if contains_key auction "mode" then
      <["mode" := VStr "test"]> contract_object
    else contract_object in
  contract_object ←
    copy_required CONTRACT_REQUIRED_FIELDS contract contract_object;
  copy_not_required CONTRACT_NOT_REQUIRED_FIELDS contract contract_object.

End Contract.

(** * Definitions used to state and prove the properties

    Readings of traces and worlds, the claims of the specification that
    the program does not meet, worded as propositions, and sample inputs. *)

(** ** Error values *)

(** An exception of the upstream API client: the library sets [status_code]
    on every one of them. *)
Definition api_error (c : exc_class) (s : Z) : exception :=
  {| exc_type := c; message := VStr ""; status_code := Some s; strerror := VNone |}.

(** ** Traces of the consumer *)

(** Projections of a trace. *)
Definition yields (tr : list event) : list pydict :=
  omap (fun ev => match ev with Yield item => Some item | _ => None end) tr.

Definition returned (tr : list event) : list changes :=
  omap (fun ev => match ev with Returned data => Some data | _ => None end) tr.

Definition polls (tr : list event) : list Z :=
  omap (fun ev => match ev with CallChanges _ since _ _ => Some since | _ => None end) tr.

(** The documents of a batch, as the caller receives them. *)
Definition batch_items (data : changes) : list pydict :=
  map (fun row => Munch (doc row)) (results data).

(** The DedupStore's content: the identifiers recorded as processed, each
    with its marker. *)
Definition recorded (mapping : gmap string value) (item : pydict) : Prop :=
  exists k, item !! "id" = Some (VStr k) /\ is_Some (mapping !! k).

(** The claim of C1 as the specification words it: an item whose identifier
    the dedup mapping has recorded is never yielded. *)
Definition yields_only_unrecorded : Prop :=
  forall (mapping : gmap string value) (script : list turn) (item : pydict),
    Yield item ∈ (continuous_changes_feed_default script).1 ->
    ~ recorded mapping item.

Definition auction_a1 : pydict :=
  <["id" := VStr "a1"]> (<["status" := VStr "pending.verification"]> ∅).

(** ** Reading back [str] of a list of strings

    The written form of a list is self-delimiting: whatever text follows
    it, the list and the text can be recovered.  This is what makes the
    rendered filter change whenever one of the two lists changes. *)

Definition hex_value (c : ascii) : N :=
  match String.index 0 (String c "") "0123456789abcdef" with
  | Some n => N.of_nat n
  | None => 0%N
  end.

(** Reads back one character written by [repr_char q]; [None] at the
    closing quote. *)
Definition unrepr_char (q : ascii) (s : string) : option (ascii * string) :=
  match s with
  | EmptyString => None
  | String c s' =>
      if Ascii.eqb c backslash then
        match s' with
        | String "x" (String h1 (String h2 rest)) =>
            Some (ascii_of_N (16 * hex_value h1 + hex_value h2), rest)
        | String "t" rest => Some ("009"%char, rest)
        | String "n" rest => Some ("010"%char, rest)
        | String "r" rest => Some ("013"%char, rest)
        | String d rest => Some (d, rest)
        | EmptyString => None
        end
      else if Ascii.eqb c q then None
      else Some (c, s')
  end.

(** The two characters that can delimit a [repr]. *)
Definition is_quote (q : ascii) : Prop := q = "'"%char \/ q = dquote.

(** What follows the first element of a written list. *)
Fixpoint str_list_tail (l : list string) : string :=
  match l with
  | [] => "]"
  | x :: l' => ", " +:+ repr_str x +:+ str_list_tail l'
  end.

(** ** The rendered predicate and the stored filter document *)

(** The literal text of a format string before its first directive, and
    the text after that directive. *)
Fixpoint before_directive (fmt : string) : string :=
  match fmt with
  | EmptyString => ""
  | String "%" _ => ""
  | String c fmt' => String c (before_directive fmt')
  end.

Fixpoint after_directive (fmt : string) : string :=
  match fmt with
  | EmptyString => ""
  | String "%" (String _ fmt') => fmt'
  | String _ fmt' => after_directive fmt'
  end.

Definition basic_types (auctions_types : gmap string (list string)) : list string :=
  default [] (auctions_types !! "basic").

Definition loki_types (auctions_types : gmap string (list string)) : list string :=
  default [] (auctions_types !! "loki").

(** The template with the two lists written in place of its two [%s]. *)
Definition filter_text (auctions_types : gmap string (list string)) : string :=
  before_directive FILTER_CONVOY_FEED_DOC
  +:+ str_list (basic_types auctions_types)
  +:+ before_directive (after_directive FILTER_CONVOY_FEED_DOC)
  +:+ str_list (loki_types auctions_types)
  +:+ after_directive (after_directive FILTER_CONVOY_FEED_DOC).

(** The document [push_filter_doc] starts from: the stored one, or the
    default with an empty filters mapping. *)
Definition default_filters_doc : pydict :=
  <["_id" := VStr FILTER_DOC_ID]> (<["filters" := VDict ∅]> ∅).

Definition filters_doc_of (w : world) : pydict :=
  match documents w !! FILTER_DOC_ID with
  | Some body => <["_id" := VStr FILTER_DOC_ID]> body
  | None => default_filters_doc
  end.

(** The number of documents handed to [db.save] so far. *)
Definition writes (w : world) : nat := length (saved w).

Definition add_logs (rs : list log_record) (w : world) : world :=
  {| documents := documents w; saved := saved w; history := history w;
     logger := logger w ++ rs |}.

Definition no_filters_world : world := World ∅ [] [] [].

Definition sample_types : gmap string (list string) :=
  <["basic" := ["rubble"; "dgfOtherAssets"]]>
    (<["loki" := ["sellout.english"]]> ∅).

Definition sample_types_changed : gmap string (list string) :=
  <["basic" := ["rubble"]]> (<["loki" := ["sellout.english"]]> ∅).

Definition world_with_filters : world :=
  World
    {[ FILTER_DOC_ID :=
         <["language" := VStr "javascript"]>
           (<["filters" := VDict {[ "other_feed" := VStr "function(doc) {}" ]}]> ∅) ]}
    [] [] [].

(** ** Servers *)

(** The claim of C9 as the specification words it: whatever makes
    [prepare_couchdb] fail, the caller sees a [ConfigError]. *)
Definition couchdb_errors_are_ConfigError : Prop :=
  forall (env : environment) (couch_url db_name : value) (w : world)
         (e : exception),
    (prepare_couchdb env couch_url db_name w).2 = Raise e ->
    exc_type e = ConfigError.

(** A server that refuses every request for lack of credentials. *)
Definition unauthorized : exception :=
  {| exc_type := OtherException "Unauthorized";
     message := VStr "unauthorized";
     status_code := None;
     strerror := VNone |}.

Definition env_unauthorized : environment :=
  fun _ _ _ _ => Raise unauthorized.

(** A server that cannot be reached. *)
Definition connection_refused : exception :=
  {| exc_type := socket_error;
     message := VStr "";
     status_code := None;
     strerror := VStr "Connection refused" |}.

Definition env_unreachable : environment :=
  fun _ _ _ _ => Raise connection_refused.

(** ** The self-check of [prepare_auctions_mapping] *)

(** One step of the self-check: the call expected and the check made on
    its answer. *)
Record step := Step {
  step_target : string;
  step_method : string;
  step_args : list value;
  step_check : value -> bool
}.

(** The self-check, in the order of the source: put, has, get, delete,
    has. *)
Definition self_check (client set_method has_method : string) : list step :=
  [Step client set_method [VStr "test"; VStr "1"; VDict ∅] (fun _ => true);
   Step client has_method [VStr "test"] is_True;
   Step client "get" [VStr "test"] (fun v => eq_str v "1");
   Step client "delete" [VStr "test"] (fun _ => true);
   Step client has_method [VStr "test"] is_False].

Definition same_call (c : call) (s : step) : Prop :=
  target c = step_target s /\ method c = step_method s /\ args c = step_args s.

(** The call expected was made, answered, and the answer passed. *)
Definition step_passes (c : call) (s : step) : Prop :=
  same_call c s /\ exists v, answer c = Ok v /\ step_check s v = true.

(** The call expected was made, and it raised [e] or its answer failed the
    check, which raises an [AssertionError]. *)
Definition step_fails (c : call) (s : step) (e : exception) : Prop :=
  same_call c s
  /\ (answer c = Raise e
      \/ exists v, answer c = Ok v /\ step_check s v = false
                   /\ e = raise_new AssertionError VNone).

(** The claim of C8 as the specification words it: a self-check that does
    not pass ends in a [ConfigError]. *)
Definition self_check_failure_is_ConfigError : Prop :=
  forall (env : environment) (config : pydict) (w : world) (e : exception),
    (prepare_auctions_mapping env config true w).2 = Raise e ->
    exc_type e = ConfigError.

(** A backend that accepts every call and remembers nothing: [has] answers
    [False] right after [put]. *)
Definition env_forgetful : environment :=
  fun _ _ method _ =>
    if String.eqb method "has" then Ok (VBool false) else Ok VNone.

(** The client the mapping talks to, and the self-check it runs on it: the
    presence of [host] in the configuration selects Redis. *)
Definition mapping_client (config : pydict) : string :=
  if contains_key config "host" then "StrictRedis" else "LazyDB".

Definition mapping_script (config : pydict) : list step :=
  if contains_key config "host" then self_check "StrictRedis" "set" "exists"
  else self_check "LazyDB" "put" "has".

(** A script of checked calls, run in order until one fails. *)
Fixpoint run_script (env : environment) (script : list step) : M unit :=
  match script with
  | [] => mret tt
  | s :: script' =>
      v ← call_service env (step_target s) (step_method s) (step_args s);
      assert (step_check s v);;
      run_script env script'
  end.

(** A backend that behaves like a dictionary: what it holds is what the
    calls made so far have put and not deleted. *)
Definition held (h : list call) : gmap string value :=
  foldl (fun m c =>
           match args c with
           | [VStr k; v; _] =>
               if String.eqb (method c) "put" || String.eqb (method c) "set"
               then <[k := v]> m else m
           | [VStr k] =>
               if String.eqb (method c) "delete" then delete k m else m
           | _ => m
           end) ∅ h.

Definition env_dict : environment :=
  fun h target method args =>
    if String.eqb method "__init__" then Ok (VObject target ∅)
    else
      match args with
      | [VStr k] =>
          if String.eqb method "has" || String.eqb method "exists" then
            Ok (VBool (bool_decide (is_Some (held h !! k))))
          else if String.eqb method "get" then Ok (dict_get (held h) k)
          else Ok VNone
      | _ => Ok VNone
      end.

(** ** Runs of [init_clients] *)

(** Sample configurations: one API section, the database section. *)
Definition api_section : value :=
  VDict {[ "api" := VDict (<["token" := VStr "secret"]>
                             (<["url" := VStr "http://api.example"]>
                                (<["version" := VStr "2.4"]> ∅))) ]}.

Definition db_section : value :=
  VDict (<["host" := VStr "localhost"]>
           (<["port" := VInt 5984]> (<["name" := VStr "auctions"]> ∅))).

Definition config_with_auctions : pydict :=
  <["auctions" := api_section]>
    (<["lots" := api_section]> (<["db" := db_section]> ∅)).

Definition config_lots_only : pydict :=
  <["lots" := api_section]> (<["db" := db_section]> ∅).

(** What a run looks like from outside: the result, the services called,
    and the records at level CHECK. *)
Definition run_summary (r : world * result clients)
  : (list string + exc_class) * list string * list string :=
  (match r.2 with
   | Ok cs => inl (map fst cs)
   | Raise e => inr (exc_type e)
   end,
   map target (history r.1),
   omap (fun l => match log_level l with
                  | CHECK => Some (log_msg l)
                  | _ => None
                  end) (logger r.1)).



(** The clients that the configuration asks for, as [init_clients] selects
    them. *)
Definition configured_clients (config : pydict) : clients :=
  List.filter
    (fun kv =>
       section_in (snd kv)
         (List.filter (fun section => truthy (dict_get config section))
            ["auctions"; "lots"; "assets"; "contracts"]))
    clients_table.




(** ** Runs of the consumer on answered batches *)

(** The cursor after a list of batches: the [last_seq] of the last one,
    the starting cursor when there is none. *)
Definition cursor_after (last_seq_id : Z) (batches : list changes) : Z :=
  foldl (fun _ b => last_seq b) last_seq_id batches.

(** Turns in which the store answers a batch and the kill flag is found
    unset. *)
Definition unkilled (batches : list changes) : list turn :=
  map (fun b => Turn (Ok b) false) batches.

(** ** More worlds and backends *)

(** A database whose filter document has no [filters] mapping. *)
Definition world_without_filters_mapping : world :=
  World {[ FILTER_DOC_ID := {[ "language" := VStr "javascript" ]} ]} [] [] [].

(** A backend whose every answer is the integer 1. *)
Definition env_one : environment := fun _ _ _ _ => Ok (VInt 1).

(** The keyword arguments [AuctionsMapping] builds for [StrictRedis]. *)
Definition redis_arguments (config : pydict) : pydict :=
  <["host" := dict_get config "host"]>
    (<["port" := py_or (dict_get config "port") (VInt 6379)]>
       (<["db" := py_or (dict_get config "name") (VInt 0)]>
          (<["password" := py_or (dict_get config "password") VNone]> ∅))).

(** ** Contracts *)

(** What [make_contract] writes under one key, for an auction whose last
    contract is the dictionary [contract]: the later writes of the source
    win over the earlier ones. *)
Definition contract_field (required not_required : list string)
    (auction contract : pydict) (contractType relatedProcessID : value)
    (key : string) : option value :=
  if bool_decide (key ∈ not_required) && truthy (dict_get contract key) then
    Some (dict_get contract key)
  else if bool_decide (key ∈ required) then Some (dict_get contract key)
  else if String.eqb key "mode" && contains_key auction "mode" then
    Some (VStr "test")
  else if String.eqb key "merchandisingObject" then
    auction !! "merchandisingObject"
  else if String.eqb key "relatedProcessID" then Some relatedProcessID
  else if String.eqb key "contractType" then Some contractType
  else None.

Definition sample_contract : pydict :=
  <["contractID" := VStr "UA-1"]> (<["description" := VStr ""]> ∅).

Definition sample_auction : pydict :=
  <["id" := VStr "a1"]>
    (<["mode" := VNone]>
       (<["contractTerms" := VDict {[ "type" := VStr "lease" ]}]>
          (<["contracts" := VList [VDict ∅; VDict sample_contract]]> ∅))).

(** ** Warnings *)

(** The messages logged at level WARNING. *)
Definition warning_msgs (rs : list log_record) : list string :=
  omap (fun l => match log_level l with
                 | WARNING => Some (log_msg l)
                 | _ => None
                 end) rs.

Definition warnings (w : world) : list string := warning_msgs (logger w).

(** A computation that logs no warning of its own. *)
Definition unwarned {A} (m : M A) : Prop :=
  forall w, warnings (m w).1 = warnings w.

Definition ds_warning : string :=
  "Document Service configuration is not available.".

(** * Properties *)

(** ** ErrorClassifier *)

Section ErrorClassifier.

Lemma isinstance_family e :
  isinstance e EXCEPTIONS = true <-> exc_type e ∈ EXCEPTIONS.
Proof. unfold isinstance. apply bool_decide_eq_true. Qed.

Lemma retryable_status_spec (s : Z) :
  (s >=? 500) || bool_decide (s ∈ [409; 412; 429]) = true
  <-> (500 <= s \/ s = 409 \/ s = 412 \/ s = 429).
Proof.
  rewrite orb_true_iff, bool_decide_eq_true, Z.geb_le.
  rewrite !elem_of_cons, elem_of_nil. tauto.
Qed.

(** C3. [retry_on_error e] returns [True] exactly when [e] is an instance
    of one of the six classes of [EXCEPTIONS] and its status code is at
    least 500 or is 409, 412 or 429.  In particular it returns [True] for
    family members with status 500, 502, 503, 409, 412, 429, [False] for
    family members with status 400, 404, 403, and [False] for every
    exception outside the family, whatever its status code. *)
Theorem retry_on_error_spec :
  (forall e : exception,
      retry_on_error e = Ok true <->
      exc_type e ∈ EXCEPTIONS /\
      exists s, status_code e = Some s /\
                (500 <= s \/ s = 409 \/ s = 412 \/ s = 429))
  /\ (forall c s, c ∈ EXCEPTIONS -> s ∈ [500; 502; 503; 409; 412; 429] ->
                  retry_on_error (api_error c s) = Ok true)
  /\ (forall c s, c ∈ EXCEPTIONS -> s ∈ [400; 404; 403] ->
                  retry_on_error (api_error c s) = Ok false)
  /\ (forall e, exc_type e ∉ EXCEPTIONS -> retry_on_error e = Ok false).
Proof.
  split; [|split; [|split]].
  - intros e. unfold retry_on_error, get_status_code.
    destruct (isinstance e EXCEPTIONS) eqn:Hi.
    + apply isinstance_family in Hi.
      destruct (status_code e) as [s|]; simpl.
      * destruct ((s >=? 500) || bool_decide (s ∈ [409; 412; 429])) eqn:Hs.
        -- apply retryable_status_spec in Hs. split; [|done].
           intros _. split; [done|]. by exists s.
        -- split; [done|]. intros (_ & s' & [= <-] & Hs').
           apply retryable_status_spec in Hs'. congruence.
      * split; [done|]. by intros (_ & s' & ? & _).
    + split; [done|]. intros [Hin _].
      apply isinstance_family in Hin. congruence.
  - intros c s Hc Hs. unfold retry_on_error.
    replace (isinstance (api_error c s) EXCEPTIONS) with true
      by (symmetry; by apply isinstance_family).
    simpl. rewrite !elem_of_cons, elem_of_nil in Hs.
    destruct Hs as [->|[->|[->|[->|[->|[->|[]]]]]]]; reflexivity.
  - intros c s Hc Hs. unfold retry_on_error.
    replace (isinstance (api_error c s) EXCEPTIONS) with true
      by (symmetry; by apply isinstance_family).
    simpl. rewrite !elem_of_cons, elem_of_nil in Hs.
    destruct Hs as [->|[->|[->|[]]]]; reflexivity.
  - intros e He. unfold retry_on_error.
    destruct (isinstance e EXCEPTIONS) eqn:Hi; [|done].
    apply isinstance_family in Hi. done.
Qed.

End ErrorClassifier.

Lemma retry_on_error_spec_witness :
  (Conflict ∈ EXCEPTIONS /\ 409 ∈ [500; 502; 503; 409; 412; 429]
   /\ retry_on_error (api_error Conflict 409) = Ok true)
  /\ (Forbidden ∈ EXCEPTIONS /\ 403 ∈ [400; 404; 403]
      /\ retry_on_error (api_error Forbidden 403) = Ok false)
  /\ ((exc_type (api_error socket_error 503) ∉ EXCEPTIONS)
      /\ retry_on_error (api_error socket_error 503) = Ok false).
Proof.
  assert (H1 : Conflict ∈ EXCEPTIONS) by (apply (bool_decide_unpack _); reflexivity).
  assert (H2 : 409 ∈ [500; 502; 503; 409; 412; 429])
    by (apply (bool_decide_unpack _); reflexivity).
  assert (H3 : Forbidden ∈ EXCEPTIONS) by (apply (bool_decide_unpack _); reflexivity).
  assert (H4 : 403 ∈ [400; 404; 403]) by (apply (bool_decide_unpack _); reflexivity).
  assert (H5 : exc_type (api_error socket_error 503) ∉ EXCEPTIONS)
    by (apply (bool_decide_unpack _); reflexivity).
  split; [|split].
  - split; [exact H1|]. split; [exact H2|].
    exact (proj1 (proj2 retry_on_error_spec) Conflict 409 H1 H2).
  - split; [exact H3|]. split; [exact H4|].
    exact (proj1 (proj2 (proj2 retry_on_error_spec)) Forbidden 403 H3 H4).
  - split; [exact H5|].
    exact (proj2 (proj2 (proj2 retry_on_error_spec)) _ H5).
Defined.

(** ** ChangeFeedConsumer *)

Section FeedProperties.

Variables (timeout limit : Z) (filter_doc : string).

Local Abbreviation body := (loop_body timeout limit filter_doc).
Local Abbreviation loop := (feed_loop timeout limit filter_doc).

Lemma yields_app tr1 tr2 : yields (tr1 ++ tr2) = yields tr1 ++ yields tr2.
Proof. apply omap_app. Qed.

Lemma returned_app tr1 tr2 : returned (tr1 ++ tr2) = returned tr1 ++ returned tr2.
Proof. apply omap_app. Qed.

Lemma yields_map_Yield (rows : list row) :
  yields (map (fun row => Yield (Munch (doc row))) rows)
  = map (fun row => Munch (doc row)) rows.
Proof. induction rows as [|r rows IH]; simpl; [done|]. by rewrite <- IH. Qed.

Lemma returned_map_Yield (rows : list row) :
  returned (map (fun row => Yield (Munch (doc row))) rows) = [].
Proof. induction rows as [|r rows IH]; simpl; done. Qed.

(** One unfolding of the loop on a script that still has a turn. *)
Lemma feed_loop_cons last_seq_id t script :
  loop last_seq_id (t :: script) =
  match body last_seq_id t with
  | (evs, last_seq_id', Next) =>
      (evs ++ (loop last_seq_id' script).1, (loop last_seq_id' script).2)
  | (evs, _, Break) => (evs, StopIteration)
  | (evs, _, Propagate e) => (evs, Raised e)
  end.
Proof.
  simpl. destruct (body last_seq_id t) as [[evs s'] ctl].
  destruct ctl; [|done..]. by destruct (loop s' script).
Qed.

(** Within one iteration, the items yielded are the items of the batch the
    store returned, in the order of the batch. *)
Lemma loop_body_yields last_seq_id t :
  yields (body last_seq_id t).1.1
  = concat (map batch_items (returned (body last_seq_id t).1.1)).
Proof.
  unfold loop_body. destruct (poll t) as [data|e]; [|done].
  unfold batch_items.
  destruct (results data) as [|r rows] eqn:Hres; simpl.
  - destruct (kill_now t); simpl; by rewrite Hres.
  - rewrite yields_app, returned_app, yields_map_Yield, returned_map_Yield.
    simpl. rewrite Hres. simpl. by rewrite !app_nil_r.
Qed.

Lemma feed_loop_yields last_seq_id script :
  yields (loop last_seq_id script).1
  = concat (map batch_items (returned (loop last_seq_id script).1)).
Proof.
  revert last_seq_id.
  induction script as [|t script IH]; intros last_seq_id; [done|].
  rewrite feed_loop_cons.
  pose proof (loop_body_yields last_seq_id t) as Hb.
  destruct (body last_seq_id t) as [[evs s'] ctl]; simpl in Hb.
  destruct ctl; simpl; [|done..].
  by rewrite yields_app, returned_app, map_app, concat_app, Hb, IH.
Qed.

Lemma elem_of_yields item tr : item ∈ yields tr <-> Yield item ∈ tr.
Proof.
  unfold yields. rewrite list_elem_of_omap. split.
  - intros (ev & Hev & Heq). destruct ev; simplify_eq. done.
  - intros Hin. by exists (Yield item).
Qed.

Lemma elem_of_returned data tr : data ∈ returned tr <-> Returned data ∈ tr.
Proof.
  unfold returned. rewrite list_elem_of_omap. split.
  - intros (ev & Hev & Heq). destruct ev; simplify_eq. done.
  - intros Hin. by exists (Returned data).
Qed.

(** A batch is returned, then each of its rows is yielded, and only then
    is the kill flag read. *)
Lemma feed_loop_batch last_seq_id r rows c k script :
  loop last_seq_id (Turn (Ok (Changes (r :: rows) c)) k :: script) =
  let head :=
    CallChanges true last_seq_id limit filter_doc
      :: Returned (Changes (r :: rows) c)
      :: map (fun row => Yield (Munch (doc row))) (r :: rows) in
  if k then (head ++ [KillNow true], StopIteration)
  else (head ++ KillNow false :: (loop c script).1, (loop c script).2).
Proof.
  rewrite feed_loop_cons. unfold loop_body. simpl.
  destruct k; simpl; [done|].
  by rewrite <- app_assoc.
Qed.

Lemma feed_loop_idle last_seq_id c k script :
  loop last_seq_id (Turn (Ok (Changes [] c)) k :: script) =
  let head :=
    [CallChanges true last_seq_id limit filter_doc; Returned (Changes [] c)] in
  if k then (head ++ [KillNow true], StopIteration)
  else (head ++ KillNow false :: Sleep timeout :: (loop c script).1,
        (loop c script).2).
Proof. rewrite feed_loop_cons. unfold loop_body. simpl. by destruct k. Qed.

Lemma feed_loop_raise last_seq_id e k script :
  loop last_seq_id (Turn (Raise e) k :: script) =
  ([CallChanges true last_seq_id limit filter_doc], Raised e).
Proof. by rewrite feed_loop_cons. Qed.

(** Every entry into the loop polls with the current value of the cursor. *)
Lemma feed_loop_first_poll last_seq_id script :
  exists tr,
    (loop last_seq_id script).1
    = CallChanges true last_seq_id limit filter_doc :: tr.
Proof.
  destruct script as [|[[[rows c]|e] k] script].
  - by eexists.
  - destruct rows as [|r rows].
    + rewrite feed_loop_idle. destruct k; by eexists.
    + rewrite feed_loop_batch. destruct k; by eexists.
  - rewrite feed_loop_raise. by eexists.
Qed.

(** The store's cursor is taken over whatever the batch and the flag are. *)
Lemma loop_body_cursor last_seq_id data k :
  (body last_seq_id (Turn (Ok data) k)).1.2 = last_seq data.
Proof.
  unfold loop_body. simpl.
  destruct (negb _); [done|]. by destruct k.
Qed.

Lemma KillNow_not_yield b (rows : list row) :
  KillNow b ∉ map (fun row => Yield (Munch (doc row))) rows.
Proof.
  induction rows as [|r rows IH]; simpl.
  - apply not_elem_of_nil.
  - rewrite elem_of_cons. intros [?|?]; [done|]. by apply IH.
Qed.

(** The generator returns exactly when it has read the kill flag set, and
    that read is the last thing it does. *)
Lemma feed_loop_stop last_seq_id script :
  ((loop last_seq_id script).2 = StopIteration
   <-> KillNow true ∈ (loop last_seq_id script).1)
  /\ (forall tr1 tr2,
         (loop last_seq_id script).1 = tr1 ++ KillNow true :: tr2 ->
         tr2 = []).
Proof.
  revert last_seq_id.
  induction script as [|[[[rows c]|e] k] script IH]; intros last_seq_id.
  - simpl. split.
    + split; [done|]. rewrite list_elem_of_singleton. done.
    + intros [|? [|? ?]] tr2 [=].
  - assert (Hhead : forall (head : list event) tl tr1 tr2,
               KillNow true ∉ head ->
               head ++ tl = tr1 ++ KillNow true :: tr2 ->
               exists tr1', tl = tr1' ++ KillNow true :: tr2).
    { induction head as [|ev head IHh]; intros tl tr1 tr2 Hnot Heq.
      - by exists tr1.
      - destruct tr1 as [|ev' tr1]; simpl in Heq; simplify_eq.
        + exfalso. apply Hnot. left.
        + eapply IHh; [|done]. intros ?. apply Hnot. by right. }
    destruct rows as [|r rows].
    + rewrite feed_loop_idle. destruct k; simpl.
      * split; [split; [intros _|done]|].
        -- do 2 right. left.
        -- intros [|? [|? [|? [|? ?]]]] tr2 [=]; by subst.
      * destruct (IH c) as [IH1 IH2]. split.
        -- rewrite IH1, !elem_of_cons.
           split; [by auto 6|]. intros [?|[?|[?|[?|?]]]]; done.
        -- intros tr1 tr2 Heq.
           destruct (Hhead [CallChanges true last_seq_id limit filter_doc;
                            Returned (Changes [] c); KillNow false;
                            Sleep timeout]
                       (loop c script).1 tr1 tr2) as [tr1' Htl]; [|done|].
           ++ rewrite !elem_of_cons, elem_of_nil.
              intros [?|[?|[?|[?|[]]]]]; done.
           ++ by eapply IH2.
    + rewrite feed_loop_batch.
      set (ys := map (fun row => Yield (Munch (doc row))) (r :: rows)).
      assert (Hys : KillNow true ∉ ys) by apply KillNow_not_yield.
      assert (Hhd : KillNow true ∉
                 CallChanges true last_seq_id limit filter_doc
                   :: Returned (Changes (r :: rows) c) :: ys).
      { rewrite !elem_of_cons. intros [?|[?|?]]; done. }
      cbv zeta. destruct k; cbn [fst snd].
      * split; [split; [intros _|done]|].
        -- rewrite elem_of_app, list_elem_of_singleton. by right.
        -- intros tr1 tr2 Heq.
           destruct (Hhead _ _ _ _ Hhd Heq) as [tr1' Htl].
           destruct tr1' as [|? [|? ?]]; simpl in Htl; by simplify_eq.
      * destruct (IH c) as [IH1 IH2]. split.
        -- rewrite IH1, elem_of_app.
           split; [intros H; right; by right|].
           intros [H|H]; [done|]. by apply elem_of_cons in H as [?|?].
        -- intros tr1 tr2 Heq.
           destruct (Hhead _ _ _ _ Hhd Heq) as [tr1' Htl].
           destruct tr1' as [|? tr1']; simpl in Htl; simplify_eq.
           by eapply IH2.
  - rewrite feed_loop_raise. simpl. split.
    + split; [done|]. rewrite list_elem_of_singleton. done.
    + intros [|? [|? ?]] tr2 [=].
Qed.

(** When the flag is never found set and no poll fails, every batch of the
    script is returned to the loop. *)
Lemma feed_loop_returned_all last_seq_id (batches : list changes) :
  returned (loop last_seq_id (map (fun b => Turn (Ok b) false) batches)).1
  = batches.
Proof.
  revert last_seq_id.
  induction batches as [|[rows c] batches IH]; intros last_seq_id; [done|].
  cbn [map]. destruct rows as [|r rows].
  - rewrite feed_loop_idle. simpl. by rewrite IH.
  - rewrite feed_loop_batch. cbv zeta. cbn [fst].
    rewrite returned_app. simpl. rewrite returned_map_Yield. simpl.
    by rewrite IH.
Qed.

End FeedProperties.

(** *** What the consumer yields *)

(** C2. Whatever batches the store returns during a run (in particular
    when its cursors advance monotonically), the items the generator yields
    are the documents of those batches, batch after batch and in the order
    of each batch: each row of each returned batch is yielded once and none
    is dropped.  When no poll fails and the kill flag is never found set, the
    batches returned are all the batches [B1..Bn] of the store. *)
Theorem feed_yields_every_document :
  forall (timeout limit : Z) (filter_doc : string),
    (forall script : list turn,
        let tr := (continuous_changes_feed timeout limit filter_doc script).1 in
        yields tr = concat (map batch_items (returned tr)))
    /\ (forall batches : list changes,
           let script := map (fun b => Turn (Ok b) false) batches in
           yields (continuous_changes_feed timeout limit filter_doc script).1
           = concat (map batch_items batches)).
Proof.
  intros timeout limit filter_doc. split.
  - intros script. apply feed_loop_yields.
  - intros batches script. unfold continuous_changes_feed.
    rewrite feed_loop_yields. subst script.
    by rewrite feed_loop_returned_all.
Qed.

(** C1, counterexample.  The mapping has recorded ["a1"]; the store returns
    one batch with the document ["a1"]; the generator yields it. *)
Lemma feed_yields_recorded_document : ~ yields_only_unrecorded.
Proof.
  intros Hclaim.
  apply (Hclaim {["a1" := VStr "1"]}
           [Turn (Ok (Changes [Row 1 "a1" auction_a1] 1)) true]
           auction_a1).
  - vm_compute. do 2 right. left.
  - exists "a1". split; [done|]. by eexists.
Qed.

(** C1, amended.  The generator has no access to the dedup mapping: it
    yields an item exactly when that item is a document of a batch the store
    returned, so a document is yielded whether or not the mapping has
    recorded its identifier. *)
Theorem feed_yields_regardless_of_dedup :
  forall (timeout limit : Z) (filter_doc : string) (script : list turn),
    let tr := (continuous_changes_feed timeout limit filter_doc script).1 in
    (forall item,
        Yield item ∈ tr <->
        exists data, Returned data ∈ tr /\ item ∈ batch_items data)
    /\ (forall (mapping : gmap string value) data item,
           Returned data ∈ tr -> item ∈ batch_items data ->
           recorded mapping item -> Yield item ∈ tr).
Proof.
  intros timeout limit filter_doc script tr.
  assert (Hiff : forall item,
             Yield item ∈ tr <->
             exists data, Returned data ∈ tr /\ item ∈ batch_items data).
  { intros item. rewrite <- elem_of_yields. subst tr.
    unfold continuous_changes_feed. rewrite feed_loop_yields.
    rewrite list_elem_of_In, in_concat. split.
    - intros (l & Hl & Hin). apply in_map_iff in Hl as (data & <- & Hdata).
      exists data. by rewrite <- elem_of_returned, !list_elem_of_In.
    - intros (data & Hdata & Hin). exists (batch_items data).
      rewrite in_map_iff, <- list_elem_of_In. split; [|done].
      exists data. by rewrite <- list_elem_of_In, elem_of_returned. }
  split; [done|].
  intros mapping data item Hret Hin _. apply Hiff. by exists data.
Qed.

Lemma feed_yields_regardless_of_dedup_witness :
  recorded {["a1" := VStr "1"]} auction_a1
  /\ Yield auction_a1
     ∈ (continuous_changes_feed 10 100 "auction_filters/convoy_feed"
          [Turn (Ok (Changes [Row 1 "a1" auction_a1] 1)) false]).1.
Proof.
  split.
  - exists "a1". split; [reflexivity|]. eexists. reflexivity.
  - apply (proj2 (feed_yields_regardless_of_dedup 10 100
                    "auction_filters/convoy_feed"
                    [Turn (Ok (Changes [Row 1 "a1" auction_a1] 1)) false])
             {["a1" := VStr "1"]} (Changes [Row 1 "a1" auction_a1] 1)).
    + vm_compute. right. left.
    + vm_compute. left.
    + exists "a1". split; [reflexivity|]. eexists. reflexivity.
Defined.

(** *** The cursor *)

(** C5. Each iteration takes the cursor the poll returned, whatever the
    batch and the kill flag are, and the next poll is issued with it.  When
    a poll returns cursor 42 and no rows and the flag is unset, the generator
    sleeps for [timeout] (10 by default) and then polls with cursor 42. *)
Theorem feed_cursor_follows_store :
  forall (timeout limit : Z) (filter_doc : string),
    (forall last_seq_id data k,
        (loop_body timeout limit filter_doc last_seq_id (Turn (Ok data) k)).1.2
        = last_seq data)
    /\ (forall last_seq_id data script,
           exists evs tr,
             (feed_loop timeout limit filter_doc last_seq_id
                (Turn (Ok data) false :: script)).1
             = evs ++ CallChanges true (last_seq data) limit filter_doc :: tr
             /\ polls evs = [last_seq_id])
    /\ (forall last_seq_id script,
           exists tr,
             (feed_loop timeout limit filter_doc last_seq_id
                (Turn (Ok (Changes [] 42)) false :: script)).1
             = CallChanges true last_seq_id limit filter_doc
                 :: Returned (Changes [] 42)
                 :: KillNow false
                 :: Sleep timeout
                 :: CallChanges true 42 limit filter_doc :: tr)
    /\ continuous_changes_feed_default [Turn (Ok (Changes [] 42)) false]
       = ([CallChanges true 0 100 "auction_filters/convoy_feed";
           Returned (Changes [] 42);
           KillNow false;
           Sleep 10;
           CallChanges true 42 100 "auction_filters/convoy_feed"],
          Running).
Proof.
  intros timeout limit filter_doc. split; [|split; [|split]].
  - apply loop_body_cursor.
  - intros last_seq_id [rows c] script.
    destruct (feed_loop_first_poll timeout limit filter_doc c script)
      as [tr Htr].
    destruct rows as [|r rows].
    + rewrite feed_loop_idle. simpl. rewrite Htr.
      exists [CallChanges true last_seq_id limit filter_doc;
              Returned (Changes [] c); KillNow false; Sleep timeout], tr.
      done.
    + rewrite feed_loop_batch. cbv zeta. cbn [fst]. rewrite Htr.
      exists (CallChanges true last_seq_id limit filter_doc
                :: Returned (Changes (r :: rows) c)
                :: map (fun row => Yield (Munch (doc row))) (r :: rows)
                ++ [KillNow false]), tr.
      split.
      * simpl. by rewrite <- app_assoc.
      * unfold polls. simpl. rewrite omap_app. simpl.
        rewrite app_nil_r.
        assert (Hno : forall rs : list row,
                   omap (fun ev => match ev with
                                   | CallChanges _ since _ _ => Some since
                                   | _ => None
                                   end)
                     (map (fun row => Yield (Munch (doc row))) rs) = []).
        { induction rs; simpl; done. }
        by rewrite Hno.
  - intros last_seq_id script.
    destruct (feed_loop_first_poll timeout limit filter_doc 42 script)
      as [tr Htr].
    rewrite feed_loop_idle. simpl. rewrite Htr. by exists tr.
  - reflexivity.
Qed.

(** *** Cancellation *)

(** C6. The kill flag is honoured at batch boundaries only.  Found set
    after a poll that returned no rows, it ends the generator without a
    sleep; found set after a non-empty batch, it ends the generator without
    another poll.  Whatever the flag is, every row of a non-empty batch is
    yielded before the flag is read.  The generator ends by returning, not
    by raising, exactly when it has read the flag set, and that read is the
    last thing it does. *)
Theorem feed_cancellation_at_batch_boundary :
  forall (timeout limit : Z) (filter_doc : string) (last_seq_id : Z),
    (forall c script,
        feed_loop timeout limit filter_doc last_seq_id
          (Turn (Ok (Changes [] c)) true :: script)
        = ([CallChanges true last_seq_id limit filter_doc;
            Returned (Changes [] c);
            KillNow true],
           StopIteration))
    /\ (forall r rows c script,
           feed_loop timeout limit filter_doc last_seq_id
             (Turn (Ok (Changes (r :: rows) c)) true :: script)
           = (CallChanges true last_seq_id limit filter_doc
                :: Returned (Changes (r :: rows) c)
                :: map (fun row => Yield (Munch (doc row))) (r :: rows)
                ++ [KillNow true],
              StopIteration))
    /\ (forall r rows c k script,
           exists tr,
             (feed_loop timeout limit filter_doc last_seq_id
                (Turn (Ok (Changes (r :: rows) c)) k :: script)).1
             = CallChanges true last_seq_id limit filter_doc
                 :: Returned (Changes (r :: rows) c)
                 :: map (fun row => Yield (Munch (doc row))) (r :: rows)
                 ++ KillNow k :: tr)
    /\ (forall script,
           let run := feed_loop timeout limit filter_doc last_seq_id script in
           (run.2 = StopIteration <-> KillNow true ∈ run.1)
           /\ (forall tr1 tr2, run.1 = tr1 ++ KillNow true :: tr2 -> tr2 = [])).
Proof.
  intros timeout limit filter_doc last_seq_id. split; [|split; [|split]].
  - intros c script. by rewrite feed_loop_idle.
  - intros r rows c script. by rewrite feed_loop_batch.
  - intros r rows c k script. rewrite feed_loop_batch. cbv zeta.
    destruct k; cbn [fst]; by eexists.
  - intros script run. apply feed_loop_stop.
Qed.

Lemma feed_cancellation_at_batch_boundary_witness :
  (feed_loop 10 100 "auction_filters/convoy_feed" 0
     [Turn (Ok (Changes [] 7)) true]).1
  = [CallChanges true 0 100 "auction_filters/convoy_feed";
     Returned (Changes [] 7)] ++ KillNow true :: []
  /\ @nil event = [].
Proof.
  split; [reflexivity|].
  apply (proj2 (proj2 (proj2 (proj2
           (feed_cancellation_at_batch_boundary 10 100
              "auction_filters/convoy_feed" 0)))
           [Turn (Ok (Changes [] 7)) true])
           [CallChanges true 0 100 "auction_filters/convoy_feed";
            Returned (Changes [] 7)] []).
  reflexivity.
Defined.

(** ** Python 2 string forms *)

Example repr_str_plain : repr_str "dgfOtherAssets" = "'dgfOtherAssets'".
Proof. reflexivity. Qed.

Example repr_str_quote : repr_str "a'b" = String dquote ("a'b" +:+ String dquote "").
Proof. reflexivity. Qed.

Example repr_str_newline :
  repr_str (String "010" "x") = "'" +:+ String backslash "nx'".
Proof. reflexivity. Qed.

Example repr_str_high :
  repr_str (String "200" "") = "'" +:+ String backslash "xc8'".
Proof. reflexivity. Qed.

Example str_list_two :
  str_list ["rubble"; "dgfFinancialAssets"] = "['rubble', 'dgfFinancialAssets']".
Proof. reflexivity. Qed.

Example str_list_empty : str_list [] = "[]".
Proof. reflexivity. Qed.

Example percent_format_two :
  percent_format "a %s b %s c" ["X"; "Y"] = Ok "a X b Y c".
Proof. reflexivity. Qed.

Section ReadBack.

Implicit Types (s r : string) (q c : ascii) (l : list string).

Lemma string_app_cons c s r : String c s +:+ r = String c (s +:+ r).
Proof. reflexivity. Qed.

Lemma string_app_nil_l r : "" +:+ r = r.
Proof. reflexivity. Qed.

Lemma string_app_assoc s1 s2 s3 : (s1 +:+ s2) +:+ s3 = s1 +:+ (s2 +:+ s3).
Proof.
  induction s1 as [|c s1 IH]; [done|].
  by rewrite !string_app_cons, IH.
Qed.

Lemma string_app_nil_r s : s +:+ "" = s.
Proof.
  induction s as [|c s IH]; [done|]. by rewrite string_app_cons, IH.
Qed.

Ltac str_norm :=
  repeat first [rewrite string_app_assoc
               |rewrite string_app_cons
               |rewrite string_app_nil_l].

Lemma String_eq_inv c1 c2 s1 s2 :
  String c1 s1 = String c2 s2 -> c1 = c2 /\ s1 = s2.
Proof. intros Heq. by inversion Heq. Qed.

Lemma repr_quote_is_quote s : is_quote (repr_quote s).
Proof. unfold repr_quote, is_quote. destruct (_ && _); auto. Qed.

Lemma unrepr_repr_char q c r :
  is_quote q -> unrepr_char q (repr_char q c +:+ r) = Some (c, r).
Proof.
  intros [->| ->];
    destruct c as [[] [] [] [] [] [] [] []]; reflexivity.
Qed.

Lemma unrepr_char_quote q r : is_quote q -> unrepr_char q (String q r) = None.
Proof. intros [->| ->]; reflexivity. Qed.

Lemma repr_body_cons q c s :
  repr_body q (String c s) = repr_char q c +:+ repr_body q s.
Proof. reflexivity. Qed.

Lemma repr_body_nil q r : repr_body q "" +:+ r = r.
Proof. reflexivity. Qed.

Lemma repr_body_read_back q s1 s2 r1 r2 :
  is_quote q ->
  repr_body q s1 +:+ String q r1 = repr_body q s2 +:+ String q r2 ->
  s1 = s2 /\ r1 = r2.
Proof.
  intros Hq. revert s2.
  induction s1 as [|c1 s1 IH]; intros [|c2 s2];
    rewrite ?repr_body_cons, ?repr_body_nil, ?string_app_assoc; intros Heq.
  - by simplify_eq.
  - apply (f_equal (unrepr_char q)) in Heq.
    rewrite unrepr_repr_char, unrepr_char_quote in Heq; done.
  - apply (f_equal (unrepr_char q)) in Heq.
    rewrite unrepr_repr_char, unrepr_char_quote in Heq; done.
  - apply (f_equal (unrepr_char q)) in Heq.
    rewrite !unrepr_repr_char in Heq by done.
    simplify_eq. destruct (IH s2) as [-> ->]; done.
Qed.

Lemma repr_str_unfold s r :
  repr_str s +:+ r
  = String (repr_quote s)
      (repr_body (repr_quote s) s +:+ String (repr_quote s) r).
Proof. unfold repr_str. by str_norm. Qed.

Lemma repr_str_read_back s1 s2 r1 r2 :
  repr_str s1 +:+ r1 = repr_str s2 +:+ r2 -> s1 = s2 /\ r1 = r2.
Proof.
  rewrite !repr_str_unfold. intros Heq.
  apply String_eq_inv in Heq as [Hq Heq]. rewrite <- Hq in Heq.
  eapply repr_body_read_back; [apply repr_quote_is_quote|done].
Qed.

Lemma join_tail x l :
  join ", " (map repr_str (x :: l)) +:+ "]" = repr_str x +:+ str_list_tail l.
Proof.
  revert x. induction l as [|y l IH]; intros x; [done|].
  change (join ", " (map repr_str (x :: y :: l)))
    with (repr_str x +:+ ", " +:+ join ", " (map repr_str (y :: l))).
  rewrite !string_app_assoc. by rewrite IH.
Qed.

Lemma str_list_cons x l r :
  str_list (x :: l) +:+ r
  = String "[" (repr_str x +:+ str_list_tail l +:+ r).
Proof.
  unfold str_list. rewrite join_tail. by str_norm.
Qed.

Lemma str_list_nil r : str_list [] +:+ r = String "[" (String "]" r).
Proof. reflexivity. Qed.

Lemma str_list_tail_cons x l r :
  str_list_tail (x :: l) +:+ r
  = String "," (String " " (repr_str x +:+ str_list_tail l +:+ r)).
Proof. cbn [str_list_tail]. by str_norm. Qed.

Lemma str_list_tail_nil r : str_list_tail [] +:+ r = String "]" r.
Proof. reflexivity. Qed.

Lemma str_list_tail_read_back l1 l2 r1 r2 :
  str_list_tail l1 +:+ r1 = str_list_tail l2 +:+ r2 -> l1 = l2 /\ r1 = r2.
Proof.
  revert l2. induction l1 as [|x1 l1 IH]; intros [|x2 l2];
    rewrite ?str_list_tail_cons, ?str_list_tail_nil; intros Heq.
  - by simplify_eq.
  - done.
  - done.
  - apply String_eq_inv in Heq as [_ Heq].
    apply String_eq_inv in Heq as [_ Heq].
    apply repr_str_read_back in Heq as [-> Heq].
    destruct (IH l2 Heq) as [-> ->]. done.
Qed.

Lemma str_list_read_back l1 l2 r1 r2 :
  str_list l1 +:+ r1 = str_list l2 +:+ r2 -> l1 = l2 /\ r1 = r2.
Proof.
  destruct l1 as [|x1 l1], l2 as [|x2 l2];
    rewrite ?str_list_cons, ?str_list_nil; intros Heq.
  - by simplify_eq.
  - exfalso. rewrite repr_str_unfold in Heq.
    apply String_eq_inv in Heq as [_ Heq].
    apply String_eq_inv in Heq as [Hq _].
    destruct (repr_quote_is_quote x2) as [Hq'|Hq']; rewrite Hq' in Hq; done.
  - exfalso. rewrite repr_str_unfold in Heq.
    apply String_eq_inv in Heq as [_ Heq].
    apply String_eq_inv in Heq as [Hq _].
    destruct (repr_quote_is_quote x1) as [Hq'|Hq']; rewrite Hq' in Hq; done.
  - apply String_eq_inv in Heq as [_ Heq].
    apply repr_str_read_back in Heq as [-> Heq].
    apply str_list_tail_read_back in Heq as [-> ->]. done.
Qed.

End ReadBack.

(** ** FilterDocumentInstaller *)

Section FilterInstaller.

Implicit Types (w : world) (auctions_types : gmap string (list string)).

Lemma percent_format_template (a b : string) :
  percent_format FILTER_CONVOY_FEED_DOC [a; b]
  = Ok (before_directive FILTER_CONVOY_FEED_DOC
        +:+ a
        +:+ before_directive (after_directive FILTER_CONVOY_FEED_DOC)
        +:+ b
        +:+ after_directive (after_directive FILTER_CONVOY_FEED_DOC)).
Proof. vm_compute. reflexivity. Qed.

Lemma filter_convoy_feed_doc_ok auctions_types :
  filter_convoy_feed_doc auctions_types = Ok (filter_text auctions_types).
Proof. apply percent_format_template. Qed.

(** A change to either list changes the text. *)
Lemma filter_text_inj auctions_types1 auctions_types2 :
  filter_text auctions_types1 = filter_text auctions_types2 ->
  basic_types auctions_types1 = basic_types auctions_types2
  /\ loki_types auctions_types1 = loki_types auctions_types2.
Proof.
  unfold filter_text. intros Heq.
  apply (inj (String.append _)) in Heq.
  apply str_list_read_back in Heq as [Hb Heq].
  apply (inj (String.append _)) in Heq.
  apply str_list_read_back in Heq as [Hl _].
  done.
Qed.

Lemma Some_VStr_inv (s1 s2 : string) :
  Some (VStr s1) = Some (VStr s2) -> s1 = s2.
Proof. congruence. Qed.

Lemma eq_str_true (v : value) (s : string) : eq_str v s = true <-> v = VStr s.
Proof.
  destruct v; simpl; try (split; [discriminate|congruence]).
  rewrite String.eqb_eq. split; congruence.
Qed.

Lemma eq_str_get (f : pydict) (k s : string) :
  eq_str (dict_get f k) s = true <-> f !! k = Some (VStr s).
Proof.
  rewrite eq_str_true. unfold dict_get.
  destruct (f !! k); simpl; split; congruence.
Qed.

Lemma filters_doc_of_id w : filters_doc_of w !! "_id" = Some (VStr FILTER_DOC_ID).
Proof.
  unfold filters_doc_of, default_filters_doc.
  destruct (documents w !! FILTER_DOC_ID); by rewrite lookup_insert_eq.
Qed.

Lemma filters_doc_of_truthy w : truthy (VDict (filters_doc_of w)) = true.
Proof.
  simpl. apply negb_true_iff, bool_decide_eq_false.
  intros Hdom. apply dom_empty_inv_L in Hdom.
  pose proof (filters_doc_of_id w) as Hid. rewrite Hdom in Hid. done.
Qed.

(** What one call does, case by case. *)
Lemma push_filter_doc_cases auctions_types w :
  push_filter_doc auctions_types w =
  let text := filter_text auctions_types in
  let doc := filters_doc_of w in
  match doc !! "filters" with
  | None => (w, Raise (raise_new KeyError (VStr "filters")))
  | Some (VDict f) =>
      if eq_str (dict_get f "convoy_feed") text then
        (add_logs [LogRecord INFO "Filter doc 'convoy_feed' exist." [] None;
                   LogRecord INFO "Added filters doc to db." [] None] w,
         Ok tt)
      else
        (add_logs [LogRecord INFO "Filter doc 'convoy_feed' saved." [] None;
                   LogRecord INFO "Added filters doc to db." [] None]
           (store FILTER_DOC_ID
              (<["filters" := VDict (<["convoy_feed" := VStr text]> f)]> doc)
              w),
         Ok tt)
  | Some _ => (w, Raise (raise_new AttributeError (VStr "get")))
  end.
Proof.
  unfold push_filter_doc.
  unfold mbind, M_bind, lift, db_get.
  rewrite filter_convoy_feed_doc_ok.
  fold default_filters_doc. fold (filters_doc_of w).
  rewrite filters_doc_of_truthy. cbv zeta.
  unfold getitem.
  destruct (filters_doc_of w !! "filters") as [v|] eqn:Hf; [|done].
  destruct v; try done.
  simpl value_get. cbv beta iota.
  unfold mret, M_ret.
  destruct (eq_str (dict_get d "convoy_feed") (filter_text auctions_types));
    simpl negb; cbv beta iota.
  - unfold LOGGER_info, log, add_logs. simpl. by rewrite <- app_assoc.
  - unfold db_save, setitem. cbn [negb]. cbv beta iota.
    rewrite lookup_insert_ne by done.
    rewrite filters_doc_of_id.
    unfold LOGGER_info, log, add_logs, store. simpl.
    by rewrite <- app_assoc.
Qed.

Lemma filters_doc_of_add_logs rs w :
  filters_doc_of (add_logs rs w) = filters_doc_of w.
Proof. reflexivity. Qed.

Lemma filters_doc_of_store (doc : pydict) w :
  doc !! "_id" = Some (VStr FILTER_DOC_ID) ->
  filters_doc_of (store FILTER_DOC_ID doc w) = doc.
Proof.
  intros Hid. unfold filters_doc_of, store. simpl.
  rewrite lookup_insert_eq. by apply insert_id.
Qed.

(** A call that finds the text installed changes nothing but the log. *)
Lemma push_filter_doc_installed auctions_types w (f : pydict) :
  filters_doc_of w !! "filters" = Some (VDict f) ->
  f !! "convoy_feed" = Some (VStr (filter_text auctions_types)) ->
  exists rs, push_filter_doc auctions_types w = (add_logs rs w, Ok tt).
Proof.
  intros Hf Hcf. rewrite push_filter_doc_cases. cbv zeta. rewrite Hf.
  apply eq_str_get in Hcf. rewrite Hcf. by eexists.
Qed.

(** A call that finds another text, or none, saves the document once, with
    the new text in place. *)
Lemma push_filter_doc_drift auctions_types w (f : pydict) :
  filters_doc_of w !! "filters" = Some (VDict f) ->
  f !! "convoy_feed" <> Some (VStr (filter_text auctions_types)) ->
  exists rs,
    push_filter_doc auctions_types w
    = (add_logs rs
         (store FILTER_DOC_ID
            (<["filters" := VDict (<["convoy_feed" :=
                                       VStr (filter_text auctions_types)]> f)]>
               (filters_doc_of w))
            w),
       Ok tt).
Proof.
  intros Hf Hcf. rewrite push_filter_doc_cases. cbv zeta. rewrite Hf.
  destruct (eq_str _ _) eqn:Heq; [|by eexists].
  apply eq_str_get in Heq. done.
Qed.

(** Either way the text is installed afterwards, and the other filters are
    as they were. *)
Lemma push_filter_doc_after auctions_types w (f : pydict) :
  filters_doc_of w !! "filters" = Some (VDict f) ->
  (push_filter_doc auctions_types w).2 = Ok tt
  /\ exists f1,
      filters_doc_of (push_filter_doc auctions_types w).1 !! "filters"
      = Some (VDict f1)
      /\ f1 !! "convoy_feed" = Some (VStr (filter_text auctions_types))
      /\ (forall n, n <> "convoy_feed" -> f1 !! n = f !! n).
Proof.
  intros Hf.
  destruct (eq_str (dict_get f "convoy_feed") (filter_text auctions_types))
    eqn:Heq.
  - apply eq_str_get in Heq.
    destruct (push_filter_doc_installed auctions_types w f Hf Heq) as [rs ->].
    split; [done|]. exists f. cbn [fst]. by rewrite filters_doc_of_add_logs.
  - assert (Hne : f !! "convoy_feed"
                  <> Some (VStr (filter_text auctions_types))).
    { intros Hcf. apply eq_str_get in Hcf. congruence. }
    destruct (push_filter_doc_drift auctions_types w f Hf Hne) as [rs ->].
    split; [done|]. eexists. cbn [fst].
    rewrite filters_doc_of_add_logs, filters_doc_of_store.
    + split; [apply lookup_insert_eq|].
      split; [apply lookup_insert_eq|].
      intros n Hn. by rewrite lookup_insert_ne.
    + rewrite lookup_insert_ne by done. apply filters_doc_of_id.
Qed.

Lemma push_filter_doc_writes auctions_types w (f : pydict) :
  filters_doc_of w !! "filters" = Some (VDict f) ->
  (f !! "convoy_feed" = Some (VStr (filter_text auctions_types)) ->
   writes (push_filter_doc auctions_types w).1 = writes w
   /\ documents (push_filter_doc auctions_types w).1 = documents w)
  /\ (f !! "convoy_feed" <> Some (VStr (filter_text auctions_types)) ->
      writes (push_filter_doc auctions_types w).1 = S (writes w)).
Proof.
  intros Hf. split; intros Hcf.
  - by destruct (push_filter_doc_installed auctions_types w f Hf Hcf) as [rs ->].
  - destruct (push_filter_doc_drift auctions_types w f Hf Hcf) as [rs ->].
    unfold writes. simpl. rewrite length_app. simpl. lia.
Qed.

End FilterInstaller.

(** C4. On a filter document with a filters mapping (the stored one, or
    the default when none is stored), [push_filter_doc] returns normally and
    hands the document to [db.save] exactly when the stored [convoy_feed]
    entry is not the text rendered from the given lists.  A second call with
    the same lists saves nothing, so two calls in a row save once when the
    text was not installed before and never more.  After a change to either
    list, the next call saves once and a further call with those lists saves
    nothing. *)
Theorem push_filter_doc_saves_on_drift_only :
  forall (w : world) (auctions_types : gmap string (list string)) (f : pydict),
    filters_doc_of w !! "filters" = Some (VDict f) ->
    let text := filter_text auctions_types in
    let w1 := (push_filter_doc auctions_types w).1 in
    let w2 := (push_filter_doc auctions_types w1).1 in
    (push_filter_doc auctions_types w).2 = Ok tt
    /\ (writes w1 = S (writes w) <-> f !! "convoy_feed" <> Some (VStr text))
    /\ (writes w1 = writes w <-> f !! "convoy_feed" = Some (VStr text))
    /\ (push_filter_doc auctions_types w1).2 = Ok tt
    /\ writes w2 = writes w1
    /\ documents w2 = documents w1
    /\ (f !! "convoy_feed" <> Some (VStr text) -> writes w2 = S (writes w))
    /\ (forall auctions_types' : gmap string (list string),
          basic_types auctions_types' <> basic_types auctions_types
          \/ loki_types auctions_types' <> loki_types auctions_types ->
          let w3 := (push_filter_doc auctions_types' w1).1 in
          let w4 := (push_filter_doc auctions_types' w3).1 in
          (push_filter_doc auctions_types' w1).2 = Ok tt
          /\ writes w3 = S (writes w1)
          /\ (push_filter_doc auctions_types' w3).2 = Ok tt
          /\ writes w4 = writes w3).
Proof.
  intros w auctions_types f Hf text w1 w2.
  destruct (push_filter_doc_after auctions_types w f Hf)
    as (Hok & f1 & Hf1 & Hcf1 & _).
  fold w1 in Hf1.
  destruct (push_filter_doc_writes auctions_types w f Hf) as [Hsame Hdiff].
  fold w1 in Hsame, Hdiff. fold text in Hsame, Hdiff, Hcf1.
  destruct (push_filter_doc_writes auctions_types w1 f1 Hf1) as [Hsame1 _].
  fold w2 in Hsame1. fold text in Hsame1.
  destruct (Hsame1 Hcf1) as [Hw2 Hd2].
  assert (Hdec : f !! "convoy_feed" = Some (VStr text)
                 \/ f !! "convoy_feed" <> Some (VStr text)).
  { destruct (eq_str (dict_get f "convoy_feed") text) eqn:Heq.
    - left. by apply eq_str_get.
    - right. intros Hcf. apply eq_str_get in Hcf. congruence. }
  split; [done|]. split; [|split; [|split; [|split; [|split; [|split]]]]].
  - split; [|done]. intros Hw. destruct Hdec as [Hcf|Hcf]; [|done].
    destruct (Hsame Hcf). lia.
  - split; [|by intros Hcf; destruct (Hsame Hcf)].
    intros Hw. destruct Hdec as [Hcf|Hcf]; [done|].
    specialize (Hdiff Hcf). lia.
  - by destruct (push_filter_doc_after auctions_types w1 f1 Hf1).
  - done.
  - done.
  - intros Hcf. rewrite Hw2. by apply Hdiff.
  - intros auctions_types' Hchanged w3 w4.
    assert (Hne : f1 !! "convoy_feed"
                  <> Some (VStr (filter_text auctions_types'))).
    { rewrite Hcf1. intros Heq. apply Some_VStr_inv in Heq.
      apply filter_text_inj in Heq as [Hb Hl].
      destruct Hchanged as [Hc|Hc]; by apply Hc. }
    destruct (push_filter_doc_after auctions_types' w1 f1 Hf1)
      as (Hok3 & f3 & Hf3 & Hcf3 & _).
    fold w3 in Hf3.
    destruct (push_filter_doc_writes auctions_types' w1 f1 Hf1) as [_ Hdiff3].
    destruct (push_filter_doc_writes auctions_types' w3 f3 Hf3) as [Hsame3 _].
    destruct (push_filter_doc_after auctions_types' w3 f3 Hf3) as (Hok4 & _).
    split; [done|]. split; [by apply Hdiff3|]. split; [done|].
    by destruct (Hsame3 Hcf3).
Qed.

Lemma push_filter_doc_saves_on_drift_only_witness :
  filters_doc_of no_filters_world !! "filters" = Some (VDict ∅)
  /\ (basic_types sample_types_changed <> basic_types sample_types
      \/ loki_types sample_types_changed <> loki_types sample_types)
  /\ let w1 := (push_filter_doc sample_types no_filters_world).1 in
     let w2 := (push_filter_doc sample_types w1).1 in
     let w3 := (push_filter_doc sample_types_changed w1).1 in
     let w4 := (push_filter_doc sample_types_changed w3).1 in
     writes w2 = writes w1
     /\ writes w3 = S (writes w1)
     /\ writes w4 = writes w3.
Proof.
  assert (Hf : filters_doc_of no_filters_world !! "filters" = Some (VDict ∅))
    by reflexivity.
  assert (Hchanged :
            basic_types sample_types_changed <> basic_types sample_types
            \/ loki_types sample_types_changed <> loki_types sample_types)
    by (left; vm_compute; discriminate).
  split; [exact Hf|]. split; [exact Hchanged|].
  destruct (push_filter_doc_saves_on_drift_only
              no_filters_world sample_types ∅ Hf)
    as (_ & _ & _ & _ & Hw2 & _ & _ & Hdrift).
  destruct (Hdrift sample_types_changed Hchanged) as (_ & Hw3 & _ & Hw4).
  split; [exact Hw2|]. split; [exact Hw3|exact Hw4].
Defined.

(** A stored filter document without a filters mapping makes the call
    raise before anything is saved. *)
Lemma push_filter_doc_malformed (w : world)
    (auctions_types : gmap string (list string)) :
  (forall f : pydict, filters_doc_of w !! "filters" <> Some (VDict f)) ->
  exists e, push_filter_doc auctions_types w = (w, Raise e).
Proof.
  intros Hnone. rewrite push_filter_doc_cases. cbv zeta.
  destruct (filters_doc_of w !! "filters") as [v|]; [|by eexists].
  destruct v; try by eexists.
  by destruct (Hnone d).
Qed.

(** C10. Compare the filter document that [db.get] answers before a call
    of [push_filter_doc] with the one it answers after it.  Every field
    other than [filters] is the same; inside the filters mapping every
    entry other than [convoy_feed] is the same; and no other document of
    the database is touched.  This holds whether the call saved the
    document, found the text installed, or raised. *)
Theorem push_filter_doc_frame :
  forall (w : world) (auctions_types : gmap string (list string)),
    let before := filters_doc_of w in
    let w' := (push_filter_doc auctions_types w).1 in
    let after := filters_doc_of w' in
    (forall k, k <> "filters" -> after !! k = before !! k)
    /\ (forall f : pydict,
           before !! "filters" = Some (VDict f) ->
           exists f' : pydict,
             after !! "filters" = Some (VDict f')
             /\ forall n, n <> "convoy_feed" -> f' !! n = f !! n)
    /\ ((forall f : pydict, before !! "filters" <> Some (VDict f)) ->
        after = before)
    /\ (forall id, id <> FILTER_DOC_ID ->
                   documents w' !! id = documents w !! id).
Proof.
  intros w auctions_types before w' after.
  assert (Hcases :
            (w' = w)
            \/ (exists rs, w' = add_logs rs w)
            \/ (exists rs (f : pydict),
                   before !! "filters" = Some (VDict f)
                   /\ w' = add_logs rs
                             (store FILTER_DOC_ID
                                (<["filters" :=
                                     VDict (<["convoy_feed" :=
                                                VStr (filter_text auctions_types)]> f)]>
                                   before) w))).
  { subst w'. rewrite push_filter_doc_cases. cbv zeta. fold before.
    destruct (before !! "filters") as [v|] eqn:Hf; [|by left].
    destruct v; try by left.
    destruct (eq_str _ _).
    - right. left. by eexists.
    - right. right. by eexists _, _. }
  assert (Hafter :
            after = before
            \/ exists f : pydict,
                before !! "filters" = Some (VDict f)
                /\ after = <["filters" :=
                               VDict (<["convoy_feed" :=
                                          VStr (filter_text auctions_types)]> f)]>
                             before).
  { subst after. destruct Hcases as [->|[[rs ->]|(rs & f & Hf & ->)]].
    - by left.
    - left. apply filters_doc_of_add_logs.
    - right. exists f. split; [done|].
      rewrite filters_doc_of_add_logs. apply filters_doc_of_store.
      rewrite lookup_insert_ne by done. apply filters_doc_of_id. }
  split; [|split; [|split]].
  - intros k Hk. destruct Hafter as [->|(f & _ & ->)]; [done|].
    by rewrite lookup_insert_ne.
  - intros f Hf. destruct Hafter as [->|(f0 & Hf0 & ->)].
    + by exists f.
    + rewrite Hf in Hf0. injection Hf0 as <-.
      eexists. split; [apply lookup_insert_eq|].
      intros n Hn. by rewrite lookup_insert_ne.
  - intros Hnone. destruct Hafter as [->|(f & Hf & _)]; [done|].
    by destruct (Hnone f).
  - intros id Hid.
    destruct Hcases as [->|[[rs ->]|(rs & f & _ & ->)]]; [done..|].
    simpl. by rewrite lookup_insert_ne.
Qed.

Lemma push_filter_doc_frame_witness :
  let w' := (push_filter_doc sample_types world_with_filters).1 in
  "language" <> "filters"
  /\ filters_doc_of w' !! "language"
     = filters_doc_of world_with_filters !! "language"
  /\ exists f' : pydict,
      filters_doc_of w' !! "filters" = Some (VDict f')
      /\ f' !! "other_feed" = Some (VStr "function(doc) {}").
Proof.
  intros w'.
  destruct (push_filter_doc_frame world_with_filters sample_types)
    as (Hfields & Hfilters & _ & _).
  assert (Hne : "language" <> "filters") by discriminate.
  split; [exact Hne|]. split; [exact (Hfields "language" Hne)|].
  destruct (Hfilters {[ "other_feed" := VStr "function(doc) {}" ]})
    as (f' & Hf' & Hother); [reflexivity|].
  exists f'. split; [exact Hf'|].
  rewrite Hother; [reflexivity|discriminate].
Defined.

(** ** [prepare_couchdb] *)

Section CouchProperties.

Variable env : environment.

Implicit Types (w : world) (couch_url db_name : value).

Lemma history_record_call c w : history (record_call c w) = history w ++ [c].
Proof. reflexivity. Qed.

(** What [prepare_couchdb] does, by the answers of the server. *)
Lemma prepare_couchdb_cases couch_url db_name w :
  let surface (e : exception) (w' : world) : world * result value :=
    if isinstance e [socket_error] then
      (add_logs [LogRecord ERROR "Database error: {}" [message e] None] w',
       Raise (raise_new ConfigError (strerror e)))
    else (w', Raise e) in
  let a0 := env (history w) "Server" "__contains__" [couch_url; db_name] in
  let c0 := Call "Server" "__contains__" [couch_url; db_name] a0 in
  prepare_couchdb env couch_url db_name w =
  match a0 with
  | Raise e => surface e (record_call c0 w)
  | Ok present =>
      let m := if negb (truthy present) then "create" else "__getitem__" in
      let a1 := env (history w ++ [c0]) "Server" m [couch_url; db_name] in
      let c1 := Call "Server" m [couch_url; db_name] a1 in
      match a1 with
      | Ok db => (record_call c1 (record_call c0 w), Ok db)
      | Raise e => surface e (record_call c1 (record_call c0 w))
      end
  end.
Proof.
  cbv zeta.
  unfold prepare_couchdb, try_except_only, mbind, M_bind, call_service.
  destruct (env (history w) "Server" "__contains__" [couch_url; db_name])
    as [present|e] eqn:Ha0.
  - destruct (negb (truthy present)); cbv beta;
      rewrite history_record_call;
      match goal with
      | |- context [env ?h ?t ?m ?a] => destruct (env h t m a) as [db|e]
      end; try done;
      destruct (isinstance e [socket_error]); done.
  - destruct (isinstance e [socket_error]); done.
Qed.

End CouchProperties.

Lemma isinstance_socket_error (e : exception) :
  isinstance e [socket_error] = true <-> exc_type e = socket_error.
Proof.
  unfold isinstance. rewrite bool_decide_eq_true. apply list_elem_of_singleton.
Qed.

(** C9, counterexample.  The server answers the membership test with an
    HTTP-level error; it is not a [socket.error], so it reaches the caller
    as it is. *)
Lemma prepare_couchdb_http_error_not_ConfigError :
  ~ couchdb_errors_are_ConfigError.
Proof.
  intros Hclaim.
  specialize (Hclaim env_unauthorized (VStr "http://localhost:5984")
                (VStr "auctions") no_filters_world unauthorized).
  assert (Hrun : (prepare_couchdb env_unauthorized
                    (VStr "http://localhost:5984") (VStr "auctions")
                    no_filters_world).2 = Raise unauthorized)
    by reflexivity.
  specialize (Hclaim Hrun). discriminate.
Qed.

(** C9, amended.  A [socket.error] raised by the server while the database
    is looked up, created or fetched reaches the caller as a [ConfigError]
    carrying its [strerror]; any other exception raised by the server
    reaches the caller unchanged; [prepare_couchdb] raises only when the
    server did.  When it returns, it returns the handle the server answered:
    from [create] when the database was absent, from the lookup when it was
    present. *)
Theorem prepare_couchdb_surfaces_errors :
  forall (env : environment) (couch_url db_name : value) (w : world),
    let r := prepare_couchdb env couch_url db_name w in
    exists new : list call,
      history r.1 = history w ++ new
      /\ (forall c e0,
             c ∈ new -> answer c = Raise e0 ->
             (exc_type e0 = socket_error ->
              r.2 = Raise (raise_new ConfigError (strerror e0)))
             /\ (exc_type e0 <> socket_error -> r.2 = Raise e0))
      /\ (forall e, r.2 = Raise e ->
                    exists c e0, c ∈ new /\ answer c = Raise e0)
      /\ (forall db, r.2 = Ok db ->
                     exists present,
                       new = [Call "Server" "__contains__"
                                [couch_url; db_name] (Ok present);
                              Call "Server"
                                (if truthy present then "__getitem__"
                                 else "create")
                                [couch_url; db_name] (Ok db)]).
Proof.
  intros env couch_url db_name w r. subst r.
  rewrite prepare_couchdb_cases. cbv zeta.
  assert (Hsurface : forall e0 w',
             let s := if isinstance e0 [socket_error]
                      then (add_logs [LogRecord ERROR "Database error: {}"
                                        [message e0] None] w',
                            Raise (raise_new ConfigError (strerror e0)))
                      else (w', @Raise value e0) in
             history s.1 = history w'
             /\ (exc_type e0 = socket_error ->
                 s.2 = Raise (raise_new ConfigError (strerror e0)))
             /\ (exc_type e0 <> socket_error -> s.2 = Raise e0)
             /\ (forall db, s.2 <> Ok db)).
  { intros e0 w'. cbv zeta.
    destruct (isinstance e0 [socket_error]) eqn:Hs.
    - apply isinstance_socket_error in Hs. done.
    - assert (exc_type e0 <> socket_error).
      { intros Heq. apply isinstance_socket_error in Heq. congruence. }
      done. }
  destruct (env (history w) "Server" "__contains__" [couch_url; db_name])
    as [present|e0] eqn:Ha0.
  - destruct (env (history w ++ _) "Server" _ [couch_url; db_name])
      as [db|e1] eqn:Ha1.
    + eexists. split; [cbn [fst]; by rewrite !history_record_call, <- app_assoc|].
      split; [|split].
      * intros c e Hc Hans. cbn [app] in Hc.
        rewrite !elem_of_cons, elem_of_nil in Hc.
        destruct Hc as [->|[->|[]]]; done.
      * done.
      * intros db' [= <-]. exists present.
        by destruct (truthy present).
    + destruct (Hsurface e1 (record_call
                  (Call "Server"
                     (if negb (truthy present) then "create" else "__getitem__")
                     [couch_url; db_name] (Raise e1))
                  (record_call
                     (Call "Server" "__contains__" [couch_url; db_name]
                        (Ok present)) w)))
        as (Hh & Hsock & Hother & Hnok).
      eexists. split; [rewrite Hh; by rewrite !history_record_call, <- app_assoc|].
      split; [|split].
      * intros c e Hc Hans. cbn [app] in Hc.
        rewrite !elem_of_cons, elem_of_nil in Hc.
        destruct Hc as [->|[->|[]]]; [done|].
        injection Hans as <-. done.
      * intros e _. eexists _, e1.
        split; [cbn [app]; right; left|reflexivity].
      * intros db Hdb. by destruct (Hnok db).
  - destruct (Hsurface e0 (record_call
                (Call "Server" "__contains__" [couch_url; db_name] (Raise e0))
                w))
      as (Hh & Hsock & Hother & Hnok).
    eexists. split; [rewrite Hh; by rewrite history_record_call|].
    split; [|split].
    + intros c e Hc Hans. apply list_elem_of_singleton in Hc as ->.
      injection Hans as <-. done.
    + intros e _. eexists _, e0. split; [left|reflexivity].
    + intros db Hdb. by destruct (Hnok db).
Qed.

Lemma prepare_couchdb_surfaces_errors_witness :
  exc_type connection_refused = socket_error
  /\ (prepare_couchdb env_unreachable (VStr "http://localhost:5984")
        (VStr "auctions") no_filters_world).2
     = Raise (raise_new ConfigError (VStr "Connection refused")).
Proof.
  split; [reflexivity|].
  destruct (prepare_couchdb_surfaces_errors env_unreachable
              (VStr "http://localhost:5984") (VStr "auctions")
              no_filters_world)
    as (new & Hnew & Herr & _).
  cbv zeta in Herr.
  assert (Hnew' : new = [Call "Server" "__contains__"
                           [VStr "http://localhost:5984"; VStr "auctions"]
                           (Raise connection_refused)]).
  { apply (app_inv_head (history no_filters_world)).
    rewrite <- Hnew. reflexivity. }
  apply (Herr (Call "Server" "__contains__"
                 [VStr "http://localhost:5984"; VStr "auctions"]
                 (Raise connection_refused)) connection_refused).
  - rewrite Hnew'. left.
  - reflexivity.
  - reflexivity.
Defined.

(** ** [prepare_auctions_mapping] *)

(** C8, counterexample.  With a backend that does not keep the sentinel,
    the first check fails and the call raises an [AssertionError]. *)
Lemma self_check_failure_is_AssertionError :
  ~ self_check_failure_is_ConfigError.
Proof.
  intros Hclaim.
  specialize (Hclaim env_forgetful ∅ no_filters_world
                (raise_new AssertionError VNone)).
  assert (Hrun : (prepare_auctions_mapping env_forgetful ∅ true
                    no_filters_world).2
                 = Raise (raise_new AssertionError VNone))
    by reflexivity.
  specialize (Hclaim Hrun). discriminate.
Qed.

Section MappingProperties.

Variable env : environment.

Implicit Types (w : world) (config : pydict).

(** Running a call: the answer decides. *)
Lemma call_service_run target method args w :
  call_service env target method args w
  = (record_call (Call target method args (env (history w) target method args)) w,
     env (history w) target method args).
Proof. reflexivity. Qed.

Lemma bind_run {A B} (m : M A) (k : A -> M B) w :
  (m ≫= k) w =
  match m w with
  | (w', Ok a) => k a w'
  | (w', Raise e) => (w', Raise e)
  end.
Proof. reflexivity. Qed.

Lemma run_script_cons (s : step) (script : list step) w :
  run_script env (s :: script) w =
  let a := env (history w) (step_target s) (step_method s) (step_args s) in
  let w' := record_call (Call (step_target s) (step_method s) (step_args s) a) w in
  match a with
  | Ok v =>
      if step_check s v then run_script env script w'
      else (w', Raise (raise_new AssertionError VNone))
  | Raise e => (w', Raise e)
  end.
Proof.
  cbn [run_script]. unfold mbind, M_bind, call_service, assert. cbv zeta.
  destruct (env _ _ _ _) as [v|e]; [|done].
  by destruct (step_check s v).
Qed.

(** The calls made by a script: all pass, or some pass and the next one
    fails and ends the run. *)
Lemma run_script_spec (script : list step) w :
  exists new : list call,
    history (run_script env script w).1 = history w ++ new
    /\ (((run_script env script w).2 = Ok tt /\ Forall2 step_passes new script)
        \/ (exists done c s e,
               new = done ++ [c]
               /\ Forall2 step_passes done (take (length done) script)
               /\ script !! length done = Some s
               /\ step_fails c s e
               /\ (run_script env script w).2 = Raise e)).
Proof.
  revert w. induction script as [|s script IH]; intros w.
  - exists []. split; [by rewrite app_nil_r|]. left. split; [done|constructor].
  - rewrite run_script_cons. cbv zeta.
    set (c := Call (step_target s) (step_method s) (step_args s)
                (env (history w) (step_target s) (step_method s) (step_args s))).
    assert (Hsame : same_call c s) by done.
    destruct (env (history w) (step_target s) (step_method s) (step_args s))
      as [v|e] eqn:Hans.
    + destruct (step_check s v) eqn:Hchk.
      * destruct (IH (record_call c w)) as (new & Hnew & Hres).
        exists (c :: new). split.
        { rewrite Hnew, history_record_call, <- app_assoc. done. }
        assert (Hpass : step_passes c s).
        { split; [done|]. by exists v. }
        destruct Hres
          as [[Hok Hall]|(done & c' & s' & e & -> & Hd & Hs & Hf & Hr)].
        -- left. split; [done|]. by constructor.
        -- right. exists (c :: done), c', s', e.
           split; [done|]. split; [by constructor|]. done.
      * exists [c]. cbn [fst snd]. split; [by rewrite history_record_call|].
        right. exists [], c, s, (raise_new AssertionError VNone).
        split; [done|]. split; [constructor|]. split; [done|].
        split; [|done]. split; [done|]. right. by exists v.
    + exists [c]. cbn [fst snd]. split; [by rewrite history_record_call|].
      right. exists [], c, s, e.
      split; [done|]. split; [constructor|]. split; [done|].
      split; [|done]. split; [done|]. by left.
Qed.

(** The self-check of [prepare_auctions_mapping] is the script
    [self_check], run after the log record of [put]. *)
Lemma self_check_body (db : AuctionsMapping) w :
  (am_put env db "test" (VStr "1") ∅;;
   present ← am_has env db "test";
   assert (is_True present);;
   v ← am_get env db "test";
   assert (eq_str v "1");;
   am_delete env db "test";;
   present' ← am_has env db "test";
   assert (is_False present')) w
  = run_script env (self_check (am_client db) (_set_value db) (_has_value db))
      (add_logs [LogRecord INFO "Save ID {} in cache" [VStr "test"] None] w).
Proof.
  unfold self_check. cbn [run_script].
  unfold am_put, am_has, am_get, am_delete, assert, raise, LOGGER_info, log,
    add_logs, call_service, record_call, mbind, M_bind, mret, M_ret.
  cbn [history logger documents saved
       step_target step_method step_args step_check].
  repeat (cbn [history logger documents saved];
          match goal with
          | |- context [match env ?h ?t ?m ?a with _ => _ end] =>
              destruct (env h t m a)
          | |- context [if is_True ?v then _ else _] => destruct (is_True v)
          | |- context [if is_False ?v then _ else _] => destruct (is_False v)
          | |- context [if eq_str ?v ?s then _ else _] => destruct (eq_str v s)
          end); reflexivity.
Qed.

(** With the check enabled: build the mapping, then run the script. *)
Lemma prepare_auctions_mapping_run config w :
  prepare_auctions_mapping env config true w =
  match AuctionsMapping_init env config w with
  | (w0, Ok db) =>
      match run_script env
              (self_check (am_client db) (_set_value db) (_has_value db))
              (add_logs [LogRecord INFO "Save ID {} in cache" [VStr "test"] None]
                 w0)
      with
      | (w1, Ok _) => (w1, Ok db)
      | (w1, Raise e) => (w1, Raise e)
      end
  | (w0, Raise e) => (w0, Raise e)
  end.
Proof.
  unfold prepare_auctions_mapping. rewrite bind_run.
  destruct (AuctionsMapping_init env config w) as [w0 [db|e]]; [|done].
  rewrite bind_run, self_check_body.
  by destruct (run_script env _ _) as [w1 [[]|e]].
Qed.

(** The constructor makes one call, to the client that the configuration
    selects. *)
Lemma AuctionsMapping_init_run config w :
  exists args,
    let a := env (history w) (mapping_client config) "__init__" args in
    let w0 := record_call (Call (mapping_client config) "__init__" args a) w in
    match a with
    | Ok o =>
        exists rs db,
          AuctionsMapping_init env config w = (add_logs rs w0, Ok db)
          /\ self_check (am_client db) (_set_value db) (_has_value db)
             = mapping_script config
    | Raise e => AuctionsMapping_init env config w = (w0, Raise e)
    end.
Proof.
  unfold AuctionsMapping_init, mapping_client, mapping_script.
  destruct (contains_key config "host"); cbv zeta;
    rewrite bind_run, call_service_run;
    match goal with
    | |- context [env (history w) ?t "__init__" ?a] =>
        exists a; destruct (env (history w) t "__init__" a) as [o|e]
    end; try done;
    eexists _, _;
    (split;
     [unfold LOGGER_info, log, add_logs, mbind, M_bind, mret, M_ret;
      cbn [history logger documents saved]; reflexivity
     |reflexivity]).
Qed.

End MappingProperties.

(** C8, amended.  With the check enabled, [prepare_auctions_mapping]
    builds the mapping and then calls the backend in the order put
    [("test", "1")], has, get, delete, has, requiring [True], ["1"] and
    [False] of the three answers it checks.  It returns the mapping when
    every call is answered and every check passes.  Otherwise it stops at
    the first call that raises or whose answer fails its check, and raises:
    the exception of the backend when the call raised, an [AssertionError]
    when a check failed; it does not turn either into a [ConfigError]. *)
Theorem self_check_in_order :
  forall (env : environment) (config : pydict) (w : world),
    let r := prepare_auctions_mapping env config true w in
    exists (ctor : call) (new : list call),
      history r.1 = history w ++ ctor :: new
      /\ target ctor = mapping_client config
      /\ method ctor = "__init__"
      /\ match answer ctor with
         | Raise e => new = [] /\ r.2 = Raise e
         | Ok _ =>
             (Forall2 step_passes new (mapping_script config)
              /\ exists db, r.2 = Ok db)
             \/ (exists done c s e,
                    new = done ++ [c]
                    /\ Forall2 step_passes done
                         (take (length done) (mapping_script config))
                    /\ mapping_script config !! length done = Some s
                    /\ step_fails c s e
                    /\ r.2 = Raise e)
         end.
Proof.
  intros env config w r. subst r.
  rewrite prepare_auctions_mapping_run.
  destruct (AuctionsMapping_init_run env config w) as [args Hinit].
  cbv zeta in Hinit.
  exists (Call (mapping_client config) "__init__" args
            (env (history w) (mapping_client config) "__init__" args)).
  destruct (env (history w) (mapping_client config) "__init__" args)
    as [o|e] eqn:Hctor.
  - destruct Hinit as (rs & db & -> & Hscript). rewrite Hscript.
    match goal with
    | |- context [run_script env ?s ?w1] =>
        destruct (run_script_spec env s w1) as (new & Hnew & Hres);
        destruct (run_script env s w1) as [w1' r1]
    end.
    cbn [fst snd] in Hnew, Hres.
    exists new. split.
    { destruct r1; cbn [fst]; rewrite Hnew; cbn [history add_logs];
        by rewrite history_record_call, <- app_assoc. }
    split; [done|]. split; [done|]. cbn [answer].
    destruct Hres as [[-> Hall]|(done & c & s & e & -> & Hd & Hs & Hf & ->)].
    + left. split; [done|]. by eexists.
    + right. by exists done, c, s, e.
  - rewrite Hinit. exists []. done.
Qed.

(** On such a backend the self-check passes, with either client, and leaves
    no sentinel behind. *)
Example self_check_passes_lazydb :
  let r := prepare_auctions_mapping env_dict ∅ true no_filters_world in
  r.2 = Ok {| am_config := ∅; am_client := "LazyDB";
              am_db := VObject "LazyDB" ∅;
              _set_value := "put"; _has_value := "has" |}
  /\ map method (history r.1)
     = ["__init__"; "put"; "has"; "get"; "delete"; "has"]
  /\ held (history r.1) !! "test" = None.
Proof. vm_compute. done. Qed.

Example self_check_passes_redis :
  let r := prepare_auctions_mapping env_dict {[ "host" := VStr "localhost" ]}
             true no_filters_world in
  (exists db, r.2 = Ok db /\ am_client db = "StrictRedis")
  /\ map method (history r.1)
     = ["__init__"; "set"; "exists"; "get"; "delete"; "exists"]
  /\ held (history r.1) !! "test" = None.
Proof. vm_compute. split; [by eexists|done]. Qed.

(** ** [init_clients] *)

Section BootstrapProperties.

Variable env : environment.

Implicit Types (w : world) (config : pydict) (st : clients * list exception).

(** An attempt never raises: it records the outcome and goes on. *)
Lemma attempt_run name (construct : M clients) st w :
  attempt name construct st w =
  match construct w with
  | (w1, Ok cs) =>
      (add_logs [LogRecord CHECK (name +:+ " - " +:+ "ok") [] None] w1,
       Ok (cs, snd st))
  | (w1, Raise e) =>
      (add_logs [LogRecord CHECK (name +:+ " - " +:+ "failed") [] None;
                 LogRecord ERROR "{}" [message e] (Some e)] w1,
       Ok (fst st, snd st ++ [e]))
  end.
Proof.
  unfold attempt, try_except. rewrite !bind_run.
  destruct (construct w) as [w1 [cs|e]]; cbn [mret M_ret].
  - reflexivity.
  - unfold LOGGER_check, LOGGER_error, log, add_logs, mbind, M_bind, mret, M_ret.
    cbn [history logger documents saved]. by rewrite <- app_assoc.
Qed.

Lemma lift_bind {A B} (r : result A) (k : A -> M B) w :
  (lift r ≫= k) w =
  match r with
  | Ok a => k a w
  | Raise e => (w, Raise e)
  end.
Proof. unfold lift. rewrite bind_run. by destruct r. Qed.

Lemma client_entry_section section cls :
  subscript (client_entry section cls) "section" = Ok (VStr section).
Proof. unfold client_entry, subscript, getitem. by rewrite lookup_insert_eq. Qed.

Lemma client_entry_class section cls :
  subscript (client_entry section cls) "client_instance" = Ok (VClass cls).
Proof.
  unfold client_entry, subscript, getitem.
  rewrite lookup_insert_ne by done. by rewrite lookup_insert_eq.
Qed.

Lemma clients_set_keys (cs : clients) key v :
  key ∈ map fst cs -> map fst (clients_set cs key v) = map fst cs.
Proof.
  induction cs as [|[k v'] cs IH]; simpl; intros Hin.
  - by apply elem_of_nil in Hin.
  - destruct (String.eqb k key) eqn:Hk; [done|]. simpl. f_equal.
    apply IH. apply elem_of_cons in Hin as [->|Hin]; [|done].
    by rewrite String.eqb_refl in Hk.
Qed.

Lemma clients_get_missing (cs : clients) key :
  key ∉ map fst cs -> clients_get cs key = Raise (raise_new KeyError (VStr key)).
Proof.
  induction cs as [|[k v] cs IH]; simpl; intros Hnot; [done|].
  destruct (String.eqb k key) eqn:Hk.
  - apply String.eqb_eq in Hk as ->. destruct Hnot. left.
  - apply IH. intros Hin. apply Hnot. by right.
Qed.

(** One turn of the loop: it does not raise, it calls nothing but the
    constructor of the client class, and it keeps the keys of
    [clients_from_config]. *)
Lemma init_client_run config key section cls st w :
  exists w' st',
    init_client env config key (client_entry section cls) st w = (w', Ok st')
    /\ (forall c, c ∈ history w' -> c ∈ history w \/ target c = cls)
    /\ (key ∈ map fst (fst st) -> map fst (fst st') = map fst (fst st)).
Proof.
  unfold init_client.
  rewrite lift_bind, client_entry_section. cbn [section_name].
  rewrite lift_bind, attempt_run.
  rewrite lift_bind, client_entry_class.
  cbn [mbind result_bind class_name].
  assert (Hfail : forall e : exception,
             exists w' st',
               (add_logs [LogRecord CHECK (key +:+ " - " +:+ "failed") [] None;
                          LogRecord ERROR "{}" [message e] (Some e)] w,
                @Ok (clients * list exception) (fst st, snd st ++ [e]))
               = (w', Ok st')
               /\ (forall c, c ∈ history w' -> c ∈ history w \/ target c = cls)
               /\ (key ∈ map fst (fst st) -> map fst (fst st') = map fst (fst st))).
  { intros e. eexists _, _. split; [done|]. split; [by left|done]. }
  repeat (rewrite lift_bind;
          match goal with
          | |- context [match ?r with Ok _ => _ | Raise _ => _ end] =>
              destruct r as [?v|?e]; [|by apply Hfail]
          end).
  rewrite bind_run, call_service_run.
  destruct (env (history w) cls "__init__" _) as [client|e].
  - eexists _, _. split; [done|]. split.
    + intros c Hc. cbn [fst snd add_logs history] in Hc.
      rewrite history_record_call in Hc.
      apply elem_of_app in Hc as [Hc|Hc]; [by left|].
      apply list_elem_of_singleton in Hc as ->. by right.
    + intros Hin. cbn [fst]. by apply clients_set_keys.
  - eexists _, _. split; [done|]. split.
    + intros c Hc. cbn [fst snd add_logs history] in Hc.
      rewrite history_record_call in Hc.
      apply elem_of_app in Hc as [Hc|Hc]; [by left|].
      apply list_elem_of_singleton in Hc as ->. by right.
    + done.
Qed.

(** The whole loop, over entries of the client table. *)
Lemma init_each_run config (items : clients) st w :
  Forall (fun kv => exists section cls, snd kv = client_entry section cls) items ->
  Forall (fun kv => fst kv ∈ map fst (fst st)) items ->
  exists w' st',
    init_each env config items st w = (w', Ok st')
    /\ (forall c, c ∈ history w' ->
                  c ∈ history w
                  \/ exists kv section,
                      kv ∈ items /\ snd kv = client_entry section (target c))
    /\ map fst (fst st') = map fst (fst st).
Proof.
  revert st w. induction items as [|[key item] items IH]; intros st w Hent Hkeys.
  - exists w, st. split; [done|]. split; [by left|done].
  - apply Forall_cons in Hent as [(section & cls & Hitem) Hent].
    apply Forall_cons in Hkeys as [Hkey Hkeys].
    cbn [fst snd] in Hitem, Hkey. subst item.
    cbn [init_each]. rewrite bind_run.
    destruct (init_client_run config key section cls st w)
      as (w1 & st1 & -> & Hcalls1 & Hkeys1).
    specialize (Hkeys1 Hkey).
    destruct (IH st1 w1 Hent) as (w2 & st2 & -> & Hcalls2 & Hkeys2).
    { by rewrite Hkeys1. }
    exists w2, st2. split; [done|]. split; [|congruence].
    intros c Hc. destruct (Hcalls2 c Hc) as [Hc1|(kv & s & Hkv & Hs)].
    + destruct (Hcalls1 c Hc1) as [?|Ht]; [by left|].
      right. exists (key, client_entry section cls), section.
      split; [left|]. by rewrite Ht.
    + right. exists kv, s. split; [by right|done].
Qed.

End BootstrapProperties.

Lemma client_entry_inj section1 cls1 section2 cls2 :
  client_entry section1 cls1 = client_entry section2 cls2 ->
  section1 = section2 /\ cls1 = cls2.
Proof.
  intros Heq.
  pose proof (client_entry_section section1 cls1) as Hs.
  pose proof (client_entry_class section1 cls1) as Hc.
  rewrite Heq, client_entry_section in Hs.
  rewrite Heq, client_entry_class in Hc.
  split; congruence.
Qed.

Lemma section_in_client_entry section cls (sections : list string) :
  section_in (client_entry section cls) sections = true <-> In section sections.
Proof.
  unfold section_in. rewrite client_entry_section.
  by rewrite bool_decide_eq_true, list_elem_of_In.
Qed.

(** C7, the defect.  When the configuration has no [auctions] section,
    [init_clients] raises [KeyError('auctions_client')] at the test for the
    document service, whatever the outside world answers: the CouchDB
    server and the backend of the auctions mapping are never called, and
    the exception raised is not one of the collected ones. *)
Theorem init_clients_without_auctions_section :
  forall (env : environment) (config : pydict) (w : world),
    truthy (dict_get config "auctions") = false ->
    let r := init_clients env config w in
    r.2 = Raise (raise_new KeyError (VStr "auctions_client"))
    /\ (forall c, c ∈ history r.1 ->
                  c ∈ history w
                  \/ target c ∈ ["LotsClient"; "AssetsClient";
                                 "ContractingClient"]).
Proof.
  intros env config w Hnone r.
  cut (exists w1,
          init_clients env config w
          = (w1, Raise (raise_new KeyError (VStr "auctions_client")))
          /\ (forall c, c ∈ history w1 ->
                        c ∈ history w
                        \/ target c ∈ ["LotsClient"; "AssetsClient";
                                       "ContractingClient"])).
  { intros (w1 & Heq & Hcalls). subst r. by rewrite Heq. }
  unfold init_clients. cbv zeta.
  set (sections := List.filter (fun section : string => _)
                    ["auctions"; "lots"; "assets"; "contracts"]).
  set (cfc := List.filter _ clients_table).
  assert (Hsections : ~ In "auctions" sections).
  { subst sections. rewrite filter_In. intros [_ Ht]. congruence. }
  assert (Htable : forall kv, In kv cfc ->
             exists section cls,
               snd kv = client_entry section cls
               /\ fst kv <> "auctions_client"
               /\ cls ∈ ["LotsClient"; "AssetsClient"; "ContractingClient"]).
  { intros kv Hkv. subst cfc. apply filter_In in Hkv as [Hin Hsec].
    unfold clients_table in Hin. cbn [In] in Hin.
    destruct Hin as [<-|[<-|[<-|[<-|[]]]]]; cbn [fst snd] in *.
    - apply section_in_client_entry in Hsec. done.
    - eexists _, _. split; [done|]. split; [done|]. left.
    - eexists _, _. split; [done|]. split; [done|]. right. left.
    - eexists _, _. split; [done|]. split; [done|]. do 2 right. left. }
  rewrite bind_run. unfold LOGGER_info at 1, log at 1. cbv beta iota.
  rewrite bind_run.
  match goal with
  | |- context [init_each env config cfc ?st ?w0] =>
      destruct (init_each_run env config cfc st w0)
        as (w1 & st1 & Hrun & Hcalls & Hkeys)
  end.
  { apply Forall_forall. intros kv Hkv. apply list_elem_of_In in Hkv.
    destruct (Htable kv Hkv) as (section & cls & Hs & _). by exists section, cls. }
  { apply Forall_forall. intros kv Hkv. cbn [fst].
    apply list_elem_of_In, in_map_iff. exists kv. split; [done|].
    by apply list_elem_of_In. }
  rewrite Hrun, lift_bind.
  rewrite clients_get_missing.
  - exists w1. split; [done|]. intros c Hc.
    destruct (Hcalls c Hc) as [Hw|(kv & s & Hkv & Hs)]; [by left|].
    right. apply list_elem_of_In in Hkv.
    destruct (Htable kv Hkv) as (section & cls & Hent & _ & Hcls).
    rewrite Hs in Hent. apply client_entry_inj in Hent as [_ ->]. done.
  - rewrite Hkeys. cbn [fst]. intros Hin.
    apply list_elem_of_In, in_map_iff in Hin as (kv & Hk & Hkv).
    destruct (Htable kv Hkv) as (section & cls & _ & Hne & _). done.
Qed.

Lemma init_clients_without_auctions_section_witness :
  truthy (dict_get config_lots_only "auctions") = false
  /\ (init_clients env_unreachable config_lots_only no_filters_world).2
     = Raise (raise_new KeyError (VStr "auctions_client")).
Proof.
  assert (Hnone : truthy (dict_get config_lots_only "auctions") = false)
    by reflexivity.
  split; [exact Hnone|].
  exact (proj1 (init_clients_without_auctions_section
                  env_unreachable config_lots_only no_filters_world Hnone)).
Defined.

(** With an [auctions] section and every service answering, every resource
    is built and returned. *)
Example init_clients_all_ok :
  run_summary (init_clients env_dict config_with_auctions no_filters_world)
  = (inl ["auctions_client"; "lots_client"; "db"; "auctions_mapping"],
     ["AuctionsClient"; "LotsClient"; "Server"; "Server";
      "LazyDB"; "LazyDB"; "LazyDB"; "LazyDB"; "LazyDB"; "LazyDB"],
     ["auctions_client - ok"; "lots_client - ok"; "couchdb - ok";
      "auctions_mapping - ok"]).
Proof. vm_compute. reflexivity. Qed.

(** With an [auctions] section and no service reachable, every resource is
    still attempted and reported, and the first exception collected, the
    [socket.error] of the first client, is raised at the end. *)
Example init_clients_all_failed :
  run_summary (init_clients env_unreachable config_with_auctions
                 no_filters_world)
  = (inr socket_error,
     ["AuctionsClient"; "LotsClient"; "Server"; "LazyDB"],
     ["auctions_client - failed"; "lots_client - failed"; "couchdb - failed";
      "auctions_mapping - failed"]).
Proof. vm_compute. reflexivity. Qed.

(** Without an [auctions] section the run ends after the loop over the
    clients: a [KeyError], although the exception collected was a
    [socket.error], and neither the server nor the mapping was tried. *)
Example init_clients_lots_only :
  run_summary (init_clients env_unreachable config_lots_only no_filters_world)
  = (inr KeyError, ["LotsClient"], ["lots_client - failed"])
  /\ run_summary (init_clients env_dict config_lots_only no_filters_world)
     = (inr KeyError, ["LotsClient"], ["lots_client - ok"]).
Proof. vm_compute. split; reflexivity. Qed.

(** *** With an [auctions] section, every resource is attempted *)

Section Collecting.

Variable env : environment.

Implicit Types (w : world) (config : pydict) (st : clients * list exception).
















Lemma clients_get_present (cs : clients) key :
  key ∈ map fst cs -> exists v, clients_get cs key = Ok v.
Proof.
  induction cs as [|[k v] cs IH]; simpl; intros Hin.
  - by apply elem_of_nil in Hin.
  - destruct (String.eqb k key) eqn:Hk; [by exists v|].
    apply IH. apply elem_of_cons in Hin as [->|Hin]; [|done].
    by rewrite String.eqb_refl in Hk.
Qed.

Lemma configured_clients_entries config :
  Forall (fun kv => exists section cls, snd kv = client_entry section cls)
    (configured_clients config).
Proof.
  apply Forall_forall. intros kv Hkv.
  apply list_elem_of_In, filter_In in Hkv as [Hin _].
  unfold clients_table in Hin. cbn [In] in Hin.
  destruct Hin as [<-|[<-|[<-|[<-|[]]]]]; by eexists _, _.
Qed.

Lemma configured_clients_auctions config :
  truthy (dict_get config "auctions") = true ->
  "auctions_client" ∈ map fst (configured_clients config).
Proof.
  intros Hconf. apply list_elem_of_In, in_map_iff.
  exists ("auctions_client", client_entry "auctions" "AuctionsClient").
  split; [done|]. apply filter_In. split; [by left|].
  cbn [snd]. apply section_in_client_entry, filter_In. split; [by left|done].
Qed.


End Collecting.

(** * Further properties of the code *)

(** ** [retry_on_error] without a status code *)

(** X1. [retry_on_error] raises exactly when the exception is an instance
    of one of the six classes of [EXCEPTIONS] and has no [status_code]
    attribute, and what it raises is the [AttributeError] of that read.
    An exception outside the family is never asked for its status code,
    and one that has a status code always gets an answer. *)
Theorem retry_on_error_raises_without_status_code :
  forall e : exception,
    (retry_on_error e = Raise (raise_new AttributeError (VStr "status_code"))
     <-> exc_type e ∈ EXCEPTIONS /\ status_code e = None)
    /\ (forall e', retry_on_error e = Raise e' ->
                   e' = raise_new AttributeError (VStr "status_code"))
    /\ (exc_type e ∉ EXCEPTIONS \/ is_Some (status_code e) ->
        exists b, retry_on_error e = Ok b).
Proof.
  intros e. unfold retry_on_error, get_status_code.
  destruct (isinstance e EXCEPTIONS) eqn:Hi.
  - apply isinstance_family in Hi.
    destruct (status_code e) as [s|] eqn:Hs; simpl.
    + destruct (_ || _); (split; [split; [done|by intros [_ ?]]|]);
        (split; [done|]); intros _; by eexists.
    + split; [done|]. split; [by intros e' [= <-]|].
      intros [Hout|[s Hsome]]; done.
  - assert (Hout : exc_type e ∉ EXCEPTIONS).
    { intros Hin. apply isinstance_family in Hin. congruence. }
    split; [split; [done|by intros [? _]]|].
    split; [done|]. intros _. by eexists.
Qed.

Lemma retry_on_error_raises_without_status_code_witness :
  (exc_type (raise_new Forbidden VNone) ∈ EXCEPTIONS
   /\ status_code (raise_new Forbidden VNone) = None)
  /\ retry_on_error (raise_new Forbidden VNone)
     = Raise (raise_new AttributeError (VStr "status_code"))
  /\ exists b, retry_on_error (raise_new socket_error VNone) = Ok b.
Proof.
  assert (H1 : exc_type (raise_new Forbidden VNone) ∈ EXCEPTIONS
               /\ status_code (raise_new Forbidden VNone) = None).
  { split; [apply (bool_decide_unpack _); reflexivity|reflexivity]. }
  split; [exact H1|]. split.
  - exact (proj2 (proj1 (retry_on_error_raises_without_status_code
                           (raise_new Forbidden VNone))) H1).
  - apply (proj2 (proj2 (retry_on_error_raises_without_status_code
                           (raise_new socket_error VNone)))).
    left. apply (bool_decide_unpack _). reflexivity.
Defined.

(** ** Whole runs of [continuous_changes_feed] *)

Section FeedRuns.

Variables (timeout limit : Z) (filter_doc : string).

Local Abbreviation loop := (feed_loop timeout limit filter_doc).

Lemma cursor_after_cons last_seq_id b batches :
  cursor_after last_seq_id (b :: batches) = cursor_after (last_seq b) batches.
Proof. reflexivity. Qed.

Lemma feed_loop_unkilled last_seq_id (batches : list changes) (rest : list turn) :
  exists tr,
    loop last_seq_id (unkilled batches)
    = (tr ++ [CallChanges true (cursor_after last_seq_id batches) limit filter_doc],
       Running)
    /\ loop last_seq_id (unkilled batches ++ rest)
       = (tr ++ (loop (cursor_after last_seq_id batches) rest).1,
          (loop (cursor_after last_seq_id batches) rest).2).
Proof.
  revert last_seq_id.
  induction batches as [|[rows c] batches IH]; intros last_seq_id.
  - exists []. split; [done|]. simpl. by destruct (loop last_seq_id rest).
  - rewrite cursor_after_cons. cbn [last_seq].
    destruct (IH c) as (tr & H1 & H2).
    unfold unkilled in *. cbn [map app].
    destruct rows as [|r rows].
    + rewrite !feed_loop_idle. cbv zeta. rewrite H1, H2. cbn [fst snd].
      eexists (_ :: _ :: _ :: _ :: tr). split; reflexivity.
    + rewrite !feed_loop_batch. cbv zeta. rewrite H1, H2. cbn [fst snd].
      exists (CallChanges true last_seq_id limit filter_doc
                :: Returned (Changes (r :: rows) c)
                :: map (fun row => Yield (Munch (doc row))) (r :: rows)
                ++ KillNow false :: tr).
      split; f_equal; cbn [app map]; by rewrite <- !app_assoc.
Qed.

Lemma feed_loop_raised last_seq_id script e :
  (loop last_seq_id script).2 = Raised e ->
  exists batches k rest,
    script = unkilled batches ++ Turn (Raise e) k :: rest.
Proof.
  revert last_seq_id.
  induction script as [|[[[rows c]|e0] k] script IH]; intros last_seq_id.
  - done.
  - destruct rows as [|r rows].
    + rewrite feed_loop_idle. cbv zeta. destruct k; [done|]. cbn [snd].
      intros H. destruct (IH _ H) as (batches & k & rest & ->).
      by exists (Changes [] c :: batches), k, rest.
    + rewrite feed_loop_batch. cbv zeta. destruct k; [done|]. cbn [snd].
      intros H. destruct (IH _ H) as (batches & k & rest & ->).
      by exists (Changes (r :: rows) c :: batches), k, rest.
  - rewrite feed_loop_raise. intros [= ->]. by exists [], k, script.
Qed.

Lemma app_split_notin {A} (x : A) (head tl tr1 tr2 : list A) :
  x ∉ head ->
  head ++ tl = tr1 ++ x :: tr2 ->
  exists tr1', tr1 = head ++ tr1' /\ tl = tr1' ++ x :: tr2.
Proof.
  revert tr1. induction head as [|y head IH]; intros tr1 Hnot Heq.
  - by exists tr1.
  - destruct tr1 as [|z tr1]; simpl in Heq; simplify_eq.
    + exfalso. apply Hnot. left.
    + destruct (IH tr1) as (tr1' & -> & ->); [|done|].
      * intros ?. apply Hnot. by right.
      * by exists tr1'.
Qed.

Lemma Sleep_not_yield t (rows : list row) :
  Sleep t ∉ map (fun row => Yield (Munch (doc row))) rows.
Proof.
  induction rows as [|r rows IH]; simpl.
  - apply not_elem_of_nil.
  - rewrite elem_of_cons. intros [?|?]; [done|]. by apply IH.
Qed.

Lemma feed_loop_sleep last_seq_id script tr1 t tr2 :
  (loop last_seq_id script).1 = tr1 ++ Sleep t :: tr2 ->
  t = timeout
  /\ exists tr0 c tr3,
      tr1 = tr0 ++ [Returned (Changes [] c); KillNow false]
      /\ tr2 = CallChanges true c limit filter_doc :: tr3.
Proof.
  revert last_seq_id tr1.
  induction script as [|[[[rows c]|e0] k] script IH]; intros last_seq_id tr1.
  - simpl. intros Heq. destruct tr1 as [|? [|? ?]]; cbn [app] in Heq; simplify_eq.
  - destruct rows as [|r rows].
    + rewrite feed_loop_idle. cbv zeta. destruct k; cbn [fst app].
      * intros Heq. destruct tr1 as [|? [|? [|? [|? ?]]]]; cbn [app] in Heq; simplify_eq.
      * intros Heq.
        destruct tr1 as [|e1 [|e2 [|e3 [|e4 tr1]]]]; cbn [app] in Heq;
          try discriminate.
        -- injection Heq as <- <- <- Ht Htl. split; [done|].
           destruct (feed_loop_first_poll timeout limit filter_doc c script)
             as [tr3 Htr3].
           exists [CallChanges true last_seq_id limit filter_doc], c, tr3.
           split; [reflexivity|]. by rewrite <- Htl.
        -- injection Heq as <- <- <- <- Htl.
           destruct (IH _ _ Htl) as (Ht & tr0 & c' & tr3 & -> & ->).
           split; [done|].
           by eexists (_ :: _ :: _ :: _ :: tr0), c', tr3.
    + rewrite feed_loop_batch. cbv zeta.
      set (ys := map (fun row => Yield (Munch (doc row))) (r :: rows)).
      assert (Hhd : Sleep t ∉
                 CallChanges true last_seq_id limit filter_doc
                   :: Returned (Changes (r :: rows) c) :: ys ++ [KillNow k]).
      { rewrite !elem_of_cons, elem_of_app, list_elem_of_singleton.
        intros [?|[?|[?|?]]]; try done. by eapply Sleep_not_yield. }
      destruct k; cbn [fst].
      * intros Heq. exfalso. apply Hhd. cbn [app] in *. rewrite Heq.
        apply elem_of_app. right. left.
      * intros Heq.
        destruct (app_split_notin (Sleep t)
                    (CallChanges true last_seq_id limit filter_doc
                       :: Returned (Changes (r :: rows) c)
                       :: ys ++ [KillNow false])
                    (loop c script).1 tr1 tr2 Hhd) as (tr1' & -> & Htl).
        { rewrite <- Heq. cbn [app]. by rewrite <- !app_assoc. }
        destruct (IH _ _ Htl) as (Ht & tr0 & c' & tr3 & -> & ->).
        split; [done|].
        eexists (_ ++ tr0), c', tr3. by rewrite <- app_assoc.
  - rewrite feed_loop_raise. simpl. intros Heq.
    destruct tr1 as [|? [|? ?]]; cbn [app] in Heq; simplify_eq.
Qed.

Lemma polls_app tr1 tr2 : polls (tr1 ++ tr2) = polls tr1 ++ polls tr2.
Proof. apply omap_app. Qed.

Lemma polls_map_Yield (rows : list row) :
  polls (map (fun row => Yield (Munch (doc row))) rows) = [].
Proof. induction rows as [|r rows IH]; simpl; done. Qed.

Lemma polls_CallChanges i s l f tr :
  polls (CallChanges i s l f :: tr) = s :: polls tr.
Proof. reflexivity. Qed.

Lemma polls_other ev tr :
  (forall i s l f, ev <> CallChanges i s l f) -> polls (ev :: tr) = polls tr.
Proof. intros Hev. destruct ev; try reflexivity. by destruct (Hev include_docs since limit0 filter). Qed.

Lemma returned_Returned data tr :
  returned (Returned data :: tr) = data :: returned tr.
Proof. reflexivity. Qed.

Lemma returned_other ev tr :
  (forall data, ev <> Returned data) -> returned (ev :: tr) = returned tr.
Proof. intros Hev. destruct ev; try reflexivity. by destruct (Hev data). Qed.

Ltac trace_norm :=
  repeat first
    [ rewrite polls_CallChanges
    | rewrite returned_Returned
    | rewrite polls_app
    | rewrite returned_app
    | rewrite polls_map_Yield
    | rewrite returned_map_Yield
    | rewrite polls_other by done
    | rewrite returned_other by done
    | rewrite app_nil_l ].

Lemma feed_loop_polls last_seq_id script :
  let run := loop last_seq_id script in
  match run.2 with
  | StopIteration =>
      exists c, last_seq_id :: map last_seq (returned run.1) = polls run.1 ++ [c]
  | _ => polls run.1 = last_seq_id :: map last_seq (returned run.1)
  end.
Proof.
  cbv zeta. revert last_seq_id.
  induction script as [|[[[rows c]|e0] k] script IH]; intros last_seq_id.
  - done.
  - specialize (IH c). destruct rows as [|r rows].
    + rewrite feed_loop_idle. cbv zeta. destruct k; cbn [fst snd app].
      * by exists c.
      * destruct ((loop c script).2); trace_norm; cbn [map last_seq].
        -- destruct IH as [c' IH]. exists c'. by rewrite IH.
        -- by rewrite IH.
        -- by rewrite IH.
    + rewrite feed_loop_batch. cbv zeta. destruct k; cbn [fst snd app].
      * exists c. trace_norm. done.
      * destruct ((loop c script).2); trace_norm; cbn [map last_seq].
        -- destruct IH as [c' IH]. exists c'. by rewrite IH.
        -- by rewrite IH.
        -- by rewrite IH.
  - rewrite feed_loop_raise. done.
Qed.

Lemma feed_loop_poll_arguments last_seq_id script i s l f :
  CallChanges i s l f ∈ (loop last_seq_id script).1 ->
  i = true /\ l = limit /\ f = filter_doc.
Proof.
  revert last_seq_id.
  induction script as [|[[[rows c]|e0] k] script IH]; intros last_seq_id.
  - simpl. rewrite list_elem_of_singleton. by intros [= -> -> -> ->].
  - destruct rows as [|r rows].
    + rewrite feed_loop_idle. cbv zeta. destruct k; cbn [fst app];
        rewrite !elem_of_cons.
      * intros [[= -> -> -> ->]|[?|[?|H]]]; try done.
        by apply elem_of_nil in H.
      * intros [[= -> -> -> ->]|[?|[?|[?|H]]]]; try done. by eapply IH.
    + rewrite feed_loop_batch. cbv zeta.
      assert (Hys : CallChanges i s l f
                    ∉ map (fun row => Yield (Munch (doc row))) (r :: rows)).
      { generalize (r :: rows). intros rs. induction rs as [|? ? IHr]; simpl.
        - apply not_elem_of_nil.
        - rewrite elem_of_cons. intros [?|?]; [done|]. by apply IHr. }
      destruct k; cbn [fst app]; rewrite !elem_of_cons, elem_of_app, ?elem_of_cons.
      * intros [[= -> -> -> ->]|[?|[?|[?|H]]]]; try done.
        by apply elem_of_nil in H.
      * intros [[= -> -> -> ->]|[?|[?|[?|H]]]]; try done. by eapply IH.
  - rewrite feed_loop_raise. simpl. rewrite list_elem_of_singleton.
    by intros [= -> -> -> ->].
Qed.

End FeedRuns.

(** X2. A run is resumed from the cursor alone.  After any batches
    answered with the kill flag unset, the generator is waiting on a poll
    made with the [last_seq] of the last of them (the initial cursor when
    there was none), and whatever the store does next, the run goes on
    exactly as a run started at that cursor. *)
Theorem feed_resumes_from_cursor :
  forall (timeout limit : Z) (filter_doc : string) (last_seq_id : Z)
         (batches : list changes) (rest : list turn),
    let c := cursor_after last_seq_id batches in
    exists tr,
      feed_loop timeout limit filter_doc last_seq_id (unkilled batches)
      = (tr ++ [CallChanges true c limit filter_doc], Running)
      /\ feed_loop timeout limit filter_doc last_seq_id
           (unkilled batches ++ rest)
         = (tr ++ (feed_loop timeout limit filter_doc c rest).1,
            (feed_loop timeout limit filter_doc c rest).2).
Proof.
  intros timeout limit filter_doc last_seq_id batches rest c.
  apply feed_loop_unkilled.
Qed.

(** X3. An exception raised by [db.changes] is not caught: it leaves the
    generator, which happens exactly when a poll fails before the kill flag
    was found set.  Everything done before that poll stands, the poll gets
    no answer, and nothing is done after it. *)
Theorem feed_poll_failure_propagates :
  forall (timeout limit : Z) (filter_doc : string) (last_seq_id : Z)
         (e : exception),
    (forall script,
        (feed_loop timeout limit filter_doc last_seq_id script).2 = Raised e
        <-> exists batches k rest,
              script = unkilled batches ++ Turn (Raise e) k :: rest)
    /\ (forall batches k rest,
           feed_loop timeout limit filter_doc last_seq_id
             (unkilled batches ++ Turn (Raise e) k :: rest)
           = ((feed_loop timeout limit filter_doc last_seq_id
                 (unkilled batches)).1,
              Raised e)).
Proof.
  intros timeout limit filter_doc last_seq_id e.
  assert (Hrun : forall batches k rest,
             feed_loop timeout limit filter_doc last_seq_id
               (unkilled batches ++ Turn (Raise e) k :: rest)
             = ((feed_loop timeout limit filter_doc last_seq_id
                   (unkilled batches)).1,
                Raised e)).
  { intros batches k rest.
    destruct (feed_loop_unkilled timeout limit filter_doc last_seq_id batches
                (Turn (Raise e) k :: rest)) as (tr & -> & ->).
    by rewrite feed_loop_raise. }
  split; [|exact Hrun].
  intros script. split.
  - apply feed_loop_raised.
  - intros (batches & k & rest & ->). by rewrite Hrun.
Qed.

(** X4. The generator sleeps only when idle: every sleep lasts [timeout],
    comes right after a poll that returned no rows and a read of the kill
    flag that found it unset, and is followed at once by the next poll,
    made with the cursor of that empty answer. *)
Theorem feed_sleeps_only_when_idle :
  forall (timeout limit : Z) (filter_doc : string) (last_seq_id : Z)
         (script : list turn) (tr1 tr2 : list event) (t : Z),
    (feed_loop timeout limit filter_doc last_seq_id script).1
    = tr1 ++ Sleep t :: tr2 ->
    t = timeout
    /\ exists tr0 c tr3,
        tr1 = tr0 ++ [Returned (Changes [] c); KillNow false]
        /\ tr2 = CallChanges true c limit filter_doc :: tr3.
Proof.
  intros timeout limit filter_doc last_seq_id script tr1 tr2 t.
  apply feed_loop_sleep.
Qed.

Lemma feed_sleeps_only_when_idle_witness :
  (feed_loop 10 100 "auction_filters/convoy_feed" 0
     [Turn (Ok (Changes [] 42)) false]).1
  = [CallChanges true 0 100 "auction_filters/convoy_feed";
     Returned (Changes [] 42); KillNow false]
    ++ Sleep 10 :: [CallChanges true 42 100 "auction_filters/convoy_feed"]
  /\ 10 = 10
  /\ exists tr0 c tr3,
      [CallChanges true 0 100 "auction_filters/convoy_feed";
       Returned (Changes [] 42); KillNow false]
      = tr0 ++ [Returned (Changes [] c); KillNow false]
      /\ [CallChanges true 42 100 "auction_filters/convoy_feed"]
         = CallChanges true c 100 "auction_filters/convoy_feed" :: tr3.
Proof.
  split; [reflexivity|].
  apply (feed_sleeps_only_when_idle 10 100 "auction_filters/convoy_feed" 0
           [Turn (Ok (Changes [] 42)) false]).
  reflexivity.
Defined.

(** X5. The cursors of a whole run: the first poll is made with the
    initial cursor (0 for [continuous_changes_feed]) and every later poll
    with the [last_seq] of the answer before it.  While the generator has
    not returned, there is one poll more than answers; once it has returned,
    the cursor of the last answer was taken but never used. *)
Theorem feed_polls_follow_answers :
  forall (timeout limit : Z) (filter_doc : string),
    (forall last_seq_id script,
        let run := feed_loop timeout limit filter_doc last_seq_id script in
        match run.2 with
        | StopIteration =>
            exists c,
              last_seq_id :: map last_seq (returned run.1) = polls run.1 ++ [c]
        | _ => polls run.1 = last_seq_id :: map last_seq (returned run.1)
        end)
    /\ (forall script,
           let run := continuous_changes_feed timeout limit filter_doc script in
           exists cs, polls run.1 = 0 :: cs).
Proof.
  intros timeout limit filter_doc. split.
  - intros last_seq_id script. apply feed_loop_polls.
  - intros script run. subst run. unfold continuous_changes_feed.
    destruct (feed_loop_first_poll timeout limit filter_doc 0 script)
      as [tr ->].
    by eexists.
Qed.

(** X6. Every poll of a run asks for the documents ([include_docs=True])
    and passes the [limit] and the [filter] the generator was started with:
    the arguments other than the cursor never change. *)
Theorem feed_poll_arguments_fixed :
  forall (timeout limit : Z) (filter_doc : string) (last_seq_id : Z)
         (script : list turn) (i : bool) (s l : Z) (f : string),
    CallChanges i s l f
    ∈ (feed_loop timeout limit filter_doc last_seq_id script).1 ->
    i = true /\ l = limit /\ f = filter_doc.
Proof.
  intros timeout limit filter_doc last_seq_id script i s l f.
  apply feed_loop_poll_arguments.
Qed.

Lemma feed_poll_arguments_fixed_witness :
  (CallChanges true 42 100 "auction_filters/convoy_feed"
   ∈ (feed_loop 10 100 "auction_filters/convoy_feed" 0
        [Turn (Ok (Changes [] 42)) false]).1)
  /\ true = true /\ 100 = 100
  /\ "auction_filters/convoy_feed" = "auction_filters/convoy_feed".
Proof.
  assert (Hin : CallChanges true 42 100 "auction_filters/convoy_feed"
                ∈ (feed_loop 10 100 "auction_filters/convoy_feed" 0
                     [Turn (Ok (Changes [] 42)) false]).1).
  { vm_compute. do 4 right. left. }
  split; [exact Hin|].
  exact (feed_poll_arguments_fixed 10 100 "auction_filters/convoy_feed" 0
           [Turn (Ok (Changes [] 42)) false] true 42 100
           "auction_filters/convoy_feed" Hin).
Defined.

(** ** [push_filter_doc]: what is stored, raised and logged *)

(** X7. After a call that returns, the filter document is in the database
    and its [filters] mapping holds, under [convoy_feed], the text rendered
    from the given lists, whether the call saved it or found it there. *)
Theorem push_filter_doc_installs :
  forall (w : world) (auctions_types : gmap string (list string)) (f : pydict),
    filters_doc_of w !! "filters" = Some (VDict f) ->
    let r := push_filter_doc auctions_types w in
    exists (text : string) (stored f' : pydict),
      filter_convoy_feed_doc auctions_types = Ok text
      /\ r.2 = Ok tt
      /\ documents r.1 !! FILTER_DOC_ID = Some stored
      /\ stored !! "filters" = Some (VDict f')
      /\ f' !! "convoy_feed" = Some (VStr text).
Proof.
  intros w auctions_types f Hf r.
  exists (filter_text auctions_types).
  assert (Hstored : forall body, documents w !! FILTER_DOC_ID = Some body ->
                                 body !! "filters" = Some (VDict f)).
  { intros body Hbody. unfold filters_doc_of in Hf. rewrite Hbody in Hf.
    by rewrite lookup_insert_ne in Hf. }
  subst r. rewrite push_filter_doc_cases. cbv zeta. rewrite Hf.
  destruct (eq_str (dict_get f "convoy_feed") (filter_text auctions_types))
    eqn:Heq.
  - apply eq_str_get in Heq. cbn [fst snd add_logs documents].
    destruct (documents w !! FILTER_DOC_ID) as [body|] eqn:Hbody.
    + exists body, f. split; [apply filter_convoy_feed_doc_ok|].
      split; [done|]. split; [done|]. split; [by apply Hstored|done].
    + unfold filters_doc_of in Hf. rewrite Hbody in Hf.
      unfold default_filters_doc in Hf.
      rewrite lookup_insert_ne, lookup_insert_eq in Hf by done.
      injection Hf as <-. by rewrite lookup_empty in Heq.
  - cbn [fst snd add_logs documents store].
    eexists _, _. split; [apply filter_convoy_feed_doc_ok|].
    split; [done|]. split; [apply lookup_insert_eq|].
    split; [apply lookup_insert_eq|apply lookup_insert_eq].
Qed.

Lemma push_filter_doc_installs_witness :
  filters_doc_of no_filters_world !! "filters" = Some (VDict ∅)
  /\ exists (text : string) (stored f' : pydict),
      filter_convoy_feed_doc sample_types = Ok text
      /\ (push_filter_doc sample_types no_filters_world).2 = Ok tt
      /\ documents (push_filter_doc sample_types no_filters_world).1
           !! FILTER_DOC_ID = Some stored
      /\ stored !! "filters" = Some (VDict f')
      /\ f' !! "convoy_feed" = Some (VStr text).
Proof.
  split; [reflexivity|].
  apply (push_filter_doc_installs no_filters_world sample_types ∅).
  reflexivity.
Defined.

(** X8. [push_filter_doc] returns normally exactly when the filter
    document has a [filters] mapping.  On a stored document without the
    key [filters] it raises [KeyError('filters')]; on one whose [filters]
    is not a dictionary it raises the [AttributeError] of [.get].  In both
    cases nothing is saved and nothing is logged. *)
Theorem push_filter_doc_errors :
  forall (w : world) (auctions_types : gmap string (list string)),
    let r := push_filter_doc auctions_types w in
    (r.2 = Ok tt <-> exists f : pydict,
                       filters_doc_of w !! "filters" = Some (VDict f))
    /\ (filters_doc_of w !! "filters" = None ->
        r = (w, Raise (raise_new KeyError (VStr "filters"))))
    /\ (forall v, filters_doc_of w !! "filters" = Some v ->
                  (forall f : pydict, v <> VDict f) ->
                  r = (w, Raise (raise_new AttributeError (VStr "get")))).
Proof.
  intros w auctions_types r. subst r.
  rewrite push_filter_doc_cases. cbv zeta.
  destruct (filters_doc_of w !! "filters") as [v|] eqn:Hf.
  - destruct v;
      try (split; [split; [done|by intros [f [=]]]|];
           split; [done|]; intros v [= <-] Hv; reflexivity).
    split; [|split; [done|]].
    + split; [by exists d|]. intros _. by destruct (eq_str _ _).
    + intros v [= <-] Hv. by destruct (Hv d).
  - split; [split; [done|by intros [f ?]]|]. split; [done|]. by intros v.
Qed.

Lemma push_filter_doc_errors_witness :
  filters_doc_of world_without_filters_mapping !! "filters" = None
  /\ push_filter_doc sample_types world_without_filters_mapping
     = (world_without_filters_mapping,
        Raise (raise_new KeyError (VStr "filters"))).
Proof.
  assert (H : filters_doc_of world_without_filters_mapping !! "filters" = None)
    by reflexivity.
  split; [exact H|].
  exact (proj1 (proj2 (push_filter_doc_errors world_without_filters_mapping
                         sample_types)) H).
Defined.

(** X9. A call that returns writes exactly two records, both at level
    INFO, and calls no other service.  The first record says [saved] when
    the document was handed to [db.save], once, and [exist] when nothing
    was saved and the database is as before; the second is always
    ['Added filters doc to db.']. *)
Theorem push_filter_doc_log :
  forall (w : world) (auctions_types : gmap string (list string)),
    let r := push_filter_doc auctions_types w in
    r.2 = Ok tt ->
    exists first : string,
      logger r.1
      = logger w ++ [LogRecord INFO first [] None;
                     LogRecord INFO "Added filters doc to db." [] None]
      /\ history r.1 = history w
      /\ ((first = "Filter doc 'convoy_feed' saved."
           /\ exists doc, saved r.1 = saved w ++ [doc])
          \/ (first = "Filter doc 'convoy_feed' exist."
              /\ saved r.1 = saved w /\ documents r.1 = documents w)).
Proof.
  intros w auctions_types r. subst r.
  rewrite push_filter_doc_cases. cbv zeta.
  destruct (filters_doc_of w !! "filters") as [v|]; [|done].
  destruct v; try done.
  destruct (eq_str _ _); intros _; cbn [fst add_logs store logger saved
                                          documents history].
  - eexists. split; [done|]. split; [done|]. right. done.
  - eexists. split; [done|]. split; [done|]. left. split; [done|]. by eexists.
Qed.

Lemma push_filter_doc_log_witness :
  (push_filter_doc sample_types no_filters_world).2 = Ok tt
  /\ exists first : string,
      logger (push_filter_doc sample_types no_filters_world).1
      = logger no_filters_world
          ++ [LogRecord INFO first [] None;
              LogRecord INFO "Added filters doc to db." [] None].
Proof.
  assert (H : (push_filter_doc sample_types no_filters_world).2 = Ok tt)
    by (vm_compute; reflexivity).
  split; [exact H|].
  destruct (push_filter_doc_log no_filters_world sample_types H)
    as (first & Hlog & _).
  exists first. exact Hlog.
Defined.

(** X10. Rendering the predicate never fails, whatever the lists are,
    and two configurations render the same text exactly when they have the
    same [basic] list and the same [loki] list, a missing key counting as
    the empty list. *)
Theorem filter_convoy_feed_doc_injective :
  forall auctions_types1 auctions_types2 : gmap string (list string),
    exists text1 text2 : string,
      filter_convoy_feed_doc auctions_types1 = Ok text1
      /\ filter_convoy_feed_doc auctions_types2 = Ok text2
      /\ (text1 = text2
          <-> default [] (auctions_types1 !! "basic")
              = default [] (auctions_types2 !! "basic")
              /\ default [] (auctions_types1 !! "loki")
                 = default [] (auctions_types2 !! "loki")).
Proof.
  intros auctions_types1 auctions_types2.
  exists (filter_text auctions_types1), (filter_text auctions_types2).
  split; [apply filter_convoy_feed_doc_ok|].
  split; [apply filter_convoy_feed_doc_ok|].
  split.
  - apply filter_text_inj.
  - intros [Hb Hl]. unfold filter_text, basic_types, loki_types.
    by rewrite Hb, Hl.
Qed.

(** X11. On a database that has no filter document, the call creates it
    under [_design/auction_filters] with nothing but its [_id] and a
    [filters] mapping whose only entry is [convoy_feed], and saves it
    once. *)
Theorem push_filter_doc_first_run :
  forall (w : world) (auctions_types : gmap string (list string)),
    documents w !! FILTER_DOC_ID = None ->
    let r := push_filter_doc auctions_types w in
    exists text : string,
      let doc : pydict :=
        <["filters" := VDict (<["convoy_feed" := VStr text]> ∅)]>
          (<["_id" := VStr FILTER_DOC_ID]> ∅) in
      filter_convoy_feed_doc auctions_types = Ok text
      /\ r.2 = Ok tt
      /\ documents r.1 = <[FILTER_DOC_ID := doc]> (documents w)
      /\ saved r.1 = saved w ++ [doc].
Proof.
  intros w auctions_types Hnone r. subst r.
  exists (filter_text auctions_types). cbv zeta.
  split; [apply filter_convoy_feed_doc_ok|].
  rewrite push_filter_doc_cases. cbv zeta.
  unfold filters_doc_of. rewrite Hnone. unfold default_filters_doc.
  rewrite lookup_insert_ne, lookup_insert_eq by done.
  unfold dict_get. rewrite lookup_empty. cbn [default eq_str].
  cbn [fst snd add_logs store documents saved].
  assert (Hdoc : <["filters" := VDict (<["convoy_feed" :=
                                           VStr (filter_text auctions_types)]> ∅)]>
                   (<["_id" := VStr FILTER_DOC_ID]>
                      (<["filters" := VDict ∅]> ∅))
                 = <["filters" := VDict (<["convoy_feed" :=
                                             VStr (filter_text auctions_types)]> ∅)]>
                     (<["_id" := VStr FILTER_DOC_ID]> (∅ : pydict))).
  { rewrite (insert_insert_ne _ "_id" "filters") by done.
    by rewrite insert_insert_eq. }
  by rewrite Hdoc.
Qed.

Lemma push_filter_doc_first_run_witness :
  documents no_filters_world !! FILTER_DOC_ID = None
  /\ exists text : string,
      filter_convoy_feed_doc sample_types = Ok text
      /\ saved (push_filter_doc sample_types no_filters_world).1
         = [<["filters" := VDict (<["convoy_feed" := VStr text]> ∅)]>
              (<["_id" := VStr FILTER_DOC_ID]> ∅)].
Proof.
  assert (H : documents no_filters_world !! FILTER_DOC_ID = None)
    by reflexivity.
  split; [exact H|].
  destruct (push_filter_doc_first_run no_filters_world sample_types H)
    as (text & Htext & _ & _ & Hsaved).
  exists text. split; [exact Htext|exact Hsaved].
Defined.

(** ** [prepare_couchdb]: requests and log *)

(** X12. [prepare_couchdb] never reads or writes a document.  It sends the
    server one or two requests, all about the database asked for: first
    the membership test, then [create] when the test answered a falsy
    value and the lookup when it answered a truthy one.  It logs one ERROR
    record, with the message of the exception, when a request raised a
    [socket.error], and nothing otherwise. *)
Theorem prepare_couchdb_effects :
  forall (env : environment) (couch_url db_name : value) (w : world),
    let r := prepare_couchdb env couch_url db_name w in
    documents r.1 = documents w
    /\ saved r.1 = saved w
    /\ exists new : list call,
        history r.1 = history w ++ new
        /\ (length new = 1 \/ length new = 2)%nat
        /\ (forall c, c ∈ new ->
                      target c = "Server" /\ args c = [couch_url; db_name])
        /\ (forall c, c ∈ new -> method c <> "__contains__" ->
                      exists present,
                        new !! 0%nat
                        = Some (Call "Server" "__contains__"
                                  [couch_url; db_name] (Ok present))
                        /\ method c = (if truthy present then "__getitem__"
                                       else "create"))
        /\ (forall c e0, c ∈ new -> answer c = Raise e0 ->
                         logger r.1
                         = logger w
                             ++ (if isinstance e0 [socket_error]
                                 then [LogRecord ERROR "Database error: {}"
                                         [message e0] None]
                                 else []))
        /\ ((forall c, c ∈ new -> exists v, answer c = Ok v) ->
            logger r.1 = logger w).
Proof.
  intros env couch_url db_name w r. subst r.
  rewrite prepare_couchdb_cases. cbv zeta.
  destruct (env (history w) "Server" "__contains__" [couch_url; db_name])
    as [present|e0] eqn:Ha0.
  - destruct (env (history w ++ _) "Server" _ [couch_url; db_name])
      as [db|e1] eqn:Ha1.
    + cbn [fst snd record_call documents saved history logger].
      split; [done|]. split; [done|].
      eexists [_; _]. split; [by rewrite <- app_assoc|].
      split; [by right|]. split; [|split; [|split]].
      * intros c Hc. rewrite !elem_of_cons, elem_of_nil in Hc.
        destruct Hc as [->|[->|[]]]; done.
      * intros c Hc Hm. rewrite !elem_of_cons, elem_of_nil in Hc.
        destruct Hc as [->|[->|[]]]; [done|].
        exists present. split; [done|]. cbn [method].
        by destruct (truthy present).
      * intros c e Hc Hans. rewrite !elem_of_cons, elem_of_nil in Hc.
        destruct Hc as [->|[->|[]]]; done.
      * done.
    + assert (Hw : forall w', 
                 let s := if isinstance e1 [socket_error]
                          then (add_logs [LogRecord ERROR "Database error: {}"
                                            [message e1] None] w',
                                Raise (raise_new ConfigError (strerror e1)))
                          else (w', @Raise value e1) in
                 documents s.1 = documents w' /\ saved s.1 = saved w'
                 /\ history s.1 = history w'
                 /\ logger s.1
                    = logger w' ++ (if isinstance e1 [socket_error]
                                    then [LogRecord ERROR "Database error: {}"
                                            [message e1] None]
                                    else [])).
      { intros w'. cbv zeta. destruct (isinstance e1 [socket_error]);
          cbn [fst add_logs documents saved history logger];
          by rewrite ?app_nil_r. }
      match goal with
      | |- context [if isinstance e1 [socket_error] then (add_logs _ ?w', _)
                    else _] =>
          destruct (Hw w') as (Hd & Hs & Hh & Hl)
      end.
      rewrite Hd, Hs, Hh, Hl.
      cbn [record_call documents saved history logger].
      split; [done|]. split; [done|].
      eexists [_; _]. split; [by rewrite <- app_assoc|].
      split; [by right|]. split; [|split; [|split]].
      * intros c Hc. rewrite !elem_of_cons, elem_of_nil in Hc.
        destruct Hc as [->|[->|[]]]; done.
      * intros c Hc Hm. rewrite !elem_of_cons, elem_of_nil in Hc.
        destruct Hc as [->|[->|[]]]; [done|].
        exists present. split; [done|]. cbn [method].
        by destruct (truthy present).
      * intros c e Hc Hans. rewrite !elem_of_cons, elem_of_nil in Hc.
        destruct Hc as [->|[->|[]]]; [done|]. by injection Hans as <-.
      * intros Hall. 
        destruct (Hall (Call "Server"
                          (if negb (truthy present) then "create"
                           else "__getitem__")
                          [couch_url; db_name] (Raise e1))) as [v Hv];
          [right; left|done].
  - assert (Hw : forall w', 
               let s := if isinstance e0 [socket_error]
                        then (add_logs [LogRecord ERROR "Database error: {}"
                                          [message e0] None] w',
                              Raise (raise_new ConfigError (strerror e0)))
                        else (w', @Raise value e0) in
               documents s.1 = documents w' /\ saved s.1 = saved w'
               /\ history s.1 = history w'
               /\ logger s.1
                  = logger w' ++ (if isinstance e0 [socket_error]
                                  then [LogRecord ERROR "Database error: {}"
                                          [message e0] None]
                                  else [])).
    { intros w'. cbv zeta. destruct (isinstance e0 [socket_error]);
        cbn [fst add_logs documents saved history logger];
        by rewrite ?app_nil_r. }
    match goal with
    | |- context [if isinstance e0 [socket_error] then (add_logs _ ?w', _)
                  else _] =>
        destruct (Hw w') as (Hd & Hs & Hh & Hl)
    end.
    rewrite Hd, Hs, Hh, Hl.
    cbn [record_call documents saved history logger].
    split; [done|]. split; [done|].
    eexists [_]. split; [done|].
    split; [by left|]. split; [|split; [|split]].
    + intros c Hc. apply list_elem_of_singleton in Hc as ->. done.
    + intros c Hc Hm. apply list_elem_of_singleton in Hc as ->. done.
    + intros c e Hc Hans. apply list_elem_of_singleton in Hc as ->.
      by injection Hans as <-.
    + intros Hall.
      destruct (Hall (Call "Server" "__contains__" [couch_url; db_name]
                        (Raise e0))) as [v Hv]; [left|done].
Qed.

(** ** [AuctionsMapping] and [prepare_auctions_mapping] *)

Section MappingRuns.

Variable env : environment.

(** The constructor, by the answer of the client it builds. *)
Lemma AuctionsMapping_init_cases (config : pydict) (w : world) :
  let redis := contains_key config "host" in
  let client := if redis then "StrictRedis" else "LazyDB" in
  let args :=
    if redis then [VDict (redis_arguments config)]
    else [dict_get_default config "name" (VStr "auctions_mapping")] in
  let a := env (history w) client "__init__" args in
  let w0 := record_call (Call client "__init__" args a) w in
  AuctionsMapping_init env config w =
  match a with
  | Ok o =>
      (add_logs
         [if redis then
            LogRecord INFO
              ("Set redis store " +:+ quoted "{db}"
               +:+ " at {host}:{port} as auctions mapping")
              [VDict (redis_arguments config)] None
          else
            LogRecord INFO
              ("Set lazydb " +:+ quoted "{}" +:+ " as auctions mapping")
              [dict_get_default config "name" (VStr "auctions_mapping")] None]
         w0,
       Ok {| am_config := config; am_client := client; am_db := o;
             _set_value := if redis then "set" else "put";
             _has_value := if redis then "exists" else "has" |})
  | Raise e => (w0, Raise e)
  end.
Proof.
  cbv zeta. unfold AuctionsMapping_init.
  destruct (contains_key config "host"); cbv zeta;
    rewrite bind_run, call_service_run; fold (redis_arguments config);
    match goal with
    | |- context [env (history w) ?t "__init__" ?a] =>
        destruct (env (history w) t "__init__" a) as [o|e]
    end; reflexivity.
Qed.

End MappingRuns.

(** X13. Without the check (the default), [prepare_auctions_mapping]
    makes one call, the constructor of the client that the configuration
    selects, and never touches the store: no sentinel is written.  It
    returns the mapping around the object the constructor answered, after
    one INFO record, and raises what the constructor raised, with nothing
    logged. *)
Theorem prepare_auctions_mapping_unchecked :
  forall (env : environment) (config : pydict) (w : world),
    let r := prepare_auctions_mapping env config false w in
    exists ctor : call,
      history r.1 = history w ++ [ctor]
      /\ target ctor = mapping_client config
      /\ method ctor = "__init__"
      /\ documents r.1 = documents w
      /\ saved r.1 = saved w
      /\ match answer ctor with
         | Ok o =>
             (exists db, r.2 = Ok db /\ am_db db = o /\ am_config db = config)
             /\ exists rec, logger r.1 = logger w ++ [rec]
                            /\ log_level rec = INFO
         | Raise e => r.2 = Raise e /\ logger r.1 = logger w
         end.
Proof.
  intros env config w r. subst r.
  unfold prepare_auctions_mapping. rewrite bind_run.
  rewrite AuctionsMapping_init_cases. cbv zeta. unfold mapping_client.
  match goal with
  | |- context [env (history w) ?t "__init__" ?a] =>
      exists (Call t "__init__" a (env (history w) t "__init__" a));
      destruct (env (history w) t "__init__" a) as [o|e]
  end.
  - cbn [fst snd mbind M_bind mret M_ret add_logs record_call
         history documents saved logger target method answer].
    split; [done|]. split; [done|]. split; [done|]. split; [done|].
    split; [done|]. split; [by eexists|].
    eexists. split; [done|]. by destruct (contains_key config "host").
  - cbn [fst snd record_call history documents saved logger target method
         answer].
    done.
Qed.




(** X15. The self-check compares the answer of [has] with [True] by
    identity.  A backend that answers anything else, be it a truthy value
    such as the integer 1, fails the check with an [AssertionError] right
    after the write: the sentinel is neither read back nor deleted. *)
Theorem self_check_requires_True :
  forall (env : environment) (config : pydict) (w : world) (present : value),
    (forall h t args, exists o, env h t "__init__" args = Ok o) ->
    (forall h t m args, m ∈ ["put"; "set"] -> exists o, env h t m args = Ok o) ->
    (forall h t m args, m ∈ ["has"; "exists"] -> env h t m args = Ok present) ->
    is_True present = false ->
    let r := prepare_auctions_mapping env config true w in
    r.2 = Raise (raise_new AssertionError VNone)
    /\ exists new : list call,
        history r.1 = history w ++ new
        /\ map method new
           = "__init__" :: map step_method (take 2 (mapping_script config)).
Proof.
  intros env config w present Hctor Hput Hhas Hnot r. subst r.
  rewrite prepare_auctions_mapping_run, AuctionsMapping_init_cases.
  cbv zeta. unfold mapping_script.
  match goal with
  | |- context [env (history w) ?t "__init__" ?a] =>
      destruct (Hctor (history w) t a) as [o ->]
  end.
  cbn [am_client _set_value _has_value].
  unfold self_check.
  destruct (contains_key config "host");
    rewrite run_script_cons; cbv zeta;
    cbn [step_target step_method step_args step_check];
    match goal with
    | |- context [env ?h ?t ?m ?a] =>
        match m with
        | "__init__" => fail 1
        | _ => destruct (Hput h t m a) as [o1 ->];
               [rewrite !elem_of_cons; by auto|]
        end
    end;
    rewrite run_script_cons; cbv zeta;
    cbn [step_target step_method step_args step_check];
    rewrite Hhas by (rewrite !elem_of_cons; by auto);
    rewrite Hnot;
    cbn [fst snd record_call add_logs history];
    (split; [done|]); eexists [_; _; _];
    (split; [by rewrite <- !app_assoc|done]).
Qed.

Lemma self_check_requires_True_witness :
  truthy (VInt 1) = true
  /\ is_True (VInt 1) = false
  /\ (prepare_auctions_mapping env_one ∅ true no_filters_world).2
     = Raise (raise_new AssertionError VNone).
Proof.
  split; [reflexivity|].
  assert (Hnot : is_True (VInt 1) = false) by reflexivity.
  split; [exact Hnot|].
  apply (self_check_requires_True env_one ∅ no_filters_world (VInt 1)).
  - intros h t args. exists (VInt 1). reflexivity.
  - intros h t m args _. exists (VInt 1). reflexivity.
  - intros h t m args _. reflexivity.
  - exact Hnot.
Defined.

(** ** [init_clients]: reports and the CouchDB address *)



(** X17. The address of the CouchDB server carries the credentials only
    when both [login] and [password] are present and truthy: a login
    without a password is dropped without notice.  Either way the section
    must have [host] and [port]; the first one missing is the [KeyError]
    raised, before anything is logged. *)
Theorem couchdb_url_credentials :
  forall (config db : pydict) (w : world),
    config !! "db" = Some (VDict db) ->
    let authorized :=
      truthy (dict_get_default db "login" (VStr ""))
      && truthy (dict_get_default db "password" (VStr "")) in
    let template :=
      if authorized then "http://{login}:{password}@{host}:{port}"
      else "http://{host}:{port}" in
    match first_missing ["host"; "port"] db with
    | Some field =>
        couchdb_url config w = (w, Raise (raise_new KeyError (VStr field)))
    | None =>
        couchdb_url config w
        = (add_logs [LogRecord INFO
                       (if authorized then "couchdb - authorized"
                        else "couchdb without user") [] None] w,
           Ok (VList [VStr template; VDict db]))
    end.
Proof.
  intros config db w Hdb. cbv zeta.
  assert (Hkey : forall k dflt,
             truthy (dict_get_default db k dflt) = true ->
             truthy dflt = false -> contains_key db k = true).
  { intros k dflt Ht Hd. unfold contains_key, dict_get_default in *.
    destruct (db !! k); [by apply bool_decide_eq_true_2|].
    simpl in Ht. congruence. }
  unfold couchdb_url, getitem. rewrite Hdb.
  cbv [mbind M_bind lift mret M_ret format_kw value_get_default first_missing
       LOGGER_info log add_logs].
  destruct (truthy (dict_get_default db "login" (VStr ""))) eqn:Hlogin;
    cbn [andb]; cbv beta iota;
    [destruct (truthy (dict_get_default db "password" (VStr ""))) eqn:Hpw;
     cbv beta iota;
     [rewrite (Hkey "login" (VStr "") Hlogin eq_refl);
      rewrite (Hkey "password" (VStr "") Hpw eq_refl)|]|];
    (destruct (contains_key db "host"); [|done]);
    (destruct (contains_key db "port"); [|done]);
    reflexivity.
Qed.

Lemma couchdb_url_credentials_witness :
  let db : pydict :=
    <["login" := VStr "admin"]>
      (<["host" := VStr "localhost"]> (<["port" := VInt 5984]> ∅)) in
  ({[ "db" := VDict db ]} : pydict) !! "db" = Some (VDict db)
  /\ (couchdb_url {[ "db" := VDict db ]} no_filters_world).2
     = Ok (VList [VStr "http://{host}:{port}"; VDict db]).
Proof.
  intros db.
  assert (H : ({[ "db" := VDict db ]} : pydict) !! "db" = Some (VDict db))
    by reflexivity.
  split; [exact H|].
  pose proof (couchdb_url_credentials {[ "db" := VDict db ]} db
                no_filters_world H) as Hrun.
  cbv zeta in Hrun.
  change (first_missing ["host"; "port"] db) with (@None string) in Hrun.
  cbv beta iota in Hrun. rewrite Hrun. reflexivity.
Defined.

(** ** [get_client_from_resource_type] *)

(** X18. For each client that [init_clients] can build, the resource type
    is the section name without its final [s], and the attribute read for
    that resource type is the key under which [init_clients] returns the
    client.  A resource type whose attribute the processing object does
    not have makes the call raise an [AttributeError] naming it. *)
Theorem get_client_from_resource_type_names :
  forall (cls : string) (attrs : pydict),
    (forall key entry,
        (key, entry) ∈ clients_table ->
        exists resource_type,
          subscript entry "section" = Ok (VStr (resource_type +:+ "s"))
          /\ get_client_from_resource_type (VObject cls attrs) resource_type
             = match attrs !! key with
               | Some client => Ok client
               | None => Raise (raise_new AttributeError (VStr key))
               end)
    /\ (forall resource_type,
           attrs !! (resource_type +:+ "s_client") = None ->
           get_client_from_resource_type (VObject cls attrs) resource_type
           = Raise (raise_new AttributeError
                      (VStr (resource_type +:+ "s_client")))).
Proof.
  intros cls attrs. split.
  - intros key entry Hin. unfold clients_table in Hin.
    rewrite !elem_of_cons, elem_of_nil in Hin.
    destruct Hin as [[= -> ->]|[[= -> ->]|[[= -> ->]|[[= -> ->]|[]]]]].
    + exists "auction". split; reflexivity.
    + exists "lot". split; reflexivity.
    + exists "asset". split; reflexivity.
    + exists "contract". split; reflexivity.
  - intros resource_type Hnone.
    unfold get_client_from_resource_type, getattr. by rewrite Hnone.
Qed.

Lemma get_client_from_resource_type_names_witness :
  (("lots_client", client_entry "lots" "LotsClient") ∈ clients_table)
  /\ get_client_from_resource_type
       (VObject "ProcessingBasic" {[ "lots_client" := VObject "LotsClient" ∅ ]})
       "lot"
     = Ok (VObject "LotsClient" ∅)
  /\ get_client_from_resource_type
       (VObject "ProcessingBasic" {[ "lots_client" := VObject "LotsClient" ∅ ]})
       "tender"
     = Raise (raise_new AttributeError (VStr "tenders_client")).
Proof.
  assert (Hin : ("lots_client", client_entry "lots" "LotsClient")
                ∈ clients_table) by (right; left).
  split; [exact Hin|]. split.
  - reflexivity.
  - apply (proj2 (get_client_from_resource_type_names "ProcessingBasic"
                    {[ "lots_client" := VObject "LotsClient" ∅ ]}) "tender").
    reflexivity.
Defined.

(** ** [make_contract] *)

Section ContractProperties.

Variables (required not_required : list string).

Local Abbreviation make := (make_contract required not_required).

Lemma copy_required_dict fields (c o : pydict) :
  exists o',
    copy_required fields (VDict c) o = Ok o'
    /\ forall k, o' !! k = if bool_decide (k ∈ fields)
                           then Some (dict_get c k) else o !! k.
Proof.
  revert o. induction fields as [|f fields IH]; intros o.
  - exists o. split; [done|]. intros k. 
    rewrite bool_decide_eq_false_2; [done|]. apply not_elem_of_nil.
  - cbn [copy_required value_get_default mbind result_bind].
    destruct (IH (<[f := dict_get_default c f VNone]> o)) as (o' & -> & Hl).
    exists o'. split; [done|]. intros k. rewrite Hl.
    destruct (decide (k ∈ fields)) as [Hin|Hnin].
    + rewrite !bool_decide_eq_true_2; [done|by right|done].
    + rewrite (bool_decide_eq_false_2 (k ∈ fields)) by done.
      destruct (decide (k = f)) as [->|Hne].
      * rewrite lookup_insert_eq. rewrite bool_decide_eq_true_2 by left. done.
      * rewrite lookup_insert_ne by done.
        rewrite bool_decide_eq_false_2; [done|].
        rewrite elem_of_cons. by intros [?|?].
Qed.

Lemma copy_not_required_dict fields (c o : pydict) :
  exists o',
    copy_not_required fields (VDict c) o = Ok o'
    /\ forall k, o' !! k = if bool_decide (k ∈ fields) && truthy (dict_get c k)
                           then Some (dict_get c k) else o !! k.
Proof.
  revert o. induction fields as [|f fields IH]; intros o.
  - exists o. split; [done|]. intros k.
    rewrite bool_decide_eq_false_2; [done|]. apply not_elem_of_nil.
  - cbn [copy_not_required value_get_default mbind result_bind].
    match goal with
    | |- context [copy_not_required fields (VDict c) ?o1] =>
        destruct (IH o1) as (o' & -> & Hl)
    end.
    exists o'. split; [done|]. intros k. rewrite Hl.
    change (dict_get_default c f VNone) with (dict_get c f).
    destruct (decide (k ∈ fields)) as [Hin|Hnin].
    + rewrite !(bool_decide_eq_true_2 (k ∈ fields)) by done.
      rewrite (bool_decide_eq_true_2 (k ∈ f :: fields)) by (by right).
      cbn [andb]. destruct (truthy (dict_get c k)) eqn:Hk; [done|].
      destruct (truthy (dict_get c f)) eqn:Hf; [|done].
      destruct (decide (k = f)) as [->|Hne]; [congruence|].
      by rewrite lookup_insert_ne.
    + rewrite (bool_decide_eq_false_2 (k ∈ fields)) by done. cbn [andb].
      destruct (decide (k = f)) as [->|Hne].
      * rewrite bool_decide_eq_true_2 by left. cbn [andb].
        destruct (truthy (dict_get c f)); [|done].
        by rewrite lookup_insert_eq.
      * rewrite bool_decide_eq_false_2
          by (rewrite elem_of_cons; by intros [?|?]).
        cbn [andb]. destruct (truthy (dict_get c f)); [|done].
        by rewrite lookup_insert_ne.
Qed.

Lemma copy_required_other fields (v : value) (o : pydict) :
  (forall c : pydict, v <> VDict c) ->
  copy_required fields v o
  = match fields with
    | [] => Ok o
    | _ => Raise (raise_new AttributeError (VStr "get"))
    end.
Proof.
  intros Hv. destruct fields as [|f fields]; [done|].
  cbn [copy_required]. destruct v; try done. by destruct (Hv d).
Qed.

Lemma copy_not_required_other fields (v : value) (o : pydict) :
  (forall c : pydict, v <> VDict c) ->
  copy_not_required fields v o
  = match fields with
    | [] => Ok o
    | _ => Raise (raise_new AttributeError (VStr "get"))
    end.
Proof.
  intros Hv. destruct fields as [|f fields]; [done|].
  cbn [copy_not_required]. destruct v; try done. by destruct (Hv d).
Qed.

Ltac field_cases k :=
  destruct (String.eqb_spec k "mode") as [?|?];
    [subst k
    |destruct (String.eqb_spec k "merchandisingObject") as [?|?];
       [subst k
       |destruct (String.eqb_spec k "relatedProcessID") as [?|?];
          [subst k
          |destruct (String.eqb_spec k "contractType") as [?|?];
             [subst k|]]]];
  cbn [andb];
  rewrite ?lookup_insert_ne by done;
  rewrite ?lookup_insert_eq;
  rewrite ?lookup_empty;
  done.

Lemma last_item_snoc (l : list value) (x : value) :
  last_item (VList (l ++ [x])) = Ok x.
Proof. unfold last_item. by rewrite last_snoc. Qed.

(** The run of [make_contract] up to the two loops. *)
Lemma make_contract_head (auction : pydict) (l : list value)
    (contract contractTerms contractType relatedProcessID : value) :
  auction !! "contracts" = Some (VList (l ++ [contract])) ->
  auction !! "contractTerms" = Some contractTerms ->
  subscript contractTerms "type" = Ok contractType ->
  auction !! "id" = Some relatedProcessID ->
  exists o : pydict,
    make auction
    = (o' ← copy_required required contract o;
       copy_not_required not_required contract o')
    /\ forall k,
        o !! k =
        if String.eqb k "mode" && contains_key auction "mode" then
          Some (VStr "test")
        else if String.eqb k "merchandisingObject" then
          auction !! "merchandisingObject"
        else if String.eqb k "relatedProcessID" then Some relatedProcessID
        else if String.eqb k "contractType" then Some contractType
        else None.
Proof.
  intros Hcs Hterms Htype Hid.
  unfold make_contract, munch_getattr.
  rewrite Hcs. cbn [mbind result_bind]. rewrite last_item_snoc.
  cbn [mbind result_bind]. rewrite Hterms. cbn [mbind result_bind].
  rewrite Htype. cbn [mbind result_bind]. rewrite Hid.
  cbn [mbind result_bind].
  assert (Hin : forall k : string,
             contains_key auction k = true <-> is_Some (auction !! k)).
  { intros k. unfold contains_key. apply bool_decide_eq_true. }
  destruct (contains_key auction "merchandisingObject") eqn:Hm.
  - apply Hin in Hm as [m Hm]. rewrite Hm. cbn [mbind result_bind].
    eexists. split; [reflexivity|]. intros k.
    destruct (contains_key auction "mode");
      field_cases k.
  - assert (Hnone : auction !! "merchandisingObject" = None).
    { destruct (auction !! "merchandisingObject") eqn:Hl; [|done].
      assert (contains_key auction "merchandisingObject" = true)
        by (apply Hin; by rewrite Hl).
      congruence. }
    cbn [mbind result_bind].
    eexists. split; [reflexivity|]. intros k. rewrite Hnone.
    destruct (contains_key auction "mode");
      field_cases k.
Qed.

(** Key by key, what a successful run returns. *)
Lemma make_contract_lookup (auction : pydict) (l : list value)
    (contract : pydict) (contractTerms contractType relatedProcessID : value) :
  auction !! "contracts" = Some (VList (l ++ [VDict contract])) ->
  auction !! "contractTerms" = Some contractTerms ->
  subscript contractTerms "type" = Ok contractType ->
  auction !! "id" = Some relatedProcessID ->
  exists o : pydict,
    make auction = Ok o
    /\ forall k,
        o !! k = contract_field required not_required auction contract
                   contractType relatedProcessID k.
Proof.
  intros Hcs Hterms Htype Hid.
  destruct (make_contract_head auction l (VDict contract) contractTerms
              contractType relatedProcessID Hcs Hterms Htype Hid)
    as (o0 & -> & H0).
  destruct (copy_required_dict required contract o0) as (o1 & -> & H1).
  cbn [mbind result_bind].
  destruct (copy_not_required_dict not_required contract o1) as (o2 & -> & H2).
  exists o2. split; [done|]. intros k.
  rewrite H2, H1, H0. reflexivity.
Qed.

End ContractProperties.

(** X19. For an auction with an [id], a [contractTerms] that can be
    subscripted by ['type'] and a non-empty list of contracts whose last
    one is a dictionary, [make_contract] returns, and what it returns is
    known key by key: a not-required field with a truthy value wins over a
    required field, which wins over [mode], [merchandisingObject],
    [relatedProcessID] and [contractType]; no other key is written. *)
Theorem make_contract_fields :
  forall (required not_required : list string) (auction : pydict)
         (l : list value) (contract : pydict)
         (contractTerms contractType relatedProcessID : value),
    auction !! "contracts" = Some (VList (l ++ [VDict contract])) ->
    auction !! "contractTerms" = Some contractTerms ->
    subscript contractTerms "type" = Ok contractType ->
    auction !! "id" = Some relatedProcessID ->
    exists o : pydict,
      make_contract required not_required auction = Ok o
      /\ forall k,
          o !! k = contract_field required not_required auction contract
                     contractType relatedProcessID k.
Proof.
  intros required not_required auction l contract contractTerms contractType
    relatedProcessID.
  apply make_contract_lookup.
Qed.

Lemma make_contract_fields_witness :
  sample_auction !! "contracts" = Some (VList ([VDict ∅] ++ [VDict sample_contract]))
  /\ sample_auction !! "contractTerms" = Some (VDict {[ "type" := VStr "lease" ]})
  /\ subscript (VDict {[ "type" := VStr "lease" ]}) "type" = Ok (VStr "lease")
  /\ sample_auction !! "id" = Some (VStr "a1")
  /\ exists o : pydict,
      make_contract ["contractID"; "awardID"] ["description"; "title"]
        sample_auction = Ok o
      /\ o !! "contractID" = Some (VStr "UA-1")
      /\ o !! "awardID" = Some VNone
      /\ o !! "description" = None
      /\ o !! "mode" = Some (VStr "test").
Proof.
  assert (H1 : sample_auction !! "contracts"
               = Some (VList ([VDict ∅] ++ [VDict sample_contract])))
    by reflexivity.
  assert (H2 : sample_auction !! "contractTerms"
               = Some (VDict {[ "type" := VStr "lease" ]})) by reflexivity.
  assert (H3 : subscript (VDict {[ "type" := VStr "lease" ]}) "type"
               = Ok (VStr "lease")) by reflexivity.
  assert (H4 : sample_auction !! "id" = Some (VStr "a1")) by reflexivity.
  split; [exact H1|]. split; [exact H2|]. split; [exact H3|].
  split; [exact H4|].
  destruct (make_contract_fields ["contractID"; "awardID"]
              ["description"; "title"] sample_auction [VDict ∅]
              sample_contract _ _ _ H1 H2 H3 H4) as (o & Ho & Hk).
  exists o. split; [exact Ho|].
  rewrite !Hk. repeat split; reflexivity.
Defined.

(** X20. Only the last contract of the auction is read: the result,
    or the exception, is the same as for the auction with that contract
    alone. *)
Theorem make_contract_reads_last_contract_only :
  forall (required not_required : list string) (auction : pydict)
         (l : list value) (contract : value),
    auction !! "contracts" = Some (VList (l ++ [contract])) ->
    make_contract required not_required auction
    = make_contract required not_required
        (<["contracts" := VList [contract]]> auction).
Proof.
  intros required not_required auction l contract Hcs.
  unfold make_contract, munch_getattr, contains_key.
  rewrite Hcs, lookup_insert_eq. cbn [mbind result_bind].
  rewrite last_item_snoc.
  change (last_item (VList [contract])) with (@Ok value contract).
  cbn [mbind result_bind].
  by rewrite !lookup_insert_ne by done.
Qed.

Lemma make_contract_reads_last_contract_only_witness :
  sample_auction !! "contracts"
  = Some (VList ([VDict ∅] ++ [VDict sample_contract]))
  /\ make_contract ["contractID"] ["description"] sample_auction
     = make_contract ["contractID"] ["description"]
         (<["contracts" := VList [VDict sample_contract]]> sample_auction).
Proof.
  assert (H1 : sample_auction !! "contracts"
               = Some (VList ([VDict ∅] ++ [VDict sample_contract])))
    by reflexivity.
  split; [exact H1|].
  exact (make_contract_reads_last_contract_only ["contractID"] ["description"]
           sample_auction [VDict ∅] (VDict sample_contract) H1).
Defined.

(** X21. Every required field is in the result, with [None] when the
    contract lacks it.  A not-required field is in the result only when
    the contract has a truthy value for it: 0, the empty string, an empty
    list, [False] and [None] are dropped.  When [mode] is not one of the
    copied fields, the result has [mode] exactly when the auction has the
    key, and its value is then ['test'] whatever the auction's value. *)
Theorem make_contract_required_and_optional :
  forall (required not_required : list string) (auction : pydict)
         (l : list value) (contract : pydict)
         (contractTerms contractType relatedProcessID : value),
    auction !! "contracts" = Some (VList (l ++ [VDict contract])) ->
    auction !! "contractTerms" = Some contractTerms ->
    subscript contractTerms "type" = Ok contractType ->
    auction !! "id" = Some relatedProcessID ->
    exists o : pydict,
      make_contract required not_required auction = Ok o
      /\ (forall k, k ∈ required -> o !! k = Some (dict_get contract k))
      /\ (forall k, k ∈ not_required -> k ∉ required ->
                    k ∉ ["mode"; "merchandisingObject"; "relatedProcessID";
                         "contractType"] ->
                    o !! k = if truthy (dict_get contract k)
                             then contract !! k else None)
      /\ ("mode" ∉ required ++ not_required ->
          o !! "mode" = if contains_key auction "mode"
                        then Some (VStr "test") else None).
Proof.
  intros required not_required auction l contract contractTerms contractType
    relatedProcessID Hcs Hterms Htype Hid.
  destruct (make_contract_lookup required not_required auction l contract
              contractTerms contractType relatedProcessID Hcs Hterms Htype Hid)
    as (o & Ho & Hk).
  exists o. split; [exact Ho|]. split; [|split].
  - intros k Hin. rewrite Hk. unfold contract_field.
    rewrite (bool_decide_eq_true_2 (k ∈ required)) by done.
    by destruct (_ && _).
  - intros k Hin Hnot Hfixed. rewrite Hk. unfold contract_field.
    rewrite (bool_decide_eq_true_2 (k ∈ not_required)) by done.
    rewrite (bool_decide_eq_false_2 (k ∈ required)) by done.
    cbn [andb].
    destruct (truthy (dict_get contract k)) eqn:Ht.
    + unfold dict_get in *. destruct (contract !! k); done.
    + rewrite !elem_of_cons, elem_of_nil in Hfixed.
      destruct (String.eqb_spec k "mode"); [tauto|].
      destruct (String.eqb_spec k "merchandisingObject"); [tauto|].
      destruct (String.eqb_spec k "relatedProcessID"); [tauto|].
      destruct (String.eqb_spec k "contractType"); [tauto|]. done.
  - intros Hmode. rewrite Hk. unfold contract_field.
    rewrite elem_of_app in Hmode.
    rewrite (bool_decide_eq_false_2 ("mode" ∈ not_required)) by tauto.
    rewrite (bool_decide_eq_false_2 ("mode" ∈ required)) by tauto.
    change (String.eqb "mode" "mode") with true. cbn [andb].
    destruct (contains_key auction "mode"); [done|].
    reflexivity.
Qed.

Lemma make_contract_required_and_optional_witness :
  sample_auction !! "contracts"
  = Some (VList ([VDict ∅] ++ [VDict sample_contract]))
  /\ sample_auction !! "contractTerms" = Some (VDict {[ "type" := VStr "lease" ]})
  /\ subscript (VDict {[ "type" := VStr "lease" ]}) "type" = Ok (VStr "lease")
  /\ sample_auction !! "id" = Some (VStr "a1")
  /\ ("awardID" ∈ ["contractID"; "awardID"])
  /\ (("description" ∈ ["description"; "title"])
      /\ ("description" ∉ ["contractID"; "awardID"])
      /\ ("description" ∉ ["mode"; "merchandisingObject"; "relatedProcessID";
                           "contractType"]))
  /\ ("mode" ∉ ["contractID"; "awardID"] ++ ["description"; "title"])
  /\ exists o : pydict,
      make_contract ["contractID"; "awardID"] ["description"; "title"]
        sample_auction = Ok o
      /\ o !! "awardID" = Some (dict_get sample_contract "awardID")
      /\ o !! "description"
         = (if truthy (dict_get sample_contract "description")
            then sample_contract !! "description" else None)
      /\ o !! "mode" = (if contains_key sample_auction "mode"
                        then Some (VStr "test") else None).
Proof.
  assert (H1 : sample_auction !! "contracts"
               = Some (VList ([VDict ∅] ++ [VDict sample_contract])))
    by reflexivity.
  assert (H2 : sample_auction !! "contractTerms"
               = Some (VDict {[ "type" := VStr "lease" ]})) by reflexivity.
  assert (H3 : subscript (VDict {[ "type" := VStr "lease" ]}) "type"
               = Ok (VStr "lease")) by reflexivity.
  assert (H4 : sample_auction !! "id" = Some (VStr "a1")) by reflexivity.
  assert (H5 : "awardID" ∈ ["contractID"; "awardID"])
    by (apply (bool_decide_unpack _); reflexivity).
  assert (H6 : "description" ∈ ["description"; "title"])
    by (apply (bool_decide_unpack _); reflexivity).
  assert (H7 : "description" ∉ ["contractID"; "awardID"])
    by (apply (bool_decide_unpack _); reflexivity).
  assert (H8 : "description" ∉ ["mode"; "merchandisingObject";
                                 "relatedProcessID"; "contractType"])
    by (apply (bool_decide_unpack _); reflexivity).
  assert (H9 : "mode" ∉ ["contractID"; "awardID"] ++ ["description"; "title"])
    by (apply (bool_decide_unpack _); reflexivity).
  split; [exact H1|]. split; [exact H2|]. split; [exact H3|].
  split; [exact H4|]. split; [exact H5|].
  split; [split; [exact H6|split; [exact H7|exact H8]]|].
  split; [exact H9|].
  destruct (make_contract_required_and_optional ["contractID"; "awardID"]
              ["description"; "title"] sample_auction [VDict ∅]
              sample_contract _ _ _ H1 H2 H3 H4)
    as (o & Ho & Hreq & Hopt & Hmode).
  exists o. split; [exact Ho|].
  split; [exact (Hreq "awardID" H5)|].
  split; [exact (Hopt "description" H6 H7 H8)|exact (Hmode H9)].
Defined.

(** X22. What [make_contract] raises, in the order in which it reads
    the auction: [AttributeError('contracts')] without contracts,
    [IndexError] on an empty list of contracts, then
    [AttributeError('contractTerms')], [KeyError('type')] and
    [AttributeError('id')]; and, when there is a field to copy, the
    [AttributeError] of [.get] for a last contract that is not a
    dictionary. *)
Theorem make_contract_errors :
  forall (required not_required : list string) (auction : pydict),
    (auction !! "contracts" = None ->
     make_contract required not_required auction
     = Raise (raise_new AttributeError (VStr "contracts")))
    /\ (auction !! "contracts" = Some (VList []) ->
        make_contract required not_required auction
        = Raise (raise_new (OtherException "IndexError")
                   (VStr "list index out of range")))
    /\ (forall (l : list value) (contract : value),
           auction !! "contracts" = Some (VList (l ++ [contract])) ->
           (auction !! "contractTerms" = None ->
            make_contract required not_required auction
            = Raise (raise_new AttributeError (VStr "contractTerms")))
           /\ (forall terms : pydict,
                  auction !! "contractTerms" = Some (VDict terms) ->
                  terms !! "type" = None ->
                  make_contract required not_required auction
                  = Raise (raise_new KeyError (VStr "type")))
           /\ (forall contractTerms contractType : value,
                  auction !! "contractTerms" = Some contractTerms ->
                  subscript contractTerms "type" = Ok contractType ->
                  (auction !! "id" = None ->
                   make_contract required not_required auction
                   = Raise (raise_new AttributeError (VStr "id")))
                  /\ (forall relatedProcessID : value,
                         auction !! "id" = Some relatedProcessID ->
                         (forall c : pydict, contract <> VDict c) ->
                         required ++ not_required <> [] ->
                         make_contract required not_required auction
                         = Raise (raise_new AttributeError (VStr "get"))))).
Proof.
  intros required not_required auction.
  split; [|split].
  - intros Hcs. unfold make_contract, munch_getattr. by rewrite Hcs.
  - intros Hcs. unfold make_contract, munch_getattr. by rewrite Hcs.
  - intros l contract Hcs. split; [|split].
    + intros Hterms. unfold make_contract, munch_getattr.
      rewrite Hcs. cbn [mbind result_bind]. rewrite last_item_snoc.
      cbn [mbind result_bind]. by rewrite Hterms.
    + intros terms Hterms Htype. unfold make_contract, munch_getattr.
      rewrite Hcs. cbn [mbind result_bind]. rewrite last_item_snoc.
      cbn [mbind result_bind]. rewrite Hterms.
      cbn [mbind result_bind subscript]. unfold getitem. by rewrite Htype.
    + intros contractTerms contractType Hterms Htype. split.
      * intros Hid. unfold make_contract, munch_getattr.
        rewrite Hcs. cbn [mbind result_bind]. rewrite last_item_snoc.
        cbn [mbind result_bind]. rewrite Hterms. cbn [mbind result_bind].
        rewrite Htype. cbn [mbind result_bind]. by rewrite Hid.
      * intros relatedProcessID Hid Hcontract Hfields.
        destruct (make_contract_head required not_required auction l contract
                    contractTerms contractType relatedProcessID
                    Hcs Hterms Htype Hid) as (o & -> & _).
        rewrite copy_required_other by done.
        destruct required as [|f required]; [|done].
        cbn [mbind result_bind]. rewrite copy_not_required_other by done.
        by destruct not_required.
Qed.

Lemma make_contract_errors_witness :
  (∅ : pydict) !! "contracts" = None
  /\ make_contract ["contractID"] ["description"] ∅
     = Raise (raise_new AttributeError (VStr "contracts"))
  /\ ({[ "contracts" := VList [] ]} : pydict) !! "contracts" = Some (VList [])
  /\ make_contract ["contractID"] ["description"] {[ "contracts" := VList [] ]}
     = Raise (raise_new (OtherException "IndexError")
                (VStr "list index out of range")).
Proof.
  assert (H1 : (∅ : pydict) !! "contracts" = None) by reflexivity.
  assert (H2 : ({[ "contracts" := VList [] ]} : pydict) !! "contracts"
               = Some (VList [])) by reflexivity.
  split; [exact H1|].
  split; [exact (proj1 (make_contract_errors ["contractID"] ["description"] ∅)
                   H1)|].
  split; [exact H2|].
  exact (proj1 (proj2 (make_contract_errors ["contractID"] ["description"]
                         {[ "contracts" := VList [] ]})) H2).
Defined.

(** ** [init_clients]: the warning and the result *)

Section Warnings.

Variable env : environment.

Implicit Types (w : world) (config : pydict) (st : clients * list exception).

Lemma warnings_add_logs rs w :
  warnings (add_logs rs w) = warnings w ++ warning_msgs rs.
Proof. unfold warnings, warning_msgs. cbn [add_logs logger]. apply omap_app. Qed.

Lemma unwarned_ret {A} (a : A) : unwarned (mret a).
Proof. by intros w. Qed.

Lemma unwarned_lift {A} (r : result A) : unwarned (lift r).
Proof. by intros w. Qed.

Lemma unwarned_raise {A} (e : exception) : unwarned (@raise A e).
Proof. by intros w. Qed.

Lemma unwarned_call target method args :
  unwarned (call_service env target method args).
Proof. by intros w. Qed.

Lemma unwarned_log (r : log_record) : log_level r <> WARNING -> unwarned (log r).
Proof.
  intros Hl w. unfold log, warnings, warning_msgs. cbn [fst logger].
  rewrite omap_app. cbn [omap list_omap].
  destruct (log_level r); try done; cbn; by rewrite app_nil_r.
Qed.

Lemma unwarned_bind {A B} (m : M A) (k : A -> M B) :
  unwarned m -> (forall a, unwarned (k a)) -> unwarned (m ≫= k).
Proof.
  intros Hm Hk w. rewrite bind_run. specialize (Hm w).
  destruct (m w) as [w' [a|e]]; cbn [fst] in *; [|done].
  by rewrite Hk.
Qed.

Lemma unwarned_try_only {A} classes (body : M A) (handler : exception -> M A) :
  unwarned body -> (forall e, unwarned (handler e)) ->
  unwarned (try_except_only classes body handler).
Proof.
  intros Hb Hh w. unfold try_except_only. specialize (Hb w).
  destruct (body w) as [w' [a|e]]; cbn [fst] in *; [done|].
  destruct (isinstance e classes); [|done]. by rewrite Hh.
Qed.

Lemma unwarned_try {A} (body : M A) (handler : exception -> M A) :
  unwarned body -> (forall e, unwarned (handler e)) ->
  unwarned (try_except body handler).
Proof.
  intros Hb Hh w. unfold try_except. specialize (Hb w).
  destruct (body w) as [w' [a|e]]; cbn [fst] in *; [done|].
  by rewrite Hh.
Qed.

Ltac unwarned_step :=
  first
    [ apply unwarned_ret | apply unwarned_lift | apply unwarned_raise
    | apply unwarned_call
    | apply unwarned_log; discriminate
    | apply unwarned_bind; [|intros ?]
    | apply unwarned_try_only; [|intros ?]
    | apply unwarned_try; [|intros ?]
    | match goal with
      | |- unwarned (if ?b then _ else _) => destruct b
      | |- unwarned (let '(_, _) := ?x in _) => destruct x
      | |- unwarned (match ?x with _ => _ end) => destruct x
      end ].

Lemma unwarned_prepare_couchdb couch_url db_name :
  unwarned (prepare_couchdb env couch_url db_name).
Proof. unfold prepare_couchdb, LOGGER_error. repeat unwarned_step. Qed.

Lemma unwarned_couchdb_url config : unwarned (couchdb_url config).
Proof. unfold couchdb_url, LOGGER_info. repeat unwarned_step. Qed.

Lemma unwarned_prepare_auctions_mapping config (check : bool) :
  unwarned (prepare_auctions_mapping env config check).
Proof.
  unfold prepare_auctions_mapping, AuctionsMapping_init, am_put, am_has,
    am_get, am_delete, assert, LOGGER_info.
  repeat unwarned_step.
Qed.

Lemma unwarned_attempt name (construct : M clients) st :
  unwarned construct -> unwarned (attempt name construct st).
Proof.
  intros Hc w. rewrite attempt_run. specialize (Hc w).
  destruct (construct w) as [w1 [cs|e]]; cbn [fst] in *;
    rewrite warnings_add_logs, Hc; cbn; by rewrite app_nil_r.
Qed.

Lemma unwarned_init_client config key item st :
  unwarned (init_client env config key item st).
Proof.
  unfold init_client.
  repeat first [apply unwarned_attempt | unwarned_step].
Qed.

Lemma unwarned_init_each config (items : clients) st :
  unwarned (init_each env config items st).
Proof.
  revert st. induction items as [|[key item] items IH]; intros st.
  - apply unwarned_ret.
  - cbn [init_each]. apply unwarned_bind; [apply unwarned_init_client|].
    intros st'. apply IH.
Qed.

Lemma clients_get_set_ne (cs : clients) k k' v :
  k <> k' -> clients_get (clients_set cs k v) k' = clients_get cs k'.
Proof.
  intros Hne. induction cs as [|[k0 v0] cs IH]; simpl.
  - destruct (String.eqb_spec k k'); done.
  - destruct (String.eqb_spec k0 k) as [->|Hk]; simpl.
    + destruct (String.eqb_spec k k'); done.
    + destruct (String.eqb_spec k0 k'); done.
Qed.

(** The warnings of a run: the only one [init_clients] can log is the one
    about the document service, decided by the entry found under
    [auctions_client] after the loop over the clients. *)
Lemma init_clients_warnings config w :
  truthy (dict_get config "auctions") = true ->
  exists w0 w1 st1 auctions_client,
    init_each env config (configured_clients config)
      (configured_clients config, []) w0 = (w1, Ok st1)
    /\ clients_get (fst st1) "auctions_client" = Ok auctions_client
    /\ warnings (init_clients env config w).1
       = warnings w ++ (if negb (hasattr auctions_client "ds_client")
                        then [ds_warning] else []).
Proof.
  intros Hconf.
  unfold init_clients. cbv zeta. fold (configured_clients config).
  rewrite bind_run. unfold LOGGER_info at 1, log at 1. cbv beta iota.
  rewrite bind_run.
  match goal with
  | |- context [init_each env config ?items ?st ?w0] =>
      exists w0;
      destruct (init_each_run env config items st w0
                  (configured_clients_entries config))
        as (w1 & st1 & Hrun & _ & Hkeys);
      [|pose proof (unwarned_init_each config items st w0) as Hw1]
  end.
  { apply Forall_forall. intros kv Hkv. cbn [fst].
    apply list_elem_of_In, in_map_iff. exists kv. split; [done|].
    by apply list_elem_of_In. }
  rewrite Hrun in Hw1 |- *. cbn [fst] in Hw1.
  rewrite lift_bind.
  destruct (clients_get_present (fst st1) "auctions_client")
    as [auctions_client Hac].
  { rewrite Hkeys. by apply configured_clients_auctions. }
  exists w1, st1, auctions_client. split; [done|]. split; [done|].
  rewrite Hac, bind_run.
  assert (Hw0 : warnings w1 = warnings w).
  { rewrite Hw1. unfold warnings, warning_msgs. cbn [logger].
    rewrite omap_app. cbn. by rewrite app_nil_r. }
  match goal with
  | |- context [match ?warn w1 with _ => _ end] =>
      assert (Hwarn : exists w2,
                 warn w1 = (w2, Ok tt)
                 /\ warnings w2
                    = warnings w1
                        ++ (if negb (hasattr auctions_client "ds_client")
                            then [ds_warning] else []))
  end.
  { destruct (negb _).
    - eexists. split; [reflexivity|].
      unfold warnings, warning_msgs. cbn [logger]. by rewrite omap_app.
    - exists w1. split; [reflexivity|]. by rewrite app_nil_r. }
  destruct Hwarn as (w2 & -> & Hw2).
  rewrite <- Hw0, <- Hw2.
  match goal with
  | |- warnings (?rest w2).1 = _ =>
      assert (Hrest : unwarned rest); [|apply Hrest]
  end.
  repeat first [apply unwarned_attempt | apply unwarned_couchdb_url
               |apply unwarned_prepare_couchdb
               |apply unwarned_prepare_auctions_mapping | unwarned_step].
Qed.

Lemma configured_clients_table config :
  Forall (fun kv => exists section cls,
                      snd kv = client_entry section cls
                      /\ (fst kv = "auctions_client" -> cls = "AuctionsClient"))
    (configured_clients config).
Proof.
  apply Forall_forall. intros kv Hkv.
  apply list_elem_of_In, filter_In in Hkv as [Hin _].
  unfold clients_table in Hin. cbn [In] in Hin.
  destruct Hin as [<-|[<-|[<-|[<-|[]]]]]; by eexists _, _.
Qed.

Lemma configured_clients_get_auctions config :
  truthy (dict_get config "auctions") = true ->
  clients_get (configured_clients config) "auctions_client"
  = Ok (client_entry "auctions" "AuctionsClient").
Proof.
  intros Hconf. unfold configured_clients, clients_table.
  assert (Hin : section_in (client_entry "auctions" "AuctionsClient")
                  (List.filter (fun section => truthy (dict_get config section))
                     ["auctions"; "lots"; "assets"; "contracts"]) = true).
  { apply section_in_client_entry, filter_In. split; [by left|done]. }
  set (sections := List.filter _ ["auctions"; "lots"; "assets"; "contracts"])
    in *.
  cbn [List.filter snd]. rewrite Hin. reflexivity.
Qed.

(** While the constructor of [AuctionsClient] raises, the entry under
    [auctions_client] stays what it was. *)
Hypothesis ctor_fails :
  forall h args, exists e, env h "AuctionsClient" "__init__" args = Raise e.

Lemma init_client_keeps config key section cls st w w' st' :
  (key = "auctions_client" -> cls = "AuctionsClient") ->
  init_client env config key (client_entry section cls) st w = (w', Ok st') ->
  clients_get (fst st') "auctions_client"
  = clients_get (fst st) "auctions_client".
Proof using ctor_fails.
  intros Hkey. unfold init_client.
  rewrite lift_bind, client_entry_section. cbn [section_name].
  rewrite lift_bind, attempt_run.
  rewrite lift_bind, client_entry_class.
  cbn [mbind result_bind class_name].
  repeat (rewrite lift_bind;
          match goal with
          | |- context [match ?r with Ok _ => _ | Raise _ => _ end] =>
              destruct r as [?v|?e]; [|by intros [= <- <-]]
          end).
  rewrite bind_run, call_service_run.
  destruct (env (history w) cls "__init__" _) as [client|e] eqn:Hans;
    [|by intros [= <- <-]].
  cbn [mret M_ret]. intros [= <- <-]. cbn [fst].
  destruct (decide (key = "auctions_client")) as [->|Hne].
  - rewrite Hkey in Hans by done.
    match type of Hans with
    | env ?h _ _ ?a = _ => destruct (ctor_fails h a) as [e He]
    end.
    congruence.
  - by apply clients_get_set_ne.
Qed.

Lemma init_each_keeps config (items : clients) st w w' st' :
  Forall (fun kv => exists section cls,
                      snd kv = client_entry section cls
                      /\ (fst kv = "auctions_client" -> cls = "AuctionsClient"))
    items ->
  init_each env config items st w = (w', Ok st') ->
  clients_get (fst st') "auctions_client"
  = clients_get (fst st) "auctions_client".
Proof using ctor_fails.
  revert st w. induction items as [|[key item] items IH]; intros st w Hent.
  - by intros [= <- <-].
  - apply Forall_cons in Hent as [(section & cls & Hitem & Hkey) Hent].
    cbn [fst snd] in Hitem, Hkey. subst item.
    cbn [init_each]. rewrite bind_run.
    destruct (init_client env config key (client_entry section cls) st w)
      as [w1 [st1|e]] eqn:Hrun; [|done].
    intros Hrest. rewrite (IH _ _ Hent Hrest).
    by eapply init_client_keeps.
Qed.

End Warnings.

(** X23. With an [auctions] section, the only warning [init_clients]
    can log is the one about the document service, at most once.  It is
    logged whenever the constructor of [AuctionsClient] raises: the entry
    under [auctions_client] is then still the configuration dictionary,
    which has no [ds_client], whatever the configuration says about the
    document service. *)
Theorem init_clients_warns_without_ds_client :
  forall (env : environment) (config : pydict) (w : world),
    truthy (dict_get config "auctions") = true ->
    let r := init_clients env config w in
    (exists warned : bool,
        warnings r.1 = warnings w ++ (if warned then [ds_warning] else []))
    /\ ((forall h args,
            exists e, env h "AuctionsClient" "__init__" args = Raise e) ->
        warnings r.1 = warnings w ++ [ds_warning]).
Proof.
  intros env config w Hconf r. subst r.
  destruct (init_clients_warnings env config w Hconf)
    as (w0 & w1 & st1 & ac & Hrun & Hac & Hw).
  split; [by eexists|].
  intros Hfail. rewrite Hw.
  pose proof (init_each_keeps env Hfail config _ _ _ _ _
                (configured_clients_table config) Hrun) as Hkeep.
  cbn [fst] in Hkeep.
  rewrite configured_clients_get_auctions in Hkeep by done.
  rewrite Hac in Hkeep. injection Hkeep as ->. reflexivity.
Qed.

Lemma init_clients_warns_without_ds_client_witness :
  truthy (dict_get config_with_auctions "auctions") = true
  /\ warnings (init_clients env_unreachable config_with_auctions
                 no_filters_world).1
     = warnings no_filters_world ++ [ds_warning].
Proof.
  assert (H : truthy (dict_get config_with_auctions "auctions") = true)
    by reflexivity.
  split; [exact H|].
  apply (proj2 (init_clients_warns_without_ds_client env_unreachable
                  config_with_auctions no_filters_world H)).
  intros h args. exists connection_refused. reflexivity.
Defined.

Section Returned.

Variable env : environment.

Implicit Types (w : world) (config : pydict) (st : clients * list exception).







End Returned.


